(** * Heuristic phishing detection engine

    A shallow embedding of the request-based engine [app/detector.py], of its
    reputation adapter [app/services/url_reputation.py], and of the sender
    analysis of the standalone engine [phishing_detector.py], followed by the
    properties of the design document that concern them.

    Conventions of the embedding.
    - A Python [str] is a [string]: one [ascii] per code point, for text whose
      code points are below 256.  Character classes ([str.isspace],
      [str.lower], the regular-expression classes) follow Python on that range.
    - Python integers are [Z] or [nat] (lengths, indices, counts).
    - A Python [set] of strings is the list of its elements together with the
      order in which the interpreter iterates over it.  That order depends on
      the per-process string hash seed, so it is an explicit argument
      ([SetOrder]) of the functions that iterate over a set.
    - Library calls whose behaviour is not part of the repository
      ([tldextract.extract], [email.utils.parseaddr], the HTTP client, the
      process environment, [str()] of a decoded JSON value) are arguments of
      the functions that use them, gathered in [Libs].
    - A function that can raise returns a [result]. *)

From Stdlib Require Import ZArith NArith List String Ascii Bool Arith Lia.
From Stdlib Require Import Permutation QArith DecimalString.
Import ListNotations.
Close Scope Q_scope.
Open Scope list_scope.
Open Scope string_scope.

(* ================================================================= *)
(** * Python strings *)

Module PyStr.

Definition code (c : ascii) : N := N_of_ascii c.

Definition in_range (lo hi : N) (c : ascii) : bool :=
  ((lo <=? code c) && (code c <=? hi))%N.

Definition is_code (n : N) (c : ascii) : bool := (code c =? n)%N.

Definition is_ascii_upper (c : ascii) : bool := in_range 65 90 c.
Definition is_ascii_lower (c : ascii) : bool := in_range 97 122 c.
Definition is_ascii_letter (c : ascii) : bool :=
  is_ascii_upper c || is_ascii_lower c.
Definition is_ascii_digit (c : ascii) : bool := in_range 48 57 c.

(** [str.isspace] of one character, which is also the class [\s]:
    U+0009..U+000D, U+001C..U+0020, U+0085 and U+00A0. *)
Definition isspace (c : ascii) : bool :=
  in_range 9 13 c || in_range 28 32 c || is_code 133 c || is_code 160 c.

(** Characters with the Uppercase property: A-Z, U+00C0..U+00D6,
    U+00D8..U+00DE. *)
Definition is_upper_char (c : ascii) : bool :=
  is_ascii_upper c || in_range 192 214 c || in_range 216 222 c.

(** Characters with the Lowercase property: a-z, U+00AA, U+00B5, U+00BA,
    U+00DF..U+00F6, U+00F8..U+00FF. *)
Definition is_lower_char (c : ascii) : bool :=
  is_ascii_lower c || is_code 170 c || is_code 181 c || is_code 186 c
  || in_range 223 246 c || in_range 248 255 c.

(** The class [\w]: alphanumeric characters and the underscore.  Below 256
    the alphanumeric characters are the letters above, the decimal digits,
    the superscript digits U+00B2, U+00B3, U+00B9 and the fractions
    U+00BC..U+00BE. *)
Definition is_word_char (c : ascii) : bool :=
  is_upper_char c || is_lower_char c || is_ascii_digit c || is_code 95 c
  || is_code 178 c || is_code 179 c || is_code 185 c || in_range 188 190 c.

Definition lower_char (c : ascii) : ascii :=
  if is_upper_char c then ascii_of_N (code c + 32) else c.

(** [s.lower()] on code points below 256, where it maps character by
    character; [Wide.lower] covers the code point whose lower-case form is
    longer. *)
Fixpoint lower (s : string) : string :=
  match s with
  | EmptyString => EmptyString
  | String c s' => String (lower_char c) (lower s')
  end.

(** [s.startswith(p)] *)
Definition startswith (s p : string) : bool := prefix p s.

Fixpoint rev_str (acc s : string) : string :=
  match s with
  | EmptyString => acc
  | String c s' => rev_str (String c acc) s'
  end.

Definition reverse (s : string) : string := rev_str EmptyString s.

(** [s.endswith(p)] *)
Definition endswith (s p : string) : bool := prefix (reverse p) (reverse s).

(** [s.find(sub)], with [None] for -1: the least index at which [sub]
    occurs. *)
Definition find (s sub : string) : option nat := index 0 sub s.

(** [sub in s] *)
Definition contains (sub s : string) : bool :=
  match find s sub with Some _ => true | None => false end.

(** [s[a:b]] for indices [0 <= a]. *)
Definition slice (s : string) (a b : nat) : string := substring a (b - a) s.

Fixpoint lstrip (s : string) : string :=
  match s with
  | EmptyString => EmptyString
  | String c s' => if isspace c then lstrip s' else s
  end.

(** [s.strip()] *)
Definition strip (s : string) : string :=
  reverse (lstrip (reverse (lstrip s))).

(** [s.count(c)] for a one-character [c]. *)
Fixpoint count_char (c : ascii) (s : string) : nat :=
  match s with
  | EmptyString => 0
  | String d s' => (if Ascii.eqb c d then 1 else 0) + count_char c s'
  end.

Fixpoint existsb_str (p : ascii -> bool) (s : string) : bool :=
  match s with
  | EmptyString => false
  | String c s' => p c || existsb_str p s'
  end.

(** [s.isupper()]: no lowercase character and at least one uppercase one. *)
Definition isupper (s : string) : bool :=
  negb (existsb_str is_lower_char s) && existsb_str is_upper_char s.

(** The longest prefix of [s] made of characters in [p], and what follows. *)
Fixpoint span (p : ascii -> bool) (s : string) : string * string :=
  match s with
  | EmptyString => (EmptyString, EmptyString)
  | String c s' =>
      if p c then let (run, rest) := span p s' in (String c run, rest)
      else (EmptyString, s)
  end.

(** The maximal runs of characters in [p], left to right, given the run
    [cur] being read (in reverse). *)
Fixpoint runs_from (p : ascii -> bool) (cur : string) (s : string)
  : list string :=
  match s with
  | EmptyString =>
      match cur with EmptyString => [] | _ => [reverse cur] end
  | String c s' =>
      if p c then runs_from p (String c cur) s'
      else match cur with
           | EmptyString => runs_from p EmptyString s'
           | _ => reverse cur :: runs_from p EmptyString s'
           end
  end.

Definition runs (p : ascii -> bool) (s : string) : list string :=
  runs_from p EmptyString s.

(** [s.split()]: the maximal runs of non-whitespace characters. *)
Definition split (s : string) : list string :=
  runs (fun c => negb (isspace c)) s.

(** [s.split(c)[-1]] for a one-character separator: what follows the last
    occurrence of [c] (all of [s] when there is none). *)
Fixpoint after_last (c : ascii) (s : string) : string :=
  match s with
  | EmptyString => EmptyString
  | String d s' =>
      if existsb_str (Ascii.eqb c) s' then after_last c s'
      else if Ascii.eqb c d then s'
      else s
  end.

(** [s.split(c, 1)[1]] when [c] occurs in [s]: what follows its first
    occurrence. *)
Fixpoint after_first (c : ascii) (s : string) : string :=
  match s with
  | EmptyString => EmptyString
  | String d s' => if Ascii.eqb c d then s' else after_first c s'
  end.

(** [sep.join(l)] *)
Definition join (sep : string) (l : list string) : string := concat sep l.

(** [str(n)] for a non-negative integer. *)
Definition str_of_nat (n : nat) : string :=
  NilEmpty.string_of_uint (Nat.to_uint n).

(** [x in l] for a list of strings. *)
Definition mem (x : string) (l : list string) : bool :=
  existsb (String.eqb x) l.

(** Truthiness of a string. *)
Definition truthy (s : string) : bool :=
  match s with EmptyString => false | _ => true end.

(** [sorted(l)]: insertion sort by code point order. *)
Fixpoint insert_sorted (x : string) (l : list string) : list string :=
  match l with
  | [] => [x]
  | y :: t => if String.leb x y then x :: l else y :: insert_sorted x t
  end.

Definition sorted (l : list string) : list string :=
  fold_right insert_sorted [] l.

(** [l.append(x)] *)
Definition list_append {A : Type} (l : list A) (x : A) : list A :=
  List.app l [x].

(** Insertion of a key at the end of an insertion-ordered collection unless
    it is already there: [if x not in l: l.append(x)], and what adding a key
    to a [dict] or an element to the listing of a [set] amounts to. *)
Definition add_new (l : list string) (x : string) : list string :=
  if mem x l then l else list_append l x.

(** [list(dict.fromkeys(l))] *)
Definition dict_fromkeys (l : list string) : list string :=
  fold_left add_new l [].

End PyStr.

(* ================================================================= *)
(** * The regular expressions of the source

    Each pattern of the source is a matcher written for that pattern; the
    comment gives the pattern as it stands in the source text. *)

Module Re.
Import PyStr.

(** [re.findall] of a pattern [C{n,}] for a character class [C]: a greedy
    match at the first character of a maximal run takes the whole run, and
    a run shorter than [n] holds no match, so the matches are the maximal
    runs of length [n] or more. *)
Definition findall_class (p : ascii -> bool) (n : nat) (s : string)
  : list string :=
  filter (fun r => Nat.leb n (String.length r)) (runs p s).

(** [!{2,}] *)
Definition findall_exclamation_runs (s : string) : list string :=
  findall_class (is_code 33) 2 s.

(** [[A-Za-z']+] *)
Definition findall_words (s : string) : list string :=
  findall_class (fun c => is_ascii_letter c || is_code 39 c) 1 s.

(** [[?!.]{3,}] *)
Definition findall_punctuation_runs (s : string) : list string :=
  findall_class (fun c => is_code 63 c || is_code 33 c || is_code 46 c) 3 s.

(** [\s{3,}] *)
Definition findall_space_runs (s : string) : list string :=
  findall_class isspace 3 s.

(** [re.search] of [[0-9]] *)
Definition search_digit (s : string) : bool := existsb_str is_ascii_digit s.

(** [re.search] of [\d{3,}] *)
Definition search_three_digits (s : string) : bool :=
  match findall_class is_ascii_digit 3 s with [] => false | _ => true end.

(** [re.search] of a pattern made of [(.)] followed by the literal text
    [lit]: some character other than a newline is followed by [lit]. *)
Fixpoint search_dot_then (lit s : string) : bool :=
  match s with
  | EmptyString => false
  | String c s' => (negb (is_code 10 c) && prefix lit s') || search_dot_then lit s'
  end.

(** [re.search] of the raw pattern [(.)\\1\\1].  In a raw string the two
    characters [\\] are an escaped backslash, so the pattern reads: any
    character, a backslash, the digit 1, a backslash, the digit 1. *)
Definition search_dot_bs1_bs1 (s : string) : bool :=
  search_dot_then "\1\1" s.

(** [re.search] of the raw pattern [(.)\\1{2,}]: any character, a
    backslash, then two or more digits 1. *)
Definition search_dot_bs_ones (s : string) : bool :=
  search_dot_then "\11" s.

(** [\d{1,3}] where what follows cannot start with a digit: a run of one
    to three digits; the result is what follows the run. *)
Definition digits_1_3 (s : string) : option string :=
  let (d, rest) := span is_ascii_digit s in
  if Nat.leb 1 (String.length d) && Nat.leb (String.length d) 3 then Some rest
  else None.

(** [\d{1,3}\.] *)
Definition digits_1_3_dot (s : string) : option string :=
  match digits_1_3 s with
  | Some (String c rest) => if is_code 46 c then Some rest else None
  | _ => None
  end.

(** [re.fullmatch] of [(?:\d{1,3}\.){3}\d{1,3}] *)
Definition fullmatch_ipv4 (s : string) : bool :=
  match digits_1_3_dot s with
  | Some r1 =>
      match digits_1_3_dot r1 with
      | Some r2 =>
          match digits_1_3_dot r2 with
          | Some r3 =>
              match digits_1_3 r3 with
              | Some EmptyString => true
              | _ => false
              end
          | None => false
          end
      | None => false
      end
  | None => false
  end.

(** ** URL_REGEX

    The pattern is compiled with the flag [(?i)] and reads, with U standing
    for the negated class of whitespace, the two angle brackets, the double
    quote and the apostrophe:

      \b( (?:https?://|www\.)U+ | [a-z0-9\-\_]+\.[a-z]{2,}(?:/U{0,})? )  *)

(** The class U. *)
Definition url_char (c : ascii) : bool :=
  negb (isspace c || is_code 60 c || is_code 62 c || is_code 34 c
        || is_code 39 c).

(** [[a-z0-9\-\_]] under [(?i)] *)
Definition label_char (c : ascii) : bool :=
  is_ascii_letter c || is_ascii_digit c || is_code 45 c || is_code 95 c.

(** A literal under [(?i)]: the text starts with [lit] up to letter case.
    The result is the matched text and what follows it. *)
Fixpoint match_literal_ci (lit s : string) : option (string * string) :=
  match lit, s with
  | EmptyString, _ => Some (EmptyString, s)
  | String a lit', String c s' =>
      if Ascii.eqb (lower_char a) (lower_char c) then
        match match_literal_ci lit' s' with
        | Some (m, rest) => Some (String c m, rest)
        | None => None
        end
      else None
  | String _ _, EmptyString => None
  end.

(** One alternative of [(?:https?://|www\.)] followed by [U+]. *)
Definition match_scheme (lit s : string) : option string :=
  match match_literal_ci lit s with
  | Some (m, rest) =>
      match fst (span url_char rest) with
      | EmptyString => None
      | run => Some (m ++ run)
      end
  | None => None
  end.

(** [[a-z0-9\-\_]+\.[a-z]{2,}(?:/U{0,})?]: the label run is maximal
    because the dot that must follow is not in its class; the letter run
    and the optional path are greedy and nothing follows them. *)
Definition match_bare_domain (s : string) : option string :=
  let (label, r1) := span label_char s in
  match label, r1 with
  | String _ _, String dot r2 =>
      if is_code 46 dot then
        let (tld, r3) := span is_ascii_letter r2 in
        if Nat.leb 2 (String.length tld) then
          match r3 with
          | String slash r4 =>
              if is_code 47 slash
              then Some (label ++ String dot tld
                           ++ String slash (fst (span url_char r4)))
              else Some (label ++ String dot tld)
          | EmptyString => Some (label ++ String dot tld)
          end
        else None
      else None
  | _, _ => None
  end.

(** The group of [URL_REGEX] at the start of [s], alternatives in order. *)
Definition match_url (s : string) : option string :=
  match match_scheme "https://" s with
  | Some m => Some m
  | None =>
      match match_scheme "http://" s with
      | Some m => Some m
      | None =>
          match match_scheme "www." s with
          | Some m => Some m
          | None => match_bare_domain s
          end
      end
  end.

(** [\b] between the character before the position (if any) and the one at
    the position (if any). *)
Definition word_boundary (prev cur : option ascii) : bool :=
  let w o := match o with Some c => is_word_char c | None => false end in
  xorb (w prev) (w cur).

(** The scan of [findall]: [prev] is the character before [s], [skip] the
    number of characters of [s] still covered by the last match. *)
Fixpoint url_scan (prev : option ascii) (skip : nat) (s : string)
  : list string :=
  match s with
  | EmptyString => []
  | String c s' =>
      match skip with
      | S k => url_scan (Some c) k s'
      | O =>
          if word_boundary prev (Some c) then
            match match_url s with
            | Some m => m :: url_scan (Some c) (String.length m - 1) s'
            | None => url_scan (Some c) 0 s'
            end
          else url_scan (Some c) 0 s'
      end
  end.

(** [URL_REGEX.findall(s)]: the pattern has one group, which spans the
    whole match, so the result is the list of matched texts. *)
Definition URL_REGEX_findall (s : string) : list string :=
  url_scan None 0 s.

End Re.

(* ================================================================= *)
(** * Data model ([app/models.py]) *)

Inductive RiskLevel : Type := low | medium | high.

Record Finding : Type := {
  category : string;
  description : string;
  severity : RiskLevel;
  evidence : list string
}.

(** The field [findings] of [URLInsight] is named [insight_findings] here:
    [EmailAnalysisResponse] has a field of the same name. *)
Record URLInsight : Type := {
  url : string;
  reputation : option string;
  status : option string;
  details : option string;
  insight_findings : list string
}.

Record EmailAnalysisRequest : Type := {
  subject : string;
  body : string;
  sender : option string;
  sender_name : option string;
  reply_to : option string;
  urls : list string;
  attachments : list string;
  headers : option string
}.

Record EmailAnalysisResponse : Type := {
  overall_risk : RiskLevel;
  score : Z;
  findings : list Finding;
  url_insights : list URLInsight;
  recommendations : list string
}.

(* ================================================================= *)
(** * Libraries and interpreter state *)

(** The value of [tldextract.extract]. *)
Record ExtractResult : Type := {
  subdomain : string;
  domain : string;
  suffix : string
}.

(** The order in which the interpreter iterates over each of the three
    module-level sets of [app/detector.py]. *)
Record SetOrder : Type := {
  URGENT_PHRASES_iter : list string;
  SENSITIVE_KEYWORDS_iter : list string;
  SUSPICIOUS_ATTACHMENT_EXTENSIONS_iter : list string
}.

(** Python exceptions that the modelled code can let escape. *)
Inductive exn : Type :=
| JSONDecodeError | AttributeError | TypeError | KeyError.

Inductive result (A : Type) : Type :=
| Ok (a : A)
| Raise (e : exn).
Arguments Ok {A} a.
Arguments Raise {A} e.

Definition bind {A B : Type} (r : result A) (k : A -> result B) : result B :=
  match r with
  | Ok a => k a
  | Raise e => Raise e
  end.

Notation "x <- r ;; k" := (bind r (fun x => k))
  (at level 61, r at next level, right associativity).

#[local] Unset Elimination Schemes.

(** A decoded JSON document.  A [JDict] lists the items of the [dict], one
    per key.  [JFloat] carries whether the number compares equal to zero and
    its [repr]. *)
Inductive JSON : Type :=
| JNull
| JBool (b : bool)
| JInt (z : Z)
| JFloat (is_zero : bool) (repr : string)
| JStr (s : string)
| JList (l : list JSON)
| JDict (items : list (string * JSON)).

#[local] Set Elimination Schemes.

(** What [client.get(...)] followed by [response.raise_for_status()] does:
    it raises an [httpx.HTTPError] whose text is [exc], or it returns a
    response, whose [json()] raises or returns the decoded document. *)
Inductive http_outcome : Type :=
| HTTPError (exc : string)
| Response (json : result JSON).

(** The library calls of the engine:
    - [tldextract.extract(url)];
    - [email.utils.parseaddr(address)];
    - [os.getenv] of URLSCAN_API_KEY;
    - the GET request to the urlscan search endpoint, given the API key sent
      in the headers and the query parameter [q];
    - [str(v)] of a decoded JSON value, as an f-string formats it. *)
Record Libs : Type := {
  tldextract_extract : string -> ExtractResult;
  parseaddr : string -> string * string;
  getenv_URLSCAN_API_KEY : option string;
  client_get : string -> string -> http_outcome;
  py_str : JSON -> string
}.

(* ================================================================= *)
(** * The reputation adapter ([app/services/url_reputation.py]) *)

Module UrlReputation.
Import PyStr.

Section WithLibraries.
Variable libs : Libs.

Definition _domain_from_url (url : string) : option string :=
  let extracted := tldextract_extract libs url in
  if negb (truthy (domain extracted)) then None
  else
    let parts :=
      if truthy (suffix extracted)
      then [domain extracted; suffix extracted]
      else [domain extracted] in
    Some (lower (join "." parts)).

(** Truthiness of a decoded JSON value. *)
Definition json_truthy (v : JSON) : bool :=
  match v with
  | JNull => false
  | JBool b => b
  | JInt z => negb (z =? 0)%Z
  | JFloat is_zero _ => negb is_zero
  | JStr s => truthy s
  | JList l => match l with [] => false | _ => true end
  | JDict items => match items with [] => false | _ => true end
  end.

(** [v == 0] *)
Definition json_eq_zero (v : JSON) : bool :=
  match v with
  | JBool b => negb b
  | JInt z => (z =? 0)%Z
  | JFloat is_zero _ => is_zero
  | _ => false
  end.

Fixpoint assoc (k : string) (items : list (string * JSON)) : option JSON :=
  match items with
  | [] => None
  | (k', v) :: rest => if String.eqb k k' then Some v else assoc k rest
  end.

(** [d.get(k, default)]: only a [dict] has the method. *)
Definition dict_get (d : JSON) (k : string) (default : JSON) : result JSON :=
  match d with
  | JDict items =>
      Ok (match assoc k items with Some v => v | None => default end)
  | _ => Raise AttributeError
  end.

(** [v[0]] for a truthy [v]. *)
Definition first_item (v : JSON) : result JSON :=
  match v with
  | JList (x :: _) => Ok x
  | JStr (String c _) => Ok (JStr (String c EmptyString))
  | JDict _ => Raise KeyError
  | _ => Raise TypeError
  end.

Fixpoint chars (s : string) : list string :=
  match s with
  | EmptyString => []
  | String c s' => String c EmptyString :: chars s'
  end.

Fixpoint all_strings (l : list JSON) : option (list string) :=
  match l with
  | [] => Some []
  | JStr s :: rest =>
      match all_strings rest with
      | Some ss => Some (s :: ss)
      | None => None
      end
  | _ :: _ => None
  end.

(** [', '.join(v)] for a truthy [v]: the items of a list must be strings, a
    string gives its characters, a dict its keys. *)
Definition join_categories (v : JSON) : result string :=
  match v with
  | JList l =>
      match all_strings l with
      | Some ss => Ok (join ", " ss)
      | None => Raise TypeError
      end
  | JStr s => Ok (join ", " (chars s))
  | JDict items => Ok (join ", " (map fst items))
  | _ => Raise TypeError
  end.

Definition is_null (v : JSON) : bool :=
  match v with JNull => true | _ => false end.

Definition _parse_urlscan_response (url : string) (payload : JSON)
  : result URLInsight :=
  total <- dict_get payload "total" (JInt 0) ;;
  if json_eq_zero total then
    Ok {| url := url;
          reputation := Some "no-data";
          status := Some "clean";
          details := Some "No prior scans found for this domain.";
          insight_findings := [] |}
  else
    results <- dict_get payload "results" (JList []) ;;
    latest <- (if json_truthy results then first_item results
               else Ok (JDict [])) ;;
    verdicts <- dict_get latest "verdicts" (JDict []) ;;
    overall <- dict_get verdicts "overall" (JDict []) ;;
    malicious <- dict_get overall "malicious" JNull ;;
    score <- dict_get overall "score" JNull ;;
    categories0 <- dict_get overall "categories" JNull ;;
    let categories :=
      if json_truthy categories0 then categories0 else JList [] in
    let status := if json_truthy malicious then "malicious" else "review" in
    let rep := if json_truthy malicious then "block" else "suspicious" in
    findings1 <- (if json_truthy categories
                  then joined <- join_categories categories ;;
                       Ok ["Categories: " ++ joined]
                  else Ok []) ;;
    let findings :=
      if negb (is_null score)
      then list_append findings1 ("Verdict score: " ++ py_str libs score)
      else findings1 in
    Ok {| url := url;
          reputation := Some rep;
          status := Some status;
          details := Some ("Observed in " ++ py_str libs total
                           ++ " urlscan submission(s).");
          insight_findings := findings |}.

Definition unavailable_insight (url : string) : URLInsight :=
  {| url := url;
     reputation := None;
     status := Some "unavailable";
     details :=
       Some "No URLSCAN_API_KEY configured; skipped live reputation lookup.";
     insight_findings := [] |}.

(** The body of the [for] loop, [insights] being the list built so far. *)
Fixpoint lookup_loop (api_key : string) (urls : list string)
  (insights : list URLInsight) : result (list URLInsight) :=
  match urls with
  | [] => Ok insights
  | url :: rest =>
      match _domain_from_url url with
      | None =>
          lookup_loop api_key rest
            (list_append insights
               {| url := url;
                  reputation := None;
                  status := Some "unknown";
                  details :=
                    Some "Unable to extract domain for reputation check.";
                  insight_findings := [] |})
      | Some domain =>
          match client_get libs api_key ("domain:" ++ domain) with
          | HTTPError exc =>
              lookup_loop api_key rest
                (list_append insights
                   {| url := url;
                      reputation := None;
                      status := Some "error";
                      details := Some ("urlscan lookup failed: " ++ exc);
                      insight_findings := [] |})
          | Response json =>
              payload <- json ;;
              insight <- _parse_urlscan_response url payload ;;
              lookup_loop api_key rest (list_append insights insight)
          end
      end
  end.

Definition lookup_urls (urls : list string) : result (list URLInsight) :=
  match urls with
  | [] => Ok []
  | _ =>
      match getenv_URLSCAN_API_KEY libs with
      | None => Ok (map unavailable_insight urls)
      | Some api_key =>
          if negb (truthy api_key) then Ok (map unavailable_insight urls)
          else lookup_loop api_key urls []
      end
  end.

End WithLibraries.
End UrlReputation.

(* ================================================================= *)
(** * The request-based engine ([app/detector.py]) *)

Module Detector.
Import PyStr.

Definition nl : string := String (ascii_of_N 10) EmptyString.

Definition URGENT_PHRASES : list string :=
  [ "act now"; "asap"; "bank verification needed"; "urgent"; "immediately";
    "limited time"; "suspend"; "verify your account"; "password expires";
    "account locked"; "payment required" ].

Definition SENSITIVE_KEYWORDS : list string :=
  [ "password"; "passcode"; "credit card"; "debit card"; "social security";
    "ssn"; "account number"; "pin"; "verification code"; "bank routing";
    "tax id" ].

Definition SUSPICIOUS_ATTACHMENT_EXTENSIONS : list string :=
  [ ".exe"; ".scr"; ".bat"; ".js"; ".vbs"; ".cmd"; ".com"; ".pif"; ".jar";
    ".cpl"; ".ps1" ].

Definition COMMON_ENGLISH_WORDS : list string :=
  [ "the"; "be"; "to"; "of"; "and"; "a"; "in"; "that"; "have"; "i"; "it";
    "for"; "not"; "on"; "with"; "he"; "as"; "you"; "do"; "at"; "this";
    "but"; "his"; "by"; "from"; "they"; "we"; "say"; "her"; "she"; "or";
    "an"; "will"; "my"; "one"; "all"; "would"; "there"; "their" ].

Definition COMMON_BIGRAMS : list (ascii * ascii) :=
  [ ("t", "h"); ("h", "e"); ("a", "n"); ("e", "r"); ("r", "e"); ("i", "n");
    ("o", "n"); ("n", "d"); ("e", "n"); ("t", "o"); ("e", "s");
    ("o", "f") ]%char.

(** An interpreter state is well formed when each iteration order lists the
    elements of its set, each once. *)
Definition well_formed (o : SetOrder) : Prop :=
  Permutation (URGENT_PHRASES_iter o) URGENT_PHRASES
  /\ Permutation (SENSITIVE_KEYWORDS_iter o) SENSITIVE_KEYWORDS
  /\ Permutation (SUSPICIOUS_ATTACHMENT_EXTENSIONS_iter o)
       SUSPICIOUS_ATTACHMENT_EXTENSIONS.

(** The iteration order that follows the set displays of the source. *)
Definition source_order : SetOrder := {|
  URGENT_PHRASES_iter := URGENT_PHRASES;
  SENSITIVE_KEYWORDS_iter := SENSITIVE_KEYWORDS;
  SUSPICIOUS_ATTACHMENT_EXTENSIONS_iter := SUSPICIOUS_ATTACHMENT_EXTENSIONS
|}.

(** Truthiness of a value that is [None] or a string. *)
Definition truthy_opt (o : option string) : bool :=
  match o with Some s => truthy s | None => false end.

Definition nonempty {A : Type} (l : list A) : bool :=
  match l with [] => false | _ => true end.

(** ** Helpers that need no library *)

Definition _domain_from_email (email_address : option string)
  : option string :=
  match email_address with
  | None => None
  | Some e =>
      if negb (truthy e) || negb (contains "@" e) then None
      else Some (strip (lower (after_last "@" e)))
  end.

Definition _looks_like_ip (domain : string) : bool :=
  Re.fullmatch_ipv4 domain.

(** [domain.replace(".", "")] *)
Fixpoint remove_dots (s : string) : string :=
  match s with
  | EmptyString => EmptyString
  | String c s' => if is_code 46 c then remove_dots s'
                   else String c (remove_dots s')
  end.

Definition _has_typosquatting_pattern (domain : string) : bool :=
  let suspicious_patterns :=
    ["paypal-secure"; "micros0ft"; "app1e"; "verificati0n"] in
  if existsb (fun pattern => contains pattern domain) suspicious_patterns
  then true
  else Re.search_dot_bs_ones (remove_dots domain).

Definition _extract_context_window (body : string) (keywords : list string)
  (window : nat) : list string :=
  let lowered := lower body in
  fold_left
    (fun snippets keyword =>
       match find lowered keyword with
       | None => snippets
       | Some start =>
           let snippet :=
             slice body (start - window)
                   (start + String.length keyword + window) in
           list_append snippets (strip snippet)
       end)
    keywords [].

Definition _extract_context (body : string) (keywords : list string)
  : list string :=
  _extract_context_window body keywords 40.

(** [zip(token, token[1:])] *)
Fixpoint bigrams (token : string) : list (ascii * ascii) :=
  match token with
  | String a ((String b _) as rest) => (a, b) :: bigrams rest
  | _ => []
  end.

Definition is_common_bigram (bg : ascii * ascii) : bool :=
  existsb (fun cb => Ascii.eqb (fst bg) (fst cb) && Ascii.eqb (snd bg) (snd cb))
          COMMON_BIGRAMS.

(** [math.ceil(n / 3)] for a length [n]. *)
Definition ceil_third (n : nat) : nat := Nat.div (n + 2) 3.

Definition looks_unusual (token : string) : bool :=
  let token := lower token in
  if Nat.leb (String.length token) 3 then false
  else if mem token COMMON_ENGLISH_WORDS then false
  else if Re.search_digit token then true
  else if Re.search_dot_bs1_bs1 token then true
  else
    let rare_bigrams :=
      List.length (filter (fun bg => negb (is_common_bigram bg))
                          (bigrams token)) in
    Nat.leb (Nat.max 2 (ceil_third (String.length token))) rare_bigrams.

(** The quotient [unusual_count / len(words)] is kept exact. *)
Definition _estimate_spelling_issues (words : list string) : Q :=
  match words with
  | [] => 0%Q
  | _ =>
      let unusual_count := List.length (filter looks_unusual words) in
      (Z.of_nat unusual_count # Pos.of_nat (List.length words))%Q
  end.

Definition weights (r : RiskLevel) : Z :=
  match r with low => 10 | medium => 20 | high => 35 end%Z.

Definition _score_findings (findings : list Finding) : Z * RiskLevel :=
  let score := fold_left (fun acc finding => acc + weights (severity finding))%Z
                         findings 0%Z in
  let score := Z.min 100 score in
  let risk :=
    if (60 <=? score)%Z then high
    else if (30 <=? score)%Z then medium
    else low in
  (score, risk).

Definition is_high (r : RiskLevel) : bool :=
  match r with high => true | _ => false end.

Definition _build_recommendations (risk : RiskLevel) (findings : list Finding)
  (has_urls : bool) : list string :=
  let recommendations := [] in
  let recommendations :=
    if is_high risk
    then list_append recommendations
           "Do not interact with the email. Report it to your security team."
    else recommendations in
  let recommendations :=
    if existsb (fun f => String.eqb (category f) "Sensitive Data Request") findings
    then list_append recommendations
           "Never share credentials or personal information via email links."
    else recommendations in
  let recommendations :=
    if has_urls
    then list_append recommendations
           "Hover over links to inspect destinations before clicking."
    else recommendations in
  let recommendations :=
    if existsb (fun f => String.eqb (category f) "Sender Domain Mismatch") findings
    then list_append recommendations
           "Verify the sender through a known, trusted communication channel."
    else recommendations in
  if nonempty recommendations then recommendations
  else ["Email appears lower risk but remain vigilant."].

(** ** The detectors *)

Section WithLibraries.
Variable libs : Libs.
Variable order : SetOrder.

Definition _normalize_email (email_address : option string) : option string :=
  match email_address with
  | None => None
  | Some e =>
      if negb (truthy e) then None
      else
        let parsed := snd (parseaddr libs e) in
        if truthy parsed then Some (lower parsed) else None
  end.

Definition _domain_from_url (url : option string) : option string :=
  match url with
  | None => None
  | Some u =>
      if negb (truthy u) then None
      else
        let extracted := tldextract_extract libs u in
        if negb (truthy (domain extracted)) then None
        else
          let parts :=
            if truthy (suffix extracted)
            then [domain extracted; suffix extracted]
            else [domain extracted] in
          Some (lower (join "." parts))
  end.

Definition _collect_urls (payload : EmailAnalysisRequest) : list string :=
  let urls := dict_fromkeys (urls payload) in
  let matches := Re.URL_REGEX_findall (body payload) in
  fold_left
    (fun urls match_ =>
       let url :=
         if startswith (lower match_) "www." then "https://" ++ match_
         else match_ in
       if negb (mem url urls) then list_append urls url else urls)
    matches urls.

Definition _detect_urgency (payload : EmailAnalysisRequest) : list Finding :=
  let text := lower (subject payload ++ nl ++ body payload) in
  let evidence :=
    filter (fun phrase =>
              contains phrase text && Nat.ltb 3 (String.length phrase))
           (URGENT_PHRASES_iter order) in
  let excessive_caps :=
    List.length
      (filter (fun word => isupper word && Nat.ltb 3 (String.length word))
              (split (body payload))) in
  let exclamation_runs :=
    List.length (Re.findall_exclamation_runs (body payload)) in
  let details := [] in
  let details :=
    if nonempty evidence
    then list_append details
           ("Urgency phrases detected: " ++ join ", " (sorted evidence))
    else details in
  let details :=
    if Nat.leb 3 excessive_caps
    then list_append details "Multiple all-caps words detected."
    else details in
  let details :=
    if negb (Nat.eqb exclamation_runs 0)
    then list_append details "Repeated exclamation marks found."
    else details in
  if negb (nonempty details) then []
  else
    let severity :=
      if Nat.eqb (List.length details) 1 then medium else high in
    [ {| category := "Urgency Tactics";
         description := "Signals of artificial urgency present in subject/body.";
         severity := severity;
         evidence := details |} ].

(** The elements of the set comprehension over the URL domains; the set is
    only tested for emptiness and membership, and sorted. *)
Definition url_domain_set (urls : list string) : list string :=
  dict_fromkeys
    (flat_map (fun u =>
                 match _domain_from_url (Some u) with
                 | Some d => if truthy d then [d] else []
                 | None => []
                 end)
              urls).

Definition _detect_sender_anomalies (payload : EmailAnalysisRequest)
  (urls : list string) : list Finding :=
  let findings := [] in
  let sender_email := _normalize_email (sender payload) in
  let reply_to_email := _normalize_email (reply_to payload) in
  let sender_domain :=
    if truthy_opt sender_email then _domain_from_email sender_email
    else None in
  let reply_to_domain :=
    if truthy_opt reply_to_email then _domain_from_email reply_to_email
    else None in
  let evidence := [] in
  let evidence :=
    match sender_domain, reply_to_domain with
    | Some sd, Some rd =>
        if truthy sd && truthy rd && negb (String.eqb sd rd)
        then list_append evidence
               ("Sender domain `" ++ sd ++ "` differs from reply-to `"
                ++ rd ++ "`.")
        else evidence
    | _, _ => evidence
    end in
  let url_domains := url_domain_set urls in
  let evidence :=
    match sender_domain with
    | Some sd =>
        if truthy sd && nonempty url_domains && negb (mem sd url_domains)
        then
          let sample := join ", " (firstn 3 (sorted url_domains)) in
          list_append evidence
            ("Links point to domains (" ++ sample
             ++ ") that do not match sender domain `" ++ sd ++ "`.")
        else evidence
    | None => evidence
    end in
  if nonempty evidence
  then list_append findings
         {| category := "Sender Domain Mismatch";
            description :=
              "Sender information conflicts with link or reply-to domains.";
            severity :=
              if Nat.ltb 1 (List.length evidence) then high else medium;
            evidence := evidence |}
  else findings.

Definition _detect_sensitive_requests (payload : EmailAnalysisRequest)
  : list Finding :=
  let text := lower (body payload) in
  let hits :=
    filter (fun kw => contains kw text) (SENSITIVE_KEYWORDS_iter order) in
  if negb (nonempty hits) then []
  else
    let context_snippets := _extract_context (body payload) hits in
    [ {| category := "Sensitive Data Request";
         description :=
           "Email references requests for sensitive or credential information.";
         severity := high;
         evidence :=
           if nonempty context_snippets then context_snippets else hits |} ].

(** One turn of the loop over the URLs, on the pair of the running
    [severity] and [evidence]. *)
Definition link_step (state : RiskLevel * list string) (url : string)
  : RiskLevel * list string :=
  let (severity, evidence) := state in
  match _domain_from_url (Some url) with
  | None => state
  | Some domain =>
      if negb (truthy domain) then state
      else
        let (severity, evidence) :=
          if _looks_like_ip domain
          then (high,
                list_append evidence ("URL `" ++ url ++ "` uses raw IP address."))
          else if _has_typosquatting_pattern domain
          then (high,
                list_append evidence
                  ("Domain `" ++ domain ++ "` appears typosquatted."))
          else (severity, evidence) in
        let evidence :=
          if startswith (lower url) "http://"
          then list_append evidence
                 ("URL `" ++ url ++ "` is not served over HTTPS.")
          else evidence in
        (severity, evidence)
  end.

Definition _detect_suspicious_links (payload : EmailAnalysisRequest)
  (urls : list string) : list Finding :=
  if negb (nonempty urls) then []
  else
    let (severity, evidence) := fold_left link_step urls (medium, []) in
    let evidence :=
      if Nat.ltb 5 (List.length urls)
      then list_append evidence
             ("Email contains a high number of links ("
              ++ str_of_nat (List.length urls) ++ ").")
      else evidence in
    if negb (nonempty evidence) then []
    else
      [ {| category := "Suspicious Links";
           description :=
             "Potentially malicious URLs detected in message body.";
           severity := severity;
           evidence := evidence |} ].

Definition _detect_attachment_risk (payload : EmailAnalysisRequest)
  : list Finding :=
  if negb (nonempty (attachments payload)) then []
  else
    let flagged :=
      filter (fun name =>
                existsb (fun ext => endswith (lower name) ext)
                        (SUSPICIOUS_ATTACHMENT_EXTENSIONS_iter order))
             (attachments payload) in
    if negb (nonempty flagged) then []
    else
      [ {| category := "Suspicious Attachments";
           description :=
             "Attachments carry extensions commonly used in malware.";
           severity := high;
           evidence := flagged |} ].

(** [misspell_indicator > 0.2] on the exact quotient. *)
Definition exceeds_fifth (ratio : Q) : bool := negb (Qle_bool ratio (2 # 10)).

Definition _detect_language_anomalies (payload : EmailAnalysisRequest)
  : list Finding :=
  let text := body payload in
  let words := Re.findall_words text in
  if Nat.ltb (List.length words) 20 then []
  else
    let misspell_indicator := _estimate_spelling_issues words in
    let punctuation_runs := List.length (Re.findall_punctuation_runs text) in
    let inconsistent_spacing := List.length (Re.findall_space_runs text) in
    let evidence := [] in
    let evidence :=
      if exceeds_fifth misspell_indicator
      then list_append evidence "High ratio of uncommon words detected."
      else evidence in
    let evidence :=
      if negb (Nat.eqb punctuation_runs 0)
      then list_append evidence "Repeated punctuation suggests informal tone."
      else evidence in
    let evidence :=
      if negb (Nat.eqb inconsistent_spacing 0)
      then list_append evidence
             "Irregular spacing/padding detected within the body."
      else evidence in
    if negb (nonempty evidence) then []
    else
      let severity :=
        if Nat.eqb (List.length evidence) 1 then low else medium in
      [ {| category := "Grammar & Style";
           description :=
             "Writing quality indicators suggest potential social engineering.";
           severity := severity;
           evidence := evidence |} ].

Definition analyze_email (payload : EmailAnalysisRequest)
  : result EmailAnalysisResponse :=
  let urls := _collect_urls payload in
  let findings := [] in
  let findings := List.app findings (_detect_urgency payload) in
  let findings := List.app findings (_detect_sensitive_requests payload) in
  let findings := List.app findings (_detect_sender_anomalies payload urls) in
  let findings := List.app findings (_detect_suspicious_links payload urls) in
  let findings := List.app findings (_detect_attachment_risk payload) in
  let findings := List.app findings (_detect_language_anomalies payload) in
  let (score, risk) := _score_findings findings in
  url_insights <- (if nonempty urls then UrlReputation.lookup_urls libs urls
                   else Ok []) ;;
  let recommendations := _build_recommendations risk findings (nonempty urls) in
  Ok {| overall_risk := risk;
        score := score;
        findings := findings;
        url_insights := url_insights;
        recommendations := recommendations |}.

End WithLibraries.
End Detector.

(* ================================================================= *)
(** * Text with a character that case folding lengthens *)

(** [str.lower()] maps every code point below 256 to one code point, and
    so keeps the length of a text of such code points.  One code point
    behaves otherwise: U+0130, the capital I with a dot above, becomes the
    two code points U+0069 U+0307.  [Wide] models the text operations of
    [_detect_sensitive_requests] and [_extract_context] on texts that may
    hold U+0130 and U+0307 next to the code points below 256. *)
Module Wide.

Inductive char : Type :=
| Latin (c : ascii)
| CapitalIDot
| CombiningDot.

Definition str : Type := list char.

Definition eqb (a b : char) : bool :=
  match a, b with
  | Latin x, Latin y => Ascii.eqb x y
  | CapitalIDot, CapitalIDot => true
  | CombiningDot, CombiningDot => true
  | _, _ => false
  end.

(** A text of code points below 256. *)
Definition of_string (s : string) : str := map Latin (list_ascii_of_string s).

(** [c.lower()] *)
Definition lower_char (c : char) : str :=
  match c with
  | Latin a => [Latin (PyStr.lower_char a)]
  | CapitalIDot => [Latin "i"; CombiningDot]
  | CombiningDot => [CombiningDot]
  end.

(** [s.lower()] *)
Definition lower (s : str) : str := flat_map lower_char s.

(** [c.isspace()]: neither U+0130 nor U+0307 is white space. *)
Definition isspace (c : char) : bool :=
  match c with
  | Latin a => PyStr.isspace a
  | _ => false
  end.

Fixpoint prefix (p s : str) : bool :=
  match p, s with
  | [], _ => true
  | _ :: _, [] => false
  | a :: p', b :: s' => eqb a b && prefix p' s'
  end.

(** [s.find(sub)], [None] for -1. *)
Fixpoint find (s sub : str) : option nat :=
  if prefix sub s then Some 0
  else
    match s with
    | [] => None
    | _ :: s' => option_map S (find s' sub)
    end.

(** [sub in s] *)
Definition contains (sub s : str) : bool :=
  match find s sub with Some _ => true | None => false end.

(** [s[a:b]] for indices [0 <= a]. *)
Definition slice (s : str) (a b : nat) : str := firstn (b - a) (skipn a s).

Fixpoint lstrip (s : str) : str :=
  match s with
  | [] => []
  | c :: s' => if isspace c then lstrip s' else s
  end.

(** [s.strip()] *)
Definition strip (s : str) : str := rev (lstrip (rev (lstrip s))).

(** A [Finding] whose evidence is such text. *)
Record Finding : Type := {
  category : string;
  description : string;
  severity : RiskLevel;
  evidence : list str
}.

Definition _extract_context_window (body : str) (keywords : list str)
  (window : nat) : list str :=
  let lowered := lower body in
  fold_left
    (fun snippets keyword =>
       match find lowered keyword with
       | None => snippets
       | Some start =>
           let snippet :=
             slice body (start - window)
                   (start + List.length keyword + window) in
           PyStr.list_append snippets (strip snippet)
       end)
    keywords [].

Definition _extract_context (body : str) (keywords : list str) : list str :=
  _extract_context_window body keywords 40.

(** [_detect_sensitive_requests] as a function of [payload.body], the only
    field that it reads. *)
Definition _detect_sensitive_requests (order : SetOrder) (body : str)
  : list Finding :=
  let text := lower body in
  let hits :=
    filter (fun kw => contains kw text)
           (map of_string (SENSITIVE_KEYWORDS_iter order)) in
  if negb (Detector.nonempty hits) then []
  else
    let context_snippets := _extract_context body hits in
    [ {| category := "Sensitive Data Request";
         description :=
           "Email references requests for sensitive or credential information.";
         severity := high;
         evidence :=
           if Detector.nonempty context_snippets then context_snippets
           else hits |} ].

End Wide.

(* ================================================================= *)
(** * Sender analysis of the standalone engine ([phishing_detector.py]) *)

Module PhishingDetector.
Import PyStr.

Definition SUSPICIOUS_TLDS : list string :=
  [".xyz"; ".top"; ".work"; ".click"; ".link"; ".download"; ".gq"; ".tk";
   ".ml"].

(** A [dict] iterates in insertion order. *)
Definition LEGITIMATE_DOMAINS : list (string * list string) :=
  [ ("paypal", ["paypal.com"]);
    ("amazon", ["amazon.com"]);
    ("microsoft", ["microsoft.com"; "outlook.com"; "live.com"]);
    ("apple", ["apple.com"; "icloud.com"]);
    ("google", ["google.com"; "gmail.com"]);
    ("bank", ["bankofamerica.com"; "chase.com"; "wellsfargo.com";
              "citibank.com"]) ].

Definition common_misspellings : list string :=
  ["g00gle"; "micros0ft"; "amazn"; "paypa1"].

(** The dictionary returned by [_analyze_sender]; a key that is not set is
    [None]. *)
Record SenderAnalysis : Type := {
  detected : bool;
  issues : option (list string);
  sender_domain : option string;
  sender_severity : option string
}.

Section WithLibraries.
Variable libs : Libs.

Definition spoofing_issues (domain : string) : list string :=
  flat_map
    (fun entry =>
       let company := fst entry in
       let legitimate_domains := snd entry in
       if contains company domain
          && negb (existsb (fun legit => contains legit domain)
                           legitimate_domains)
       then ["Possible " ++ company ++ " domain spoofing"]
       else [])
    LEGITIMATE_DOMAINS.

Definition _analyze_sender (sender : string) : SenderAnalysis :=
  if negb (truthy sender)
  then {| detected := false; issues := None; sender_domain := None;
          sender_severity := None |}
  else if negb (contains "@" sender)
  then {| detected := true; issues := Some ["Invalid email format"];
          sender_domain := None; sender_severity := Some "high" |}
  else
    let domain := after_first "@" sender in
    let issues := [] in
    let extracted := tldextract_extract libs domain in
    let tld :=
      if truthy (suffix extracted) then "." ++ suffix extracted
      else EmptyString in
    let issues :=
      if mem tld SUSPICIOUS_TLDS
      then list_append issues ("Suspicious TLD: " ++ tld)
      else issues in
    let issues := List.app issues (spoofing_issues domain) in
    let issues :=
      if Nat.ltb 3 (count_char "." domain)
      then list_append issues "Excessive subdomains (possible obfuscation)"
      else issues in
    let issues :=
      if Re.search_three_digits domain
      then list_append issues "Domain contains multiple numbers"
      else issues in
    let issues :=
      if existsb (fun misspell => contains misspell domain)
                 common_misspellings
      then list_append issues "Likely domain name misspelling"
      else issues in
    {| detected := Nat.ltb 0 (List.length issues);
       issues := Some issues;
       sender_domain := Some domain;
       sender_severity :=
         Some (if Nat.leb 2 (List.length issues) then "high"
               else if Nat.eqb (List.length issues) 1 then "medium"
               else "low") |}.

End WithLibraries.

(** ** The other checks of the standalone engine *)

Definition URGENCY_KEYWORDS : list string :=
  [ "urgent"; "immediately"; "action required"; "verify now"; "suspended";
    "locked"; "expire"; "expires"; "expiring"; "limited time"; "act now";
    "confirm immediately"; "update required"; "security alert";
    "unusual activity"; "click here now"; "respond now"; "within 24 hours";
    "within 48 hours"; "your account will be closed"; "final notice";
    "last warning"; "last chance" ].

Definition SENSITIVE_INFO_KEYWORDS : list string :=
  [ "social security"; "ssn"; "password"; "credit card"; "bank account";
    "pin"; "cvv"; "routing number"; "account number"; "date of birth";
    "mother's maiden name"; "verify your identity"; "confirm your password";
    "update payment"; "payment information"; "billing information";
    "tax id"; "driver's license"; "passport number" ].

(** The dictionary returned by [_check_urgency]. *)
Record UrgencyCheck : Type := {
  urgency_detected : bool;
  urgency_keywords : list string;
  excessive_exclamation : bool;
  excessive_caps : bool;
  urgency_severity : string
}.

(** [severity] read off the number of matches, for the thresholds [hi] and
    [mid]: high from [hi] matches on, medium from [mid] on, else low. *)
Definition severity_by_count (hi mid n : nat) : string :=
  if Nat.leb hi n then "high" else if Nat.leb mid n then "medium" else "low".

(** [sum(1 for c in content if c.isupper())] *)
Fixpoint count_upper (s : string) : nat :=
  match s with
  | EmptyString => 0
  | String c s' => (if is_upper_char c then 1 else 0) + count_upper s'
  end.

(** The quotient [caps / max(len(content), 1)] is kept exact. *)
Definition caps_ratio (content : string) : Q :=
  (Z.of_nat (count_upper content)
   # Pos.of_nat (Nat.max (String.length content) 1))%Q.

Definition _check_urgency (content : string) (subject : option string)
  : UrgencyCheck :=
  let content_lower := lower content in
  let subject_lower :=
    match subject with
    | Some sj => if truthy sj then lower sj else EmptyString
    | None => EmptyString
    end in
  let found_urgency :=
    filter (fun keyword =>
              contains keyword content_lower || contains keyword subject_lower)
           URGENCY_KEYWORDS in
  let exclamation_count :=
    count_char "!" content
    + match subject with
      | Some sj => if truthy sj then count_char "!" sj else 0
      | None => 0
      end in
  let ratio := caps_ratio content in
  {| urgency_detected :=
       Nat.ltb 0 (List.length found_urgency) || Nat.ltb 3 exclamation_count
       || Detector.exceeds_fifth ratio;
     urgency_keywords := found_urgency;
     excessive_exclamation := Nat.ltb 3 exclamation_count;
     excessive_caps := Detector.exceeds_fifth ratio;
     urgency_severity := severity_by_count 3 1 (List.length found_urgency) |}.

(** The dictionary returned by [_check_sensitive_info]. *)
Record SensitiveCheck : Type := {
  sensitive_detected : bool;
  requested_info : list string;
  has_form_fields : bool;
  sensitive_severity : string
}.

Definition form_verbs : list string :=
  ["enter"; "provide"; "submit"; "input"; "type"].

Definition form_targets : list string := ["password"; "card"; "ssn"; "pin"].

(** Up to [gap] characters other than a newline, then one of the targets:
    the tail [.{0,30}(password|card|ssn|pin)] of the form pattern. *)
Fixpoint gap_then_target (gap : nat) (s : string) : bool :=
  existsb (fun target => prefix target s) form_targets
  || match gap, s with
     | S g, String c s' => negb (is_code 10 c) && gap_then_target g s'
     | _, _ => false
     end.

(** What follows the prefix [p] of [s]. *)
Definition drop_prefix (p s : string) : string :=
  substring (String.length p) (String.length s - String.length p) s.

(** [re.search] of
    [(enter|provide|submit|input|type).{0,30}(password|card|ssn|pin)]. *)
Fixpoint search_form_fields (s : string) : bool :=
  match s with
  | EmptyString => false
  | String _ s' =>
      existsb (fun verb => prefix verb s && gap_then_target 30 (drop_prefix verb s))
              form_verbs
      || search_form_fields s'
  end.

Definition _check_sensitive_info (content : string) : SensitiveCheck :=
  let content_lower := lower content in
  let found_requests :=
    filter (fun keyword => contains keyword content_lower)
           SENSITIVE_INFO_KEYWORDS in
  let form := search_form_fields content_lower in
  {| sensitive_detected := Nat.ltb 0 (List.length found_requests) || form;
     requested_info := found_requests;
     has_form_fields := form;
     sensitive_severity := severity_by_count 2 1 (List.length found_requests) |}.

Definition shorteners : list string :=
  ["bit.ly"; "tinyurl"; "goo.gl"; "t.co"; "ow.ly"; "is.gd"].

(** [re.match] of [\d{1,3}\.\d{1,3}\.\d{1,3}\.\d{1,3}]: the pattern at the
    start of the text, anything after it. *)
Definition match_ipv4_prefix (s : string) : bool :=
  match Re.digits_1_3_dot s with
  | Some r1 =>
      match Re.digits_1_3_dot r1 with
      | Some r2 =>
          match Re.digits_1_3_dot r2 with
          | Some (String c _) => is_ascii_digit c
          | _ => false
          end
      | None => false
      end
  | None => false
  end.

Section WithUrlparse.
Variable libs : Libs.

(** [urlparse(url).netloc], or [None] when [urlparse] raises. *)
Variable urlparse_netloc : string -> option string.

Definition _check_url_suspicious (url : string) : list string :=
  let issues := [] in
  match urlparse_netloc url with
  | None => list_append issues "Malformed URL"
  | Some domain =>
      let issues :=
        if match_ipv4_prefix domain
        then list_append issues "Uses IP address instead of domain name"
        else issues in
      let extracted := tldextract_extract libs domain in
      let tld :=
        if truthy (suffix extracted) then "." ++ suffix extracted
        else EmptyString in
      let issues :=
        if mem tld SUSPICIOUS_TLDS
        then list_append issues ("Suspicious TLD: " ++ tld)
        else issues in
      let issues :=
        if contains "@" url
        then list_append issues "Contains @ symbol (possible redirect trick)"
        else issues in
      let issues :=
        if Nat.ltb 200 (String.length url)
        then list_append issues "Unusually long URL"
        else issues in
      let issues :=
        if existsb (fun shortener => contains shortener domain) shorteners
        then list_append issues "Uses URL shortener (hides destination)"
        else issues in
      let issues :=
        if Nat.ltb 3 (count_char "." domain)
        then list_append issues "Excessive subdomains"
        else issues in
      issues
  end.

End WithUrlparse.

(** The dictionaries of the two analyses that are not modelled here, as far
    as the scoring reads them. *)
Record LinkAnalysis : Type := {
  link_detected : bool;
  total_links : nat;
  link_severity : string
}.

Record GrammarCheck : Type := {
  grammar_detected : bool;
  grammar_issue_list : list string;
  grammar_severity : string
}.

(** The [results] dictionary of [analyze_email]. *)
Record Results : Type := {
  urgency_tactics : UrgencyCheck;
  sender_analysis : SenderAnalysis;
  sensitive_info_requests : SensitiveCheck;
  link_analysis : LinkAnalysis;
  grammar_issues : GrammarCheck
}.

(** The empty dictionary that [analyze_email] stores when no sender is
    given: no key is set, and [get('detected')] is falsy. *)
Definition no_sender_analysis : SenderAnalysis :=
  {| detected := false; issues := None; sender_domain := None;
     sender_severity := None |}.

(** The points of one category: [hi] for high, [mid] for medium, [lo] for
    any other severity. *)
Definition points (hi mid lo : Z) (severity : string) : Z :=
  if String.eqb severity "high" then hi
  else if String.eqb severity "medium" then mid
  else lo.

Definition _calculate_risk_score (results : Results) : result (Z * string) :=
  let score := 0%Z in
  let score :=
    if urgency_detected (urgency_tactics results)
    then (score + points 20 12 5 (urgency_severity (urgency_tactics results)))%Z
    else score in
  score <-
    (if detected (sender_analysis results)
     then match sender_severity (sender_analysis results) with
          | Some severity => Ok (score + points 25 15 8 severity)%Z
          | None => Raise KeyError
          end
     else Ok score) ;;
  let score :=
    if sensitive_detected (sensitive_info_requests results)
    then (score
          + points 25 15 8
              (sensitive_severity (sensitive_info_requests results)))%Z
    else score in
  let score :=
    if link_detected (link_analysis results)
    then (score + points 20 12 6 (link_severity (link_analysis results)))%Z
    else score in
  let score :=
    if grammar_detected (grammar_issues results)
    then (score + points 10 6 3 (grammar_severity (grammar_issues results)))%Z
    else score in
  let risk_level :=
    if (60 <=? score)%Z then "High"
    else if (30 <=? score)%Z then "Medium"
    else "Low" in
  Ok (score, risk_level).

End PhishingDetector.

(* ================================================================= *)
(** * Stand-ins for the libraries, and sample requests

    The properties below hold for every [Libs]; to evaluate the engine on a
    concrete request one needs concrete library functions.  The stand-ins
    agree with the libraries on the inputs used in this file: plain
    [user@host] addresses, and URLs whose host is an IPv4 literal or has a
    one-label public suffix. *)

Module Samples.
Import PyStr.

(** The host of a URL: what follows the scheme, up to the first slash,
    question mark or hash, without user information and port. *)
Definition host_of (u : string) : string :=
  let rest :=
    match find u "://" with
    | Some i => slice u (i + 3) (String.length u)
    | None => u
    end in
  let netloc :=
    fst (span (fun c => negb (is_code 47 c || is_code 63 c || is_code 35 c))
              rest) in
  let hostport := after_last "@" netloc in
  fst (span (fun c => negb (is_code 58 c)) hostport).

Definition simple_extract (u : string) : ExtractResult :=
  let host := host_of u in
  if Re.fullmatch_ipv4 host
  then {| subdomain := EmptyString; domain := host; suffix := EmptyString |}
  else
    match rev (runs (fun c => negb (is_code 46 c)) host) with
    | [] => {| subdomain := EmptyString; domain := EmptyString;
               suffix := EmptyString |}
    | [d] => {| subdomain := EmptyString; domain := d;
                suffix := EmptyString |}
    | tld :: d :: sub =>
        {| subdomain := join "." (rev sub); domain := d; suffix := tld |}
    end.

Definition simple_str (v : JSON) : string :=
  match v with
  | JNull => "None"
  | JBool true => "True"
  | JBool false => "False"
  | JInt z => NilEmpty.string_of_int (Z.to_int z)
  | JFloat _ repr => repr
  | JStr s => s
  | JList _ => "[...]"
  | JDict _ => "{...}"
  end.

(** No API key in the environment; the client is never called. *)
Definition offline_libs : Libs := {|
  tldextract_extract := simple_extract;
  parseaddr := fun address => (EmptyString, address);
  getenv_URLSCAN_API_KEY := None;
  client_get := fun _ _ => HTTPError "connection refused";
  py_str := simple_str
|}.

Definition request (subject body : string) (sender : option string)
  (urls attachments : list string) : EmailAnalysisRequest := {|
  subject := subject;
  body := body;
  sender := sender;
  sender_name := None;
  reply_to := None;
  urls := urls;
  attachments := attachments;
  headers := None
|}.

(** The request of the design document for the sensitive-data detector. *)
Definition password_request : EmailAnalysisRequest :=
  request "Notice" "please confirm your password and social security number"
          None [] [].

(** An IP-literal link between two ordinary ones, the last not HTTPS. *)
Definition mixed_links : list string :=
  ["https://example.com/login"; "http://192.168.0.1/admin";
   "http://news.example.org/"].

(** The sender of the end-to-end scenario of the design document, with no
    reply-to address and no link. *)
Definition spoofed_sender : string := "security@paypa1-alert.xyz".

Definition spoofed_sender_request : EmailAnalysisRequest :=
  request "Notice" "Dear customer, thank you." (Some spoofed_sender) [] [].

(** A sender whose domain holds a run of three identical letters. *)
Definition triple_letter_sender : string := "info@baaad-mail.com".

(** An API key is configured and the endpoint answers every query with
    status 200 and a body that is not JSON. *)
Definition undecodable_body_libs : Libs := {|
  tldextract_extract := simple_extract;
  parseaddr := fun address => (EmptyString, address);
  getenv_URLSCAN_API_KEY := Some "0123-4567";
  client_get := fun _ _ => Response (Raise JSONDecodeError);
  py_str := simple_str
|}.

(** An API key is configured and the endpoint answers every query with a
    JSON document in which the first result has a null verdict. *)
Definition null_verdicts_libs : Libs := {|
  tldextract_extract := simple_extract;
  parseaddr := fun address => (EmptyString, address);
  getenv_URLSCAN_API_KEY := Some "0123-4567";
  client_get := fun _ _ =>
    Response (Ok (JDict [("total", JInt 1);
                         ("results", JList [JDict [("verdicts", JNull)]])]));
  py_str := simple_str
|}.

Definition one_link_request : EmailAnalysisRequest :=
  request "Meeting" "The agenda is at https://example.com/agenda" None [] [].

(** The iteration orders of the source text, reversed. *)
Definition reversed_order : SetOrder := {|
  URGENT_PHRASES_iter := rev Detector.URGENT_PHRASES;
  SENSITIVE_KEYWORDS_iter := rev Detector.SENSITIVE_KEYWORDS;
  SUSPICIOUS_ATTACHMENT_EXTENSIONS_iter :=
    rev Detector.SUSPICIOUS_ATTACHMENT_EXTENSIONS
|}.

(** Two keywords of the lexicon, more than 40 characters apart. *)
Definition two_keyword_request : EmailAnalysisRequest :=
  request "Notice"
    "Enter your password on the secure portal before the end of the business day, then text us your ssn"
    None [] [].

Definition password_snippet : string :=
  "Enter your password on the secure portal before the end of".

Definition ssn_snippet : string :=
  "of the business day, then text us your ssn".

Definition two_keyword_response (evidence : list string)
  : EmailAnalysisResponse := {|
  overall_risk := medium;
  score := 35;
  findings :=
    [ {| category := "Sensitive Data Request";
         description :=
           "Email references requests for sensitive or credential information.";
         severity := high;
         evidence := evidence |} ];
  url_insights := [];
  recommendations :=
    ["Never share credentials or personal information via email links."]
|}.

(** Twenty words, five of them the token thereee. *)
Definition elongated_words_request : EmailAnalysisRequest :=
  request "Hello"
    "thereee thereee thereee thereee thereee the the the the the the the the the the the the the the the"
    None [] [].

(** The same URL given in [urls] and embedded in the body. *)
Definition login_request : EmailAnalysisRequest :=
  request "Your account" "Please sign in at https://example.com/login today."
          None ["https://example.com/login"] [].

Definition www_request : EmailAnalysisRequest :=
  request "Your account" "www.evil.com" None ["www.evil.com"] [].

(** The same URL given in [urls] and closing a sentence of the body. *)
Definition sentence_end_request : EmailAnalysisRequest :=
  request "Your account" "Please sign in at https://example.com/login."
          None ["https://example.com/login"] [].

(** An API key is configured and every request fails in transport. *)
Definition unreachable_api_libs : Libs := {|
  tldextract_extract := simple_extract;
  parseaddr := fun address => (EmptyString, address);
  getenv_URLSCAN_API_KEY := Some "0123-4567";
  client_get := fun _ _ => HTTPError "connection refused";
  py_str := simple_str
|}.

(** An API key is configured and urlscan reports one malicious result. *)
Definition malicious_api_libs : Libs := {|
  tldextract_extract := simple_extract;
  parseaddr := fun address => (EmptyString, address);
  getenv_URLSCAN_API_KEY := Some "0123-4567";
  client_get := fun _ _ =>
    Response
      (Ok (JDict
             [("total", JInt 3);
              ("results",
               JList
                 [JDict
                    [("verdicts",
                      JDict
                        [("overall",
                          JDict [("malicious", JBool true);
                                 ("score", JInt 100);
                                 ("categories", JList [JStr "phishing"])])])]])]));
  py_str := simple_str
|}.

Definition two_links : list string :=
  ["https://example.com/agenda"; "localhost-without-suffix"].

(** Six HTTPS links to ordinary domains. *)
Definition six_plain_links : list string :=
  ["https://example.com/a"; "https://example.com/b"; "https://example.com/c";
   "https://example.org/d"; "https://example.org/e"; "https://example.net/f"].

(** Twenty words and one run of three dots. *)
Definition ellipsis_request : EmailAnalysisRequest :=
  request "Hello"
    "the the the the the the the the the the the the the the the the the the the the..."
    None [] [].

(** A request in capitals, with a combining dot above in its first word. *)
Definition capitals_body : Wide.str :=
  List.app (Wide.of_string "PLEASE CONFI")
    (Wide.CombiningDot :: Wide.of_string "RM YOUR PASSWORD AND PIN TODAY").

(** A message that four detectors report, with two links in its body. *)
Definition busy_request : EmailAnalysisRequest :=
  request "URGENT: action required"
    "Verify your account immediately: enter your password at http://192.168.0.1/login or see https://example.com/help"
    (Some "it@example.com") [] ["update.exe"].

(** Fifty capital letters I with a dot above, then a request. *)
Definition dotted_capitals_body : Wide.str :=
  List.app (repeat Wide.CapitalIDot 50)
           (Wide.of_string " enter your password").

(** A link with a host and a link to a local file, which has none. *)
Definition link_and_local_file : list string :=
  ["https://example.com/login"; "file:///tmp/invoice.html"].

(** A stand-in for [urlparse(url).netloc] on well-formed URLs: the text
    between the scheme and the first slash, question mark or hash. *)
Definition simple_netloc (u : string) : option string :=
  let rest :=
    match find u "://" with
    | Some i => slice u (i + 3) (String.length u)
    | None => EmptyString
    end in
  Some (fst (span (fun c => negb (is_code 47 c || is_code 63 c
                                  || is_code 35 c))
                  rest)).

(** The results of a message in which only the sender and the sensitive
    information checks report something, both at their highest. *)
Definition two_category_results : PhishingDetector.Results := {|
  PhishingDetector.urgency_tactics :=
    PhishingDetector._check_urgency "Dear customer, thank you." None;
  PhishingDetector.sender_analysis :=
    PhishingDetector._analyze_sender offline_libs spoofed_sender;
  PhishingDetector.sensitive_info_requests :=
    PhishingDetector._check_sensitive_info
      "Send us your password and your credit card.";
  PhishingDetector.link_analysis :=
    {| PhishingDetector.link_detected := false;
       PhishingDetector.total_links := 0;
       PhishingDetector.link_severity := "low" |};
  PhishingDetector.grammar_issues :=
    {| PhishingDetector.grammar_detected := false;
       PhishingDetector.grammar_issue_list := [];
       PhishingDetector.grammar_severity := "low" |}
|}.

End Samples.

(* ================================================================= *)
(** * Notions used in the statements

    Definitions that follow the words of the design document, to be compared
    with the functions of the source, and relations between outcomes. *)

Module Spec.
Import PyStr.

Definition RiskLevel_eqb (a b : RiskLevel) : bool :=
  match a, b with
  | low, low | medium, medium | high, high => true
  | _, _ => false
  end.

(** The number of findings of a given severity. *)
Definition count_severity (r : RiskLevel) (fs : list Finding) : Z :=
  Z.of_nat (List.length (filter (fun f => RiskLevel_eqb (severity f) r) fs)).

(** Sum of the weights low=10, medium=20, high=35 over the findings. *)
Definition weighted_sum (fs : list Finding) : Z :=
  (10 * count_severity low fs + 20 * count_severity medium fs
   + 35 * count_severity high fs)%Z.

(** The thresholds: 60 and above is high, 30 and above is medium. *)
Definition risk_of_score (score : Z) : RiskLevel :=
  if (60 <=? score)%Z then high
  else if (30 <=? score)%Z then medium
  else low.

(** The five texts a recommendation can be. *)
Definition rec_report : string :=
  "Do not interact with the email. Report it to your security team.".
Definition rec_credentials : string :=
  "Never share credentials or personal information via email links.".
Definition rec_hover : string :=
  "Hover over links to inspect destinations before clicking.".
Definition rec_verify : string :=
  "Verify the sender through a known, trusted communication channel.".
Definition rec_generic : string :=
  "Email appears lower risk but remain vigilant.".

Definition has_category (c : string) (fs : list Finding) : bool :=
  existsb (fun f => String.eqb (category f) c) fs.

(** The recommendations of the rules that match, in the order in which the
    rules are declared: high risk, a Sensitive Data Request finding, an
    extracted URL, a Sender Domain Mismatch finding. *)
Definition matching_rules (risk : RiskLevel) (fs : list Finding)
  (has_urls : bool) : list string :=
  List.app (if RiskLevel_eqb risk high then [rec_report] else [])
    (List.app
       (if has_category "Sensitive Data Request" fs then [rec_credentials]
        else [])
       (List.app (if has_urls then [rec_hover] else [])
          (if has_category "Sender Domain Mismatch" fs then [rec_verify]
           else []))).

(** [sub] occurs in [s] at index [i], and at no smaller index. *)
Definition first_occurrence (s sub : string) (i : nat) : Prop :=
  substring i (String.length sub) s = sub
  /\ forall j, j < i -> substring j (String.length sub) s <> sub.

(** The window of 40 characters on either side of the keyword that starts
    at [start], trimmed. *)
Definition trimmed_window (body keyword : string) (start : nat) : string :=
  strip (slice body (start - 40) (start + String.length keyword + 40)).

(** The snippet for a keyword: the trimmed window around its first
    occurrence in the case-folded body. *)
Definition context_snippet (body keyword : string) : string :=
  match find (lower body) keyword with
  | Some start => trimmed_window body keyword start
  | None => EmptyString
  end.

(** The evidence that a URL contributes for an IP-literal host or a
    typosquatting pattern, if any. *)
Definition escalation_evidence (libs : Libs) (url : string) : option string :=
  match Detector._domain_from_url libs (Some url) with
  | Some domain =>
      if negb (truthy domain) then None
      else if Detector._looks_like_ip domain
      then Some ("URL `" ++ url ++ "` uses raw IP address.")
      else if Detector._has_typosquatting_pattern domain
      then Some ("Domain `" ++ domain ++ "` appears typosquatted.")
      else None
  | None => None
  end.

(** The URL contributes IP-literal or typosquat evidence. *)
Definition escalates (libs : Libs) (url : string) : bool :=
  match escalation_evidence libs url with Some _ => true | None => false end.

(** The length of the run of [c] at the start of [s]. *)
Fixpoint run_length (c : ascii) (s : string) : nat :=
  match s with
  | String d s' => if Ascii.eqb c d then S (run_length c s') else 0
  | EmptyString => 0
  end.

(** [s] holds [n] or more consecutive identical characters. *)
Fixpoint has_identical_run (n : nat) (s : string) : bool :=
  match s with
  | EmptyString => false
  | String c s' => Nat.leb n (S (run_length c s')) || has_identical_run n s'
  end.

(** The unusual-token test as the design document words it, on a
    case-folded token: longer than 3, not a common word, and holding a
    digit, a run of 3 identical characters, or at least
    max(2, ceil(length/3)) rare consecutive pairs. *)
Definition unusual_by_design (token : string) : bool :=
  let token := lower token in
  Nat.ltb 3 (String.length token)
  && negb (mem token Detector.COMMON_ENGLISH_WORDS)
  && (existsb_str is_ascii_digit token
      || has_identical_run 3 token
      || Nat.leb (Nat.max 2 (Detector.ceil_third (String.length token)))
                 (List.length
                    (filter (fun bg => negb (Detector.is_common_bigram bg))
                            (Detector.bigrams token)))).

(** [x] is not above any string of [l], by code point order. *)
Definition below_all (x : string) (l : list string) : Prop :=
  forall y, In y l -> String.leb x y = true.

(** A list in ascending code point order. *)
Inductive ordered : list string -> Prop :=
| ordered_nil : ordered []
| ordered_cons x l : below_all x l -> ordered l -> ordered (x :: l).

(** Two findings that differ at most in the order of their evidence. *)
Definition same_up_to_evidence_order (f g : Finding) : Prop :=
  category f = category g
  /\ description f = description g
  /\ severity f = severity g
  /\ Permutation (evidence f) (evidence g).

(** Two outcomes of the analysis that differ at most in the order of the
    evidence of their findings. *)
Definition same_up_to_evidence_order_response
  (a b : result EmailAnalysisResponse) : Prop :=
  match a, b with
  | Ok r1, Ok r2 =>
      overall_risk r1 = overall_risk r2
      /\ score r1 = score r2
      /\ Forall2 same_up_to_evidence_order (findings r1) (findings r2)
      /\ url_insights r1 = url_insights r2
      /\ recommendations r1 = recommendations r2
  | Raise e1, Raise e2 => e1 = e2
  | _, _ => False
  end.

(** Order-preserving removal of duplicates: every string is kept at its
    first occurrence only. *)
Fixpoint dedup_first (l : list string) : list string :=
  match l with
  | [] => []
  | x :: t => x :: filter (fun y => negb (String.eqb x y)) (dedup_first t)
  end.

(** Canonical form of a body match: a match that begins with www. (in any
    letter case) gets the prefix https://. *)
Definition canonical (m : string) : string :=
  if startswith (lower m) "www." then "https://" ++ m else m.

(** The categories of the six detectors, in the order in which the
    analysis runs them. *)
Definition detector_categories : list string :=
  [ "Urgency Tactics"; "Sensitive Data Request"; "Sender Domain Mismatch";
    "Suspicious Links"; "Suspicious Attachments"; "Grammar & Style" ].

(** [l] is [m] with some elements left out. *)
Fixpoint subsequence (l m : list string) : bool :=
  match l, m with
  | [], _ => true
  | _ :: _, [] => false
  | x :: l', y :: m' =>
      if String.eqb x y then subsequence l' m' else subsequence l m'
  end.

(** The three pairs of status and reputation that a parsed urlscan answer
    can carry. *)
Definition verdict_pairs : list (option string * option string) :=
  [ (Some "clean", Some "no-data");
    (Some "malicious", Some "block");
    (Some "review", Some "suspicious") ].

(** The insight for a domain that urlscan has never seen. *)
Definition clean_insight (u : string) : URLInsight :=
  {| url := u;
     reputation := Some "no-data";
     status := Some "clean";
     details := Some "No prior scans found for this domain.";
     insight_findings := [] |}.

(** Every character of [s] is in [p]. *)
Fixpoint all_chars (p : ascii -> bool) (s : string) : bool :=
  match s with
  | EmptyString => true
  | String c s' => p c && all_chars p s'
  end.

(** An attachment name that ends, in any letter case, with one of the
    listed extensions. *)
Definition flagged_attachment (name : string) : bool :=
  existsb (fun ext => endswith (lower name) ext)
          Detector.SUSPICIOUS_ATTACHMENT_EXTENSIONS.

(** The evidence that one URL adds to the Suspicious Links finding: its
    IP-literal or typosquat evidence, then its not-HTTPS evidence. *)
Definition url_evidence (libs : Libs) (url : string) : list string :=
  match Detector._domain_from_url libs (Some url) with
  | Some domain =>
      if truthy domain then
        List.app
          (match escalation_evidence libs url with
           | Some e => [e]
           | None => []
           end)
          (if startswith (lower url) "http://"
           then ["URL `" ++ url ++ "` is not served over HTTPS."]
           else [])
      else []
  | None => []
  end.

(** The evidence for the number of links, given from six links on. *)
Definition link_count_evidence (n : nat) : list string :=
  if Nat.ltb 5 n
  then ["Email contains a high number of links (" ++ str_of_nat n ++ ")."]
  else [].

Definition risk_rank (r : RiskLevel) : nat :=
  match r with low => 0 | medium => 1 | high => 2 end.

(** The request with its [urls] field replaced. *)
Definition with_urls (payload : EmailAnalysisRequest) (l : list string)
  : EmailAnalysisRequest := {|
  subject := subject payload;
  body := body payload;
  sender := sender payload;
  sender_name := sender_name payload;
  reply_to := reply_to payload;
  urls := l;
  attachments := attachments payload;
  headers := headers payload
|}.

(** The rare-pair test on a case-folded token: longer than 3 characters,
    not a common word, and with at least max(2, ceil(length/3)) consecutive
    pairs outside the common pairs. *)
Definition rare_pair_test (token : string) : bool :=
  let token := lower token in
  Nat.ltb 3 (String.length token)
  && negb (mem token Detector.COMMON_ENGLISH_WORDS)
  && Nat.leb (Nat.max 2 (Detector.ceil_third (String.length token)))
             (List.length
                (filter (fun bg => negb (Detector.is_common_bigram bg))
                        (Detector.bigrams token))).

(** One to three decimal digits. *)
Definition digit_group (g : string) : Prop :=
  all_chars is_ascii_digit g = true
  /\ 1 <= String.length g /\ String.length g <= 3.

(** The number of categories of the standalone engine that report a
    detection. *)
Definition detected_count (results : PhishingDetector.Results) : nat :=
  Nat.b2n (PhishingDetector.urgency_detected
             (PhishingDetector.urgency_tactics results))
  + Nat.b2n (PhishingDetector.detected
               (PhishingDetector.sender_analysis results))
  + Nat.b2n (PhishingDetector.sensitive_detected
               (PhishingDetector.sensitive_info_requests results))
  + Nat.b2n (PhishingDetector.link_detected
               (PhishingDetector.link_analysis results))
  + Nat.b2n (PhishingDetector.grammar_detected
               (PhishingDetector.grammar_issues results)).

(** The trimmed window of 40 characters on either side of the keyword that
    starts at index [start] of the body. *)
Definition window_around (body keyword : Wide.str) (start : nat) : Wide.str :=
  Wide.strip (Wide.slice body (start - 40)
                         (start + List.length keyword + 40)).

(** The snippet quotes the keyword, in any letter case. *)
Definition holds_keyword (snippet keyword : Wide.str) : bool :=
  Wide.contains keyword (Wide.lower snippet).

(** The lower-case form of a character other than U+0130. *)
Definition fold_char (c : Wide.char) : Wide.char :=
  match c with
  | Wide.Latin a => Wide.Latin (PyStr.lower_char a)
  | _ => c
  end.

(** The text holds no U+0130. *)
Definition no_capital_i_dot (s : Wide.str) : bool :=
  forallb (fun c => match c with Wide.CapitalIDot => false | _ => true end) s.

(** From index [j] on, the body reads the keyword, in any letter case. *)
Definition reads_at (body keyword : Wide.str) (j : nat) : bool :=
  Wide.prefix keyword (Wide.lower (skipn j body)).

(** The first index at which the body reads the keyword. *)
Definition first_reading (body keyword : Wide.str) (start : nat) : Prop :=
  reads_at body keyword start = true
  /\ forall j, j < start -> reads_at body keyword j = false.

(** A keyword that is not empty and neither begins nor ends with white
    space, as every keyword of the lexicon does. *)
Definition keyword_shape (keyword : Wide.str) : bool :=
  match keyword with
  | [] => false
  | c :: _ => negb (Wide.isspace c)
  end
  && match rev keyword with
     | [] => false
     | c :: _ => negb (Wide.isspace c)
     end.

(** The insight that the lookup with key [api_key] appends for [u] when the
    request for its domain fails in transport: without a domain the status
    is unknown and no request is made, with one it is error and the details
    quote the text of the [httpx.HTTPError]. *)
Definition failed_lookup (libs : Libs) (api_key u : string) (i : URLInsight)
  : Prop :=
  url i = u /\ reputation i = None /\ insight_findings i = []
  /\ match UrlReputation._domain_from_url libs u with
     | None =>
         status i = Some "unknown"
         /\ details i = Some "Unable to extract domain for reputation check."
     | Some domain =>
         status i = Some "error"
         /\ exists exc,
              client_get libs api_key ("domain:" ++ domain) = HTTPError exc
              /\ details i = Some ("urlscan lookup failed: " ++ exc)
     end.

(** Every issue that [_check_url_suspicious] can report for a URL that
    parses, in the order of its checks; the suffix issue is one of nine. *)
Definition url_issue_vocabulary : list string :=
  List.app
    ("Uses IP address instead of domain name"
     :: map (fun tld => "Suspicious TLD: " ++ tld)
            PhishingDetector.SUSPICIOUS_TLDS)
    [ "Contains @ symbol (possible redirect trick)";
      "Unusually long URL";
      "Uses URL shortener (hides destination)";
      "Excessive subdomains" ].

End Spec.

(* ================================================================= *)
(** * Properties *)

(** ** Scoring *)

Section Scoring.
Import Detector Spec.
Open Scope Z_scope.

Lemma weighted_sum_nil : weighted_sum [] = 0.
Proof. reflexivity. Qed.

Lemma weighted_sum_cons (f : Finding) (fs : list Finding) :
  weighted_sum (f :: fs) = weights (severity f) + weighted_sum fs.
Proof.
  unfold weighted_sum, count_severity; cbn [filter].
  destruct (severity f); cbn [RiskLevel_eqb List.length weights];
    rewrite ?Nat2Z.inj_succ; lia.
Qed.

Lemma weighted_sum_nonneg (fs : list Finding) : 0 <= weighted_sum fs.
Proof. unfold weighted_sum, count_severity; lia. Qed.

Lemma fold_weights (fs : list Finding) :
  forall acc,
    fold_left (fun a finding => a + weights (severity finding)) fs acc
    = acc + weighted_sum fs.
Proof.
  induction fs as [|f fs IH]; intros acc; simpl.
  - rewrite weighted_sum_nil; lia.
  - rewrite IH, weighted_sum_cons; lia.
Qed.

(** C1.  For every list of findings the score is the sum of the weights
    low=10, medium=20, high=35 over the findings, capped at 100; it lies
    between 0 and 100; the risk level is the threshold function of the score
    (60 and above high, 30 and above medium, else low); and the empty list
    scores 0. *)
Theorem score_findings_weighted_sum_capped (fs : list Finding) :
  fst (_score_findings fs) = Z.min 100 (weighted_sum fs)
  /\ 0 <= fst (_score_findings fs) <= 100
  /\ snd (_score_findings fs) = risk_of_score (fst (_score_findings fs))
  /\ fst (_score_findings []) = 0.
Proof.
  unfold _score_findings; simpl.
  rewrite fold_weights.
  pose proof (weighted_sum_nonneg fs).
  repeat split; try reflexivity; lia.
Qed.

End Scoring.

(** ** Recommendations *)

Section Recommendations.
Import Detector Spec.

Lemma is_high_eqb (risk : RiskLevel) :
  is_high risk = RiskLevel_eqb risk high.
Proof. now destruct risk. Qed.

(** C10.  For every risk level, list of findings and URL-presence flag, the
    list of recommendations is not empty and holds no string twice; it is
    the list of the recommendations of the matching rules, in rule order,
    and the single generic low-risk caution when no rule matches. *)
Theorem build_recommendations_nonempty_nodup
  (risk : RiskLevel) (fs : list Finding) (has_urls : bool) :
  _build_recommendations risk fs has_urls <> []
  /\ NoDup (_build_recommendations risk fs has_urls)
  /\ _build_recommendations risk fs has_urls
     = match matching_rules risk fs has_urls with
       | [] => [rec_generic]
       | rules => rules
       end.
Proof.
  unfold matching_rules, has_category, _build_recommendations.
  rewrite <- is_high_eqb.
  destruct (is_high risk);
    destruct (existsb (fun f => String.eqb (category f) "Sensitive Data Request") fs);
    destruct has_urls;
    destruct (existsb (fun f => String.eqb (category f) "Sender Domain Mismatch") fs);
    cbn;
    (split; [discriminate |
     split; [repeat constructor; simpl; intuition discriminate |
             reflexivity]]).
Qed.

End Recommendations.

(** ** URL extraction *)

Section UrlExtraction.
Import PyStr Detector Spec.

Lemma mem_In (x : string) (l : list string) : mem x l = true <-> In x l.
Proof.
  unfold mem; rewrite existsb_exists; split.
  - intros (y & Hy & E); apply String.eqb_eq in E; now subst.
  - intros H; exists x; split; [assumption | apply String.eqb_refl].
Qed.

Lemma mem_false (x : string) (l : list string) : mem x l = false <-> ~ In x l.
Proof.
  rewrite <- mem_In; destruct (mem x l); split; congruence.
Qed.

Lemma filter_neq_notin (x : string) (l : list string) :
  ~ In x l -> filter (fun y => negb (String.eqb x y)) l = l.
Proof.
  induction l as [|y l IH]; simpl; intros H; [reflexivity|].
  destruct (String.eqb_spec x y) as [->|N]; simpl.
  - exfalso; apply H; now left.
  - f_equal; apply IH; intros I; apply H; now right.
Qed.

Lemma filter_twice {A : Type} (p q : A -> bool) (l : list A) :
  filter p (filter q l) = filter (fun x => q x && p x) l.
Proof.
  induction l as [|x l IH]; simpl; [reflexivity|].
  destruct (q x); simpl; [destruct (p x)|]; now rewrite IH.
Qed.

Lemma filter_dedup_first (p : string -> bool) (l : list string) :
  filter p (dedup_first l) = dedup_first (filter p l).
Proof.
  induction l as [|x l IH]; simpl; [reflexivity|].
  destruct (p x) eqn:Px; simpl.
  - f_equal. rewrite <- IH.
    rewrite !filter_twice. apply filter_ext; intros y; apply andb_comm.
  - rewrite <- IH, filter_twice.
    apply filter_ext_in; intros y _.
    destruct (String.eqb_spec x y) as [->|N]; simpl; [now rewrite Px | reflexivity].
Qed.

Lemma dedup_first_In (x : string) (l : list string) :
  In x (dedup_first l) <-> In x l.
Proof.
  induction l as [|y l IH]; simpl; [tauto|].
  rewrite filter_In, IH.
  destruct (String.eqb_spec y x) as [->|N]; simpl; intuition congruence.
Qed.

Lemma dedup_first_NoDup (l : list string) : NoDup (dedup_first l).
Proof.
  induction l as [|y l IH]; simpl; constructor.
  - rewrite filter_In, String.eqb_refl; simpl; intros [_ H]; discriminate.
  - now apply NoDup_filter.
Qed.

Lemma dedup_first_id (l : list string) : NoDup l -> dedup_first l = l.
Proof.
  induction 1 as [|x l Hx Hl IH]; simpl; [reflexivity|].
  now rewrite IH, filter_neq_notin.
Qed.

Lemma dedup_first_skip (x : string) (a t : list string) :
  In x a -> dedup_first (a ++ x :: t)%list = dedup_first (a ++ t)%list.
Proof.
  induction a as [|y a IH]; simpl; intros H; [contradiction|].
  f_equal.
  destruct (in_dec string_dec x a) as [I|I].
  - now rewrite IH.
  - destruct H as [->|H]; [|contradiction].
    rewrite !filter_dedup_first, !filter_app; simpl.
    now rewrite String.eqb_refl.
Qed.

Lemma fold_add_new (l : list string) :
  forall acc, NoDup acc ->
    fold_left add_new l acc = dedup_first (acc ++ l)%list.
Proof.
  induction l as [|x l IH]; intros acc Hacc; simpl.
  - now rewrite app_nil_r, dedup_first_id.
  - unfold add_new at 2. destruct (mem x acc) eqn:M.
    + apply mem_In in M. now rewrite IH, dedup_first_skip.
    + apply mem_false in M. unfold list_append.
      rewrite IH, <- app_assoc; [reflexivity|].
      apply NoDup_app; [assumption | repeat constructor; simpl; tauto |].
      intros y Hy [<-|[]]; contradiction.
Qed.

Lemma dict_fromkeys_dedup (l : list string) :
  dict_fromkeys l = dedup_first l.
Proof. unfold dict_fromkeys; now rewrite fold_add_new by constructor. Qed.

Lemma fold_canonical (ms : list string) :
  forall acc,
    fold_left
      (fun urls match_ =>
         let url :=
           if startswith (lower match_) "www." then "https://" ++ match_
           else match_ in
         if negb (mem url urls) then list_append urls url else urls)
      ms acc
    = fold_left add_new (map canonical ms) acc.
Proof.
  induction ms as [|m ms IH]; intros acc; simpl; [reflexivity|].
  rewrite IH; f_equal.
  unfold add_new, canonical; now destruct (mem _ acc).
Qed.

Lemma collect_urls_merge (payload : EmailAnalysisRequest) :
  _collect_urls payload
  = dedup_first
      (urls payload ++ map canonical (Re.URL_REGEX_findall (body payload)))%list.
Proof.
  unfold _collect_urls, dict_fromkeys.
  rewrite fold_canonical, <- fold_left_app.
  now rewrite fold_add_new by constructor.
Qed.

Lemma canonical_www (u : string) :
  startswith (lower u) "www." = true -> canonical u <> u.
Proof.
  unfold canonical; intros ->; intros E.
  apply (f_equal String.length) in E; simpl in E; lia.
Qed.

Lemma filter_all_dropped (u : string) (l : list string) :
  filter (fun v => negb (String.eqb u v)) l = [] <-> forall v, In v l -> v = u.
Proof.
  induction l as [|x l IH]; cbn [filter In]; [tauto|].
  destruct (String.eqb_spec u x) as [<-|N]; cbn [negb].
  - rewrite IH; split; [intros H v [<-|I]; auto | intros H v I; auto].
  - split; [discriminate|].
    intros H; destruct N; symmetry; apply H; now left.
Qed.

(** C2, as amended.  For every request the extracted URLs are the
    order-preserving, duplicate-free merge of the [urls] field (first, in
    input order) with the canonical forms of the body matches, the explicit
    entries kept as given.  A URL string given in [urls] is exactly one
    entry of the result, whatever the body holds.  When it is the only
    explicit URL, the entries after it are the distinct canonical body
    matches other than that string: the result is that single entry exactly
    when every body match, made canonical, is that string.  A match that
    begins with www. always adds its https:// form, which differs from the
    match as written. *)
Theorem collect_urls_dedup_merge (payload : EmailAnalysisRequest) :
  let matches := Re.URL_REGEX_findall (body payload) in
  _collect_urls payload
  = dedup_first (urls payload ++ map canonical matches)%list
  /\ NoDup (_collect_urls payload)
  /\ (forall u, In u (_collect_urls payload)
                <-> In u (urls payload) \/ In u (map canonical matches))
  /\ (forall u, In u (urls payload) ->
                count_occ string_dec (_collect_urls payload) u = 1)
  /\ (forall u, urls payload = [u] ->
                _collect_urls payload
                = u :: filter (fun v => negb (String.eqb u v))
                              (dedup_first (map canonical matches))
                /\ (_collect_urls payload = [u]
                    <-> forall m, In m matches -> canonical m = u))
  /\ (forall u, urls payload = [u] -> matches = [u] ->
                _collect_urls payload
                = if startswith (lower u) "www." then [u; "https://" ++ u]
                  else [u])
  /\ (forall m, In m matches -> startswith (lower m) "www." = true ->
                In ("https://" ++ m) (_collect_urls payload)
                /\ "https://" ++ m <> m).
Proof.
  cbv zeta. rewrite collect_urls_merge.
  split; [reflexivity|].
  split; [apply dedup_first_NoDup|].
  split; [intros u; now rewrite dedup_first_In, in_app_iff|].
  split.
  { intros u Hu.
    apply NoDup_count_occ'; [apply dedup_first_NoDup|].
    apply dedup_first_In, in_app_iff; now left. }
  split.
  { intros u ->; cbn [List.app dedup_first].
    split; [reflexivity|].
    split.
    - intros E; injection E as E.
      intros m I; apply (proj1 (filter_all_dropped u _) E).
      apply dedup_first_In, in_map, I.
    - intros H; f_equal; apply filter_all_dropped.
      intros v I; apply dedup_first_In, in_map_iff in I.
      destruct I as (m & <- & I); now apply H. }
  split.
  { intros u -> ->. simpl.
    destruct (startswith (lower u) "www.") eqn:W.
    + pose proof (canonical_www u W) as N.
      unfold canonical in *; rewrite W in *.
      destruct (String.eqb_spec u ("https://" ++ u)); [congruence | reflexivity].
    + unfold canonical; rewrite W, String.eqb_refl; reflexivity. }
  intros m I W; split.
  - apply dedup_first_In, in_app_iff; right.
    apply in_map_iff; exists m; split; [|exact I].
    unfold canonical; now rewrite W.
  - pose proof (canonical_www m W) as N.
    unfold canonical in N; now rewrite W in N.
Qed.

(** The theorem at two requests that give https://example.com/login in
    [urls]: embedded in the body between spaces the URL is the only entry;
    closing a sentence of the body it is matched with the full stop, and
    that match is a second entry. *)
Lemma collect_urls_dedup_merge_witness :
  count_occ string_dec (_collect_urls Samples.login_request)
            "https://example.com/login" = 1
  /\ _collect_urls Samples.login_request = ["https://example.com/login"]
  /\ _collect_urls Samples.sentence_end_request
     = ["https://example.com/login"; "https://example.com/login."].
Proof.
  destruct (collect_urls_dedup_merge Samples.login_request)
    as (_ & _ & _ & Hcount & Hsingle & _).
  destruct (collect_urls_dedup_merge Samples.sentence_end_request)
    as (_ & _ & _ & _ & Hrest & _).
  split; [apply Hcount; vm_compute; auto|].
  split.
  - apply (Hsingle "https://example.com/login" eq_refl).
    vm_compute; intros m [<-|[]]; reflexivity.
  - exact (proj1 (Hrest "https://example.com/login" eq_refl)).
Defined.

(** C2, as stated, fails: the string www.evil.com given both in [urls] and
    as the body yields two entries, the explicit string and the https://
    form of the body match. *)
Lemma collect_urls_www_two_entries :
  urls Samples.www_request = ["www.evil.com"]
  /\ Re.URL_REGEX_findall (body Samples.www_request) = ["www.evil.com"]
  /\ _collect_urls Samples.www_request
     = ["www.evil.com"; "https://www.evil.com"]
  /\ List.length (_collect_urls Samples.www_request) = 2%nat.
Proof. repeat split; reflexivity. Qed.

End UrlExtraction.

(** ** Sensitive-data requests *)

Section SensitiveRequests.
Import PyStr Detector Spec.
Variable order : SetOrder.
Hypothesis order_lists_lexicon :
  Permutation (SENSITIVE_KEYWORDS_iter order) SENSITIVE_KEYWORDS.

Lemma contains_find (sub s : string) :
  contains sub s = true <-> exists i, find s sub = Some i.
Proof.
  unfold contains; destruct (find s sub) as [i|]; split.
  - intros _; now exists i.
  - reflexivity.
  - discriminate.
  - intros [i H]; discriminate.
Qed.

Lemma find_first_occurrence (s sub : string) (i : nat) :
  find s sub = Some i -> first_occurrence s sub i.
Proof.
  unfold find; intros H; split.
  - now apply index_correct1 with (n := 0).
  - intros j Hj; apply (index_correct2 0 i sub s H); lia.
Qed.

Lemma extract_context_fold (body : string) (kws : list string) :
  (forall k, In k kws -> contains k (lower body) = true) ->
  forall acc,
    fold_left
      (fun snippets keyword =>
         match find (lower body) keyword with
         | None => snippets
         | Some start =>
             list_append snippets
               (strip (slice body (start - 40)
                             (start + String.length keyword + 40)))
         end)
      kws acc
    = (acc ++ map (context_snippet body) kws)%list.
Proof.
  induction kws as [|k kws IH]; intros Hall acc; simpl.
  - now rewrite app_nil_r.
  - rewrite IH by (intros k' Hk'; apply Hall; now right).
    unfold context_snippet at 2, trimmed_window.
    destruct (proj1 (contains_find k (lower body)) (Hall k (or_introl eq_refl)))
      as [i ->].
    unfold list_append; now rewrite <- app_assoc.
Qed.

Lemma extract_context_hits (body : string) (kws : list string) :
  (forall k, In k kws -> contains k (lower body) = true) ->
  _extract_context body kws = map (context_snippet body) kws.
Proof.
  intros Hall; unfold _extract_context, _extract_context_window.
  now rewrite extract_context_fold.
Qed.

Lemma snippets_of_hits (body : string) (kws : list string) :
  (forall k, In k kws -> contains k (lower body) = true) ->
  Forall2
    (fun kw snippet =>
       exists start, first_occurrence (lower body) kw start
                     /\ snippet = trimmed_window body kw start)
    kws (map (context_snippet body) kws).
Proof.
  induction kws as [|k kws IH]; intros Hall; simpl; constructor.
  - destruct (proj1 (contains_find k (lower body)) (Hall k (or_introl eq_refl)))
      as [i Hi].
    exists i; split; [now apply find_first_occurrence|].
    unfold context_snippet; now rewrite Hi.
  - apply IH; intros k' Hk'; apply Hall; now right.
Qed.

Lemma sensitive_keywords_distinct : NoDup SENSITIVE_KEYWORDS.
Proof. repeat constructor; simpl; intuition discriminate. Qed.

(** On a body of code points below 256, where case folding keeps every
    index: whatever the iteration order of the lexicon, the hits are the
    keywords of the lexicon that the case-folded body contains, each once.
    When there is one, the detector returns exactly one finding, of severity
    high, whose evidence holds one snippet per matched keyword, each the
    trimmed window of 40 characters on either side of the first occurrence
    of that keyword (so the list of snippets is never empty and the bare
    keyword list is never used); when there is none, the detector returns no
    finding. *)
Theorem sensitive_requests_one_high_finding (payload : EmailAnalysisRequest) :
  let text := lower (body payload) in
  let hits :=
    filter (fun kw => contains kw text) (SENSITIVE_KEYWORDS_iter order) in
  (forall kw, In kw hits
              <-> In kw SENSITIVE_KEYWORDS /\ contains kw text = true)
  /\ NoDup hits
  /\ ((exists kw, In kw SENSITIVE_KEYWORDS /\ contains kw text = true) ->
   exists snippets,
     _detect_sensitive_requests order payload
     = [ {| category := "Sensitive Data Request";
            description :=
              "Email references requests for sensitive or credential information.";
            severity := high;
            evidence := snippets |} ]
     /\ snippets <> []
     /\ List.length snippets = List.length hits
     /\ Forall2
          (fun kw snippet =>
             exists start, first_occurrence text kw start
                           /\ snippet = trimmed_window (body payload) kw start)
          hits snippets)
  /\ ((forall kw, In kw SENSITIVE_KEYWORDS -> contains kw text = false) ->
      _detect_sensitive_requests order payload = []).
Proof.
  cbv zeta; unfold _detect_sensitive_requests.
  set (text := lower (body payload)).
  set (hits := filter (fun kw => contains kw text) (SENSITIVE_KEYWORDS_iter order)).
  assert (Hhits : forall k, In k hits -> contains k text = true)
    by (intros k Hk; now apply filter_In in Hk).
  split; [|split; [|split]].
  - intros kw; unfold hits; rewrite filter_In.
    split; intros [Hk Hc]; (split; [|exact Hc]).
    + now apply Permutation_in with (l := SENSITIVE_KEYWORDS_iter order).
    + apply Permutation_in with (l := SENSITIVE_KEYWORDS);
        [now apply Permutation_sym | exact Hk].
  - apply NoDup_filter.
    apply Permutation_NoDup with (l := SENSITIVE_KEYWORDS);
      [now apply Permutation_sym | apply sensitive_keywords_distinct].
  - intros (kw & Hkw & Hc).
    assert (Hin : In kw hits).
    { apply filter_In; split; [|exact Hc].
      apply Permutation_in with (l := SENSITIVE_KEYWORDS);
        [now apply Permutation_sym | exact Hkw]. }
    rewrite extract_context_hits by exact Hhits.
    destruct hits as [|h hits']; [contradiction|].
    exists (map (context_snippet (body payload)) (h :: hits')).
    split; [reflexivity|].
    split; [discriminate|].
    split; [apply length_map|].
    now apply snippets_of_hits.
  - intros Hnone.
    assert (E : hits = []).
    { destruct hits as [|h hits'] eqn:Eh; [reflexivity|].
      assert (Hh : In h (h :: hits')) by now left.
      rewrite <- Eh in Hh. unfold hits in Hh.
      apply filter_In in Hh; destruct Hh as [Hh Hc].
      rewrite (Hnone h) in Hc; [discriminate|].
      now apply Permutation_in with (l := SENSITIVE_KEYWORDS_iter order). }
    now rewrite E.
Qed.

End SensitiveRequests.

(** The theorem at the request of the design document, with the lexicon
    iterated in the order of the source text: one finding, two snippets. *)
Lemma sensitive_requests_one_high_finding_witness :
  exists snippets,
    Detector._detect_sensitive_requests Detector.source_order
      Samples.password_request
    = [ {| category := "Sensitive Data Request";
           description :=
             "Email references requests for sensitive or credential information.";
           severity := high;
           evidence := snippets |} ]
    /\ List.length snippets = 2.
Proof.
  destruct (sensitive_requests_one_high_finding Detector.source_order
              (Permutation_refl _) Samples.password_request)
    as (_ & _ & Hhit & _).
  destruct Hhit as (snippets & E & _ & L & _).
  - exists "password"; split; [simpl; tauto | reflexivity].
  - exists snippets; split; [exact E | exact L].
Defined.

(** C7.  The snippet of a keyword is cut out of the body at the index at
    which the keyword was found in the case-folded body, and case folding
    lengthens a body that holds U+0130.  The body of fifty such letters
    followed by a request for a password holds the keyword at index 62; the
    trimmed window around that occurrence quotes the keyword.  In the
    case-folded body the keyword is at index 112, beyond the 70 characters
    of the body: the detector returns one finding of severity high whose
    evidence is a single empty snippet, which quotes no keyword, and the
    bare keyword list is not used in its place. *)
Theorem sensitive_snippet_misses_keyword :
  let body := Samples.dotted_capitals_body in
  let password := Wide.of_string "password" in
  List.length body = 70
  /\ Wide.find body password = Some 62
  /\ Spec.holds_keyword (Spec.window_around body password 62) password = true
  /\ Wide.find (Wide.lower body) password = Some 112
  /\ Wide._detect_sensitive_requests Detector.source_order body
     = [ {| Wide.category := "Sensitive Data Request";
            Wide.description :=
              "Email references requests for sensitive or credential information.";
            Wide.severity := high;
            Wide.evidence := [ [] ] |} ]
  /\ Spec.holds_keyword [] password = false.
Proof. cbv zeta; repeat split; reflexivity. Qed.

(** ** Snippets of a body without U+0130 *)

Section WideText.
Import Spec.
Open Scope list_scope.

Lemma wide_eqb_eq (a b : Wide.char) : Wide.eqb a b = true <-> a = b.
Proof.
  destruct a as [x| |], b as [y| |]; cbn [Wide.eqb];
    try (split; congruence).
  rewrite Ascii.eqb_eq; split; congruence.
Qed.

Lemma wide_prefix_app (p s : Wide.str) :
  Wide.prefix p s = true <-> exists rest, s = p ++ rest.
Proof.
  revert s; induction p as [|a p IH]; intros s; cbn [Wide.prefix app].
  - split; [intros _; now exists s | reflexivity].
  - destruct s as [|b s].
    + split; [discriminate | intros [rest E]; discriminate E].
    + rewrite andb_true_iff, wide_eqb_eq, IH; split.
      * intros [-> [rest ->]]; now exists rest.
      * intros [rest E]; injection E as -> ->.
        split; [reflexivity | now exists rest].
Qed.

Lemma wide_find_nil (sub : Wide.str) :
  Wide.find [] sub = if Wide.prefix sub [] then Some 0 else None.
Proof. reflexivity. Qed.

Lemma wide_find_cons (sub : Wide.str) (c : Wide.char) (s : Wide.str) :
  Wide.find (c :: s) sub
  = if Wide.prefix sub (c :: s) then Some 0
    else option_map S (Wide.find s sub).
Proof. reflexivity. Qed.

(** [find] returns the first index at which the text begins with [sub]. *)
Lemma wide_find_first (sub s : Wide.str) :
  forall i,
    Wide.find s sub = Some i ->
    Wide.prefix sub (skipn i s) = true
    /\ forall j, j < i -> Wide.prefix sub (skipn j s) = false.
Proof.
  induction s as [|c s IH]; intros i.
  - rewrite wide_find_nil.
    destruct (Wide.prefix sub []) eqn:P; [|discriminate].
    intros E; injection E as <-; split; [exact P | intros j Hj; lia].
  - rewrite wide_find_cons.
    destruct (Wide.prefix sub (c :: s)) eqn:P.
    + intros E; injection E as <-; split; [exact P | intros j Hj; lia].
    + destruct (Wide.find s sub) as [k|]; cbn [option_map]; [|discriminate].
      intros E; injection E as <-.
      destruct (IH k eq_refl) as [H1 H2]; split; [exact H1|].
      intros [|j] Hj; [exact P | cbn [skipn]; apply H2; lia].
Qed.

Lemma wide_contains_app (kw a b : Wide.str) :
  Wide.contains kw (a ++ kw ++ b) = true.
Proof.
  unfold Wide.contains; induction a as [|c a IH]; cbn [app].
  - assert (P : Wide.prefix kw (kw ++ b) = true)
      by (apply wide_prefix_app; now exists b).
    destruct (kw ++ b) as [|d r];
      [rewrite wide_find_nil | rewrite wide_find_cons]; now rewrite P.
  - rewrite wide_find_cons.
    destruct (Wide.prefix kw (c :: a ++ kw ++ b)); [reflexivity|].
    destruct (Wide.find (a ++ kw ++ b) kw); [reflexivity | discriminate IH].
Qed.

Lemma lower_fold (s : Wide.str) :
  no_capital_i_dot s = true -> Wide.lower s = map fold_char s.
Proof.
  unfold no_capital_i_dot, Wide.lower.
  induction s as [|c s IH]; cbn [forallb flat_map map]; [reflexivity|].
  intros H; apply andb_true_iff in H; destruct H as [Hc Hs].
  rewrite (IH Hs); destruct c; [reflexivity | discriminate Hc | reflexivity].
Qed.

Lemma no_dot_part (s t : Wide.str) :
  (forall c, In c t -> In c s) ->
  no_capital_i_dot s = true -> no_capital_i_dot t = true.
Proof. unfold no_capital_i_dot; rewrite !forallb_forall; auto. Qed.

Lemma in_firstn_part {A : Type} (n : nat) :
  forall (l : list A) (x : A), In x (firstn n l) -> In x l.
Proof.
  induction n as [|n IH]; intros [|y l] x; cbn [firstn In]; try tauto.
  intros [E|I]; [now left | right; now apply IH].
Qed.

Lemma in_skipn_part {A : Type} (n : nat) :
  forall (l : list A) (x : A), In x (skipn n l) -> In x l.
Proof.
  induction n as [|n IH]; intros [|y l] x; cbn [skipn In]; try tauto.
  intros I; right; now apply IH.
Qed.

Lemma in_lstrip_part (s : Wide.str) (x : Wide.char) :
  In x (Wide.lstrip s) -> In x s.
Proof.
  induction s as [|c s IH]; cbn [Wide.lstrip]; [tauto|].
  destruct (Wide.isspace c); [intros I; right; now apply IH | tauto].
Qed.

Lemma in_strip_part (s : Wide.str) (x : Wide.char) :
  In x (Wide.strip s) -> In x s.
Proof.
  unfold Wide.strip; intros H.
  apply in_rev, in_lstrip_part, in_rev, in_lstrip_part in H; exact H.
Qed.

Lemma isspace_fold_char (c : Wide.char) :
  Wide.isspace (fold_char c) = Wide.isspace c.
Proof.
  destruct c as [a| |]; [|reflexivity|reflexivity].
  cbn [fold_char Wide.isspace].
  destruct a as [[] [] [] [] [] [] [] []]; reflexivity.
Qed.

Lemma lstrip_fold (s : Wide.str) :
  Wide.lstrip (map fold_char s) = map fold_char (Wide.lstrip s).
Proof.
  induction s as [|c s IH]; cbn [map Wide.lstrip]; [reflexivity|].
  rewrite isspace_fold_char; destruct (Wide.isspace c); [exact IH | reflexivity].
Qed.

Lemma strip_fold (s : Wide.str) :
  Wide.strip (map fold_char s) = map fold_char (Wide.strip s).
Proof.
  unfold Wide.strip.
  now rewrite lstrip_fold, <- map_rev, lstrip_fold, <- map_rev.
Qed.

Lemma slice_fold (s : Wide.str) (a b : nat) :
  Wide.slice (map fold_char s) a b = map fold_char (Wide.slice s a b).
Proof. unfold Wide.slice; now rewrite skipn_map, firstn_map. Qed.

Lemma lstrip_keeps (k : Wide.char) (kw a b : Wide.str) :
  Wide.isspace k = false ->
  exists a', Wide.lstrip (a ++ (k :: kw) ++ b) = a' ++ (k :: kw) ++ b.
Proof.
  intros H; induction a as [|c a IH]; cbn [app Wide.lstrip].
  - rewrite H; now exists [].
  - destruct (Wide.isspace c); [exact IH | now exists (c :: a)].
Qed.

(** Trimming a text leaves a keyword inside it in place. *)
Lemma strip_keeps (kw a b : Wide.str) :
  keyword_shape kw = true ->
  exists a' b', Wide.strip (a ++ kw ++ b) = a' ++ kw ++ b'.
Proof.
  unfold keyword_shape; intros H.
  apply andb_true_iff in H; destruct H as [H1 H2].
  destruct kw as [|k kw]; [discriminate H1|].
  apply negb_true_iff in H1.
  destruct (rev (k :: kw)) as [|k2 kwr] eqn:R; [discriminate H2|].
  apply negb_true_iff in H2.
  unfold Wide.strip.
  destruct (lstrip_keeps k kw a b H1) as [a' ->].
  rewrite !rev_app_distr, R, <- app_assoc.
  destruct (lstrip_keeps k2 kwr (rev b) (rev a') H2) as [b' ->].
  rewrite !rev_app_distr, rev_involutive, <- R, rev_involutive, <- app_assoc.
  now exists a', (rev b').
Qed.

Lemma slice_around (p kw q : Wide.str) (a : nat) :
  a <= List.length p ->
  Wide.slice (p ++ kw ++ q) a (List.length p + List.length kw + 40)
  = skipn a p ++ kw ++ firstn 40 q.
Proof.
  intros H; unfold Wide.slice.
  rewrite skipn_app.
  replace (a - List.length p) with 0 by lia; cbn [skipn].
  rewrite firstn_app, length_skipn.
  replace (List.length p + List.length kw + 40 - a - (List.length p - a))
    with (List.length kw + 40) by lia.
  rewrite (@firstn_all2 _ _ (skipn a p)) by (rewrite length_skipn; lia).
  f_equal.
  rewrite firstn_app.
  replace (List.length kw + 40 - List.length kw) with 40 by lia.
  now rewrite (@firstn_all2 _ _ kw) by lia.
Qed.

Lemma reads_at_lowered (body kw : Wide.str) (j : nat) :
  no_capital_i_dot body = true ->
  reads_at body kw j = Wide.prefix kw (skipn j (Wide.lower body)).
Proof.
  intros N; unfold reads_at.
  rewrite (lower_fold body N), skipn_map, lower_fold; [reflexivity|].
  apply (no_dot_part body); [apply in_skipn_part | exact N].
Qed.

(** On a body without U+0130 the index found in the case-folded body is
    the first index at which the body reads the keyword, and the trimmed
    window around it quotes the keyword. *)
Lemma window_holds_keyword (body kw : Wide.str) (start : nat) :
  no_capital_i_dot body = true -> keyword_shape kw = true ->
  Wide.find (Wide.lower body) kw = Some start ->
  first_reading body kw start
  /\ holds_keyword (window_around body kw start) kw = true.
Proof.
  intros N K F.
  destruct (wide_find_first _ _ _ F) as [P M].
  split.
  { split; [now rewrite reads_at_lowered | ].
    intros j Hj; rewrite reads_at_lowered by exact N; now apply M. }
  unfold holds_keyword, window_around.
  rewrite lower_fold, <- strip_fold, <- slice_fold, <- (lower_fold body N).
  2:{ apply (no_dot_part body); [|exact N].
      intros c I; apply in_strip_part in I; unfold Wide.slice in I.
      now apply in_firstn_part, in_skipn_part in I. }
  apply wide_prefix_app in P; destruct P as [q Q].
  assert (L : start < List.length (Wide.lower body)).
  { destruct (Nat.lt_ge_cases start (List.length (Wide.lower body)))
      as [H|H]; [exact H|].
    rewrite (skipn_all2 (Wide.lower body) H) in Q.
    destruct kw; [discriminate K | discriminate Q]. }
  pose proof (firstn_skipn start (Wide.lower body)) as E.
  rewrite Q in E.
  assert (LP : List.length (firstn start (Wide.lower body)) = start)
    by (rewrite length_firstn; lia).
  remember (firstn start (Wide.lower body)) as p eqn:Hp.
  rewrite <- E, <- LP, slice_around by lia.
  destruct (strip_keeps kw (skipn (List.length p - 40) p) (firstn 40 q) K)
    as (a' & b' & ->).
  apply wide_contains_app.
Qed.

Lemma lexicon_keyword_shape :
  forallb (fun kw => keyword_shape (Wide.of_string kw))
          Detector.SENSITIVE_KEYWORDS = true.
Proof. reflexivity. Qed.

Lemma wide_extract_context_fold (body : Wide.str) (kws : list Wide.str) :
  no_capital_i_dot body = true ->
  (forall k, In k kws ->
             Wide.contains k (Wide.lower body) = true
             /\ keyword_shape k = true) ->
  forall acc,
    exists snippets,
      fold_left
        (fun snippets keyword =>
           match Wide.find (Wide.lower body) keyword with
           | None => snippets
           | Some start =>
               PyStr.list_append snippets
                 (Wide.strip
                    (Wide.slice body (start - 40)
                                (start + List.length keyword + 40)))
           end)
        kws acc
      = acc ++ snippets
      /\ Forall2
           (fun kw snippet =>
              exists start,
                first_reading body kw start
                /\ snippet = window_around body kw start
                /\ holds_keyword snippet kw = true)
           kws snippets.
Proof.
  intros N; induction kws as [|k kws IH]; intros Hall acc; cbn [fold_left].
  - exists []; split; [now rewrite app_nil_r | constructor].
  - destruct (Hall k (or_introl eq_refl)) as [C K].
    unfold Wide.contains in C.
    destruct (Wide.find (Wide.lower body) k) as [start|] eqn:F;
      [|discriminate C].
    destruct (IH (fun k' Hk' => Hall k' (or_intror Hk'))
                 (PyStr.list_append acc
                    (Wide.strip
                       (Wide.slice body (start - 40)
                                   (start + List.length k + 40)))))
      as (rest & E & R).
    exists (window_around body k start :: rest); split.
    + rewrite E; unfold PyStr.list_append, window_around.
      now rewrite <- app_assoc.
    + constructor; [|exact R].
      exists start.
      destruct (window_holds_keyword body k start N K F) as [FR H].
      repeat split; [apply FR | apply FR | exact H].
Qed.

(** X10.  On a body without U+0130, whatever the iteration order of the
    lexicon: with no keyword in the case-folded body the sensitive-data
    detector returns no finding; otherwise it returns one finding of
    severity high with one snippet per matched keyword, in the order of
    the matches, and each snippet is the trimmed window of 40 characters
    on either side of the first place at which the body reads its keyword,
    and quotes that keyword. *)
Theorem sensitive_snippets_quote_keywords
  (order : SetOrder) (body : Wide.str) :
  Detector.well_formed order ->
  no_capital_i_dot body = true ->
  let hits :=
    filter (fun kw => Wide.contains kw (Wide.lower body))
           (map Wide.of_string (SENSITIVE_KEYWORDS_iter order)) in
  match hits with
  | [] => Wide._detect_sensitive_requests order body = []
  | _ :: _ =>
      exists snippets,
        Wide._detect_sensitive_requests order body
        = [ {| Wide.category := "Sensitive Data Request";
               Wide.description :=
                 "Email references requests for sensitive or credential information.";
               Wide.severity := high;
               Wide.evidence := snippets |} ]
        /\ Forall2
             (fun kw snippet =>
                exists start,
                  first_reading body kw start
                  /\ snippet = window_around body kw start
                  /\ holds_keyword snippet kw = true)
             hits snippets
  end.
Proof.
  intros (_ & W & _) N; cbv zeta.
  unfold Wide._detect_sensitive_requests.
  set (hits := filter (fun kw => Wide.contains kw (Wide.lower body))
                      (map Wide.of_string (SENSITIVE_KEYWORDS_iter order))).
  assert (Hall : forall k, In k hits ->
                   Wide.contains k (Wide.lower body) = true
                   /\ keyword_shape k = true).
  { intros k Hk; apply filter_In in Hk; destruct Hk as [I C].
    split; [exact C|].
    apply in_map_iff in I; destruct I as (kw & <- & I).
    apply (Permutation_in _ W) in I.
    exact (proj1 (forallb_forall _ _) lexicon_keyword_shape kw I). }
  destruct hits as [|h hits']; [reflexivity|].
  cbn [Detector.nonempty negb].
  unfold Wide._extract_context, Wide._extract_context_window.
  destruct (wide_extract_context_fold body (h :: hits') N Hall [])
    as (snippets & E & R).
  rewrite E; cbn [app].
  exists snippets; split; [|exact R].
  inversion R; subst; reflexivity.
Qed.

End WideText.

(** ** Suspicious links *)

Section SuspiciousLinks.
Import PyStr Detector Spec.
Variable libs : Libs.

Lemma in_list_append {A : Type} (l : list A) (x y : A) :
  In y (list_append l x) <-> In y l \/ y = x.
Proof.
  unfold list_append; rewrite in_app_iff; simpl; intuition congruence.
Qed.

(** One turn of the loop raises the severity to high exactly when the URL
    escalates, records the escalation evidence, and drops nothing. *)
Lemma link_step_spec (sev : RiskLevel) (ev : list string) (url : string) :
  fst (link_step libs (sev, ev) url)
  = (if escalates libs url then high else sev)
  /\ (forall e, In e ev -> In e (snd (link_step libs (sev, ev) url)))
  /\ (forall e, escalation_evidence libs url = Some e ->
                In e (snd (link_step libs (sev, ev) url))).
Proof.
  unfold link_step, escalates, escalation_evidence.
  destruct (_domain_from_url libs (Some url)) as [d|]; simpl;
    [|split; [reflexivity | split; [auto | discriminate]]].
  destruct (truthy d); simpl;
    [|split; [reflexivity | split; [auto | discriminate]]].
  destruct (_looks_like_ip d); [|destruct (_has_typosquatting_pattern d)];
    destruct (startswith (lower url) "http://"); simpl;
    (split; [reflexivity |
     split; [intros e He; rewrite ?in_list_append; tauto |
             intros e He; try discriminate He; injection He as <-;
             rewrite ?in_list_append; tauto]]).
Qed.

Lemma fold_link_step (urls : list string) :
  forall sev ev,
    fst (fold_left (link_step libs) urls (sev, ev))
    = (if existsb (escalates libs) urls then high else sev)
    /\ (forall e, In e ev ->
                  In e (snd (fold_left (link_step libs) urls (sev, ev))))
    /\ (forall u e, In u urls -> escalation_evidence libs u = Some e ->
                    In e (snd (fold_left (link_step libs) urls (sev, ev)))).
Proof.
  induction urls as [|url urls IH]; intros sev ev; cbn [fold_left existsb].
  - split; [reflexivity | split; [auto | intros u e []]].
  - destruct (link_step_spec sev ev url) as (Hs & Hkeep & Hrec).
    destruct (link_step libs (sev, ev) url) as [sev1 ev1] eqn:E.
    simpl in Hs, Hkeep, Hrec.
    destruct (IH sev1 ev1) as (IHs & IHkeep & IHrec).
    split; [|split].
    + rewrite IHs, Hs.
      now destruct (escalates libs url), (existsb (escalates libs) urls).
    + intros e He; apply IHkeep, Hkeep, He.
    + intros u e [<-|Hu] Hesc.
      * apply IHkeep, Hrec, Hesc.
      * now apply IHrec with (u := u).
Qed.

(** C3.  When the Suspicious Links detector returns a finding, its severity
    is high if some URL contributed IP-literal or typosquat evidence and
    medium otherwise; the evidence of an escalating URL is in the finding;
    and the escalation is sticky: whatever URLs come after an escalating
    one, the severity is high. *)
Theorem suspicious_links_severity
  (payload : EmailAnalysisRequest) (urls : list string) (f : Finding) :
  _detect_suspicious_links libs payload urls = [f] ->
  severity f = (if existsb (escalates libs) urls then high else medium)
  /\ (forall u e, In u urls -> escalation_evidence libs u = Some e ->
                  In e (evidence f) /\ severity f = high)
  /\ (forall before u after,
        urls = (before ++ u :: after)%list -> escalates libs u = true ->
        severity f = high).
Proof.
  unfold _detect_suspicious_links.
  destruct (nonempty urls); simpl; [|discriminate].
  destruct (fold_link_step urls medium []) as (Hs & _ & Hrec).
  destruct (fold_left (link_step libs) urls (medium, [])) as [sev ev].
  simpl in Hs, Hrec.
  set (ev' := if Nat.ltb 5 (List.length urls) then _ else ev).
  assert (Hev' : forall e, In e ev -> In e ev').
  { intros e He; unfold ev'; destruct (Nat.ltb 5 (List.length urls));
      [apply in_list_append; now left | exact He]. }
  destruct (nonempty ev'); simpl; [|discriminate].
  intros E; injection E as <-; simpl.
  assert (Hhigh : forall u, In u urls -> escalates libs u = true -> sev = high).
  { intros u Hu He; rewrite Hs.
    replace (existsb (escalates libs) urls) with true; [reflexivity|].
    symmetry; apply existsb_exists; now exists u. }
  split; [exact Hs | split].
  - intros u e Hu He; split.
    + apply Hev', (Hrec u e Hu He).
    + apply (Hhigh u Hu); unfold escalates; now rewrite He.
  - intros before u after -> He.
    apply (Hhigh u); [apply in_elt | exact He].
Qed.

End SuspiciousLinks.

(** The theorem at three links of which the second is an IP literal: the
    finding is of severity high although the last link only adds the
    not-HTTPS evidence. *)
Lemma suspicious_links_severity_witness :
  exists f,
    Detector._detect_suspicious_links Samples.offline_libs
      Samples.login_request Samples.mixed_links = [f]
    /\ severity f = high
    /\ In "URL `http://192.168.0.1/admin` uses raw IP address." (evidence f).
Proof.
  eexists; split; [vm_compute; reflexivity|].
  match goal with
  | |- severity ?f = _ /\ _ =>
      destruct (suspicious_links_severity Samples.offline_libs
                  Samples.login_request Samples.mixed_links f eq_refl)
        as (_ & Hev & _)
  end.
  destruct (Hev "http://192.168.0.1/admin"
                "URL `http://192.168.0.1/admin` uses raw IP address.")
    as [Hin Hsev]; [simpl; tauto | reflexivity |].
  split; [exact Hsev | exact Hin].
Defined.

(** ** Sender anomalies *)

Section SenderAnomalies.
Import PyStr Detector Spec.
Variable libs : Libs.

Ltac split_ifs :=
  repeat match goal with
         | |- context [if ?c then _ else _] =>
             lazymatch c with
             | true => fail
             | false => fail
             | _ => destruct c
             end
         end.

Lemma sender_anomalies_need_comparison
  (payload : EmailAnalysisRequest) (urls : list string) :
  reply_to payload = None -> url_domain_set libs urls = [] ->
  _detect_sender_anomalies libs payload urls = [].
Proof.
  intros Hr Hu; unfold _detect_sender_anomalies.
  rewrite Hr, Hu; simpl.
  destruct (if truthy_opt (_normalize_email libs (sender payload))
            then _domain_from_email (_normalize_email libs (sender payload))
            else None) as [sd|]; [|reflexivity].
  now rewrite andb_false_r.
Qed.

Lemma spoofing_issue_recorded (d company : string) (legit : list string) :
  In (company, legit) PhishingDetector.LEGITIMATE_DOMAINS ->
  contains company d = true ->
  existsb (fun l => contains l d) legit = false ->
  In ("Possible " ++ company ++ " domain spoofing")
     (PhishingDetector.spoofing_issues d).
Proof.
  intros Hin Hc Hl; unfold PhishingDetector.spoofing_issues.
  apply in_flat_map; exists (company, legit); split; [exact Hin|].
  cbn [fst snd]; rewrite Hc, Hl; now left.
Qed.

(** C4, as amended.  The Sender Domain Mismatch detector of the
    request-based engine records evidence for the reply-to and URL-domain
    comparisons only: with no reply-to address and no URL domain it returns
    no finding, whatever the sender.  The checks of the sender domain alone
    are made by the sender analysis of the standalone engine, which for a
    sender holding an at-sign records an issue for: a suspicious top-level
    domain of the blocklist; a brand name contained without any of that
    brand's legitimate domains; more than 3 dots; a run of 3 or more
    decimal digits (not of identical characters); and one of the
    misspelling patterns g00gle, micros0ft, amazn, paypa1. *)
Theorem sender_domain_checks
  (payload : EmailAnalysisRequest) (urls : list string) (address : string) :
  truthy address = true -> contains "@" address = true ->
  (reply_to payload = None -> url_domain_set libs urls = [] ->
   _detect_sender_anomalies libs payload urls = [])
  /\ exists recorded,
       let d := after_first "@" address in
       let tld := "." ++ suffix (tldextract_extract libs d) in
       PhishingDetector.issues (PhishingDetector._analyze_sender libs address)
       = Some recorded
       /\ PhishingDetector.sender_domain
            (PhishingDetector._analyze_sender libs address) = Some d
       /\ (truthy (suffix (tldextract_extract libs d)) = true ->
           mem tld PhishingDetector.SUSPICIOUS_TLDS = true ->
           In ("Suspicious TLD: " ++ tld) recorded)
       /\ (forall company legit,
             In (company, legit) PhishingDetector.LEGITIMATE_DOMAINS ->
             contains company d = true ->
             existsb (fun l => contains l d) legit = false ->
             In ("Possible " ++ company ++ " domain spoofing") recorded)
       /\ (3 < count_char "." d ->
           In "Excessive subdomains (possible obfuscation)" recorded)
       /\ (Re.search_three_digits d = true ->
           In "Domain contains multiple numbers" recorded)
       /\ (existsb (fun m => contains m d)
                   PhishingDetector.common_misspellings = true ->
           In "Likely domain name misspelling" recorded).
Proof.
  intros Ht Hat; split; [apply sender_anomalies_need_comparison|].
  unfold PhishingDetector._analyze_sender; rewrite Ht, Hat; cbn [negb].
  eexists; cbv zeta; cbn [PhishingDetector.issues PhishingDetector.sender_domain].
  split; [reflexivity|]. split; [reflexivity|].
  set (d := after_first "@" address).
  split; [|split; [|split; [|split]]].
  - intros Hs Hm; rewrite Hs; cbv iota; rewrite Hm; cbv iota.
    split_ifs; rewrite ?in_list_append, ?in_app_iff; simpl; tauto.
  - intros company legit Hin Hc Hl.
    pose proof (spoofing_issue_recorded d company legit Hin Hc Hl) as Hsp.
    split_ifs; rewrite ?in_list_append, ?in_app_iff; tauto.
  - intros Hdots; apply Nat.ltb_lt in Hdots; rewrite Hdots; cbv iota.
    split_ifs; rewrite ?in_list_append, ?in_app_iff; tauto.
  - intros Hdig; rewrite Hdig; cbv iota.
    split_ifs; rewrite ?in_list_append, ?in_app_iff; tauto.
  - intros Hmis; rewrite Hmis; cbv iota.
    rewrite in_list_append; tauto.
Qed.

End SenderAnomalies.

(** The amended C4 at the sender of the end-to-end scenario: the
    request-based detector returns nothing, the standalone analysis records
    the suspicious top-level domain and the misspelling. *)
Lemma sender_domain_checks_witness :
  Detector._detect_sender_anomalies Samples.offline_libs
    Samples.spoofed_sender_request [] = []
  /\ exists recorded,
       PhishingDetector.issues
         (PhishingDetector._analyze_sender Samples.offline_libs
            Samples.spoofed_sender) = Some recorded
       /\ In "Suspicious TLD: .xyz" recorded
       /\ In "Likely domain name misspelling" recorded.
Proof.
  destruct (sender_domain_checks Samples.offline_libs
              Samples.spoofed_sender_request [] Samples.spoofed_sender
              eq_refl eq_refl)
    as (Hdet & recorded & Hiss & _ & Htld & _ & _ & _ & Hmis).
  split; [apply Hdet; reflexivity|].
  exists recorded; split; [exact Hiss|].
  split; [apply Htld; reflexivity | apply Hmis; reflexivity].
Defined.

(** C4, as stated, fails.  The sender of the end-to-end scenario has a
    top-level domain of the blocklist and the misspelling paypa1, and the
    request-based detector returns no finding for it; a sender domain with
    a run of three identical letters gets no issue from the standalone
    analysis either, and no finding from the request-based detector. *)
Lemma sender_domain_alone_not_flagged :
  PyStr.mem ".xyz" PhishingDetector.SUSPICIOUS_TLDS = true
  /\ PyStr.contains "paypa1" "paypa1-alert.xyz" = true
  /\ Detector._detect_sender_anomalies Samples.offline_libs
       Samples.spoofed_sender_request
       (Detector._collect_urls Samples.spoofed_sender_request) = []
  /\ Spec.has_identical_run 3 "baaad-mail.com" = true
  /\ PhishingDetector.issues
       (PhishingDetector._analyze_sender Samples.offline_libs
          Samples.triple_letter_sender) = Some []
  /\ Detector._detect_sender_anomalies Samples.offline_libs
       (Samples.request "Notice" "Dear customer, thank you."
          (Some Samples.triple_letter_sender) [] [])
       [] = [].
Proof. repeat split; reflexivity. Qed.

(** ** The reputation lookup *)

Section ReputationLookup.
Import PyStr UrlReputation.
Variable libs : Libs.

Lemma lookup_urls_without_key (urls : list string) :
  getenv_URLSCAN_API_KEY libs = None ->
  lookup_urls libs urls = Ok (map unavailable_insight urls).
Proof.
  intros H; unfold lookup_urls; rewrite H; now destruct urls.
Qed.

Lemma parse_urlscan_response_url (u : string) (payload : JSON)
  (insight : URLInsight) :
  _parse_urlscan_response libs u payload = Ok insight -> url insight = u.
Proof.
  unfold _parse_urlscan_response, bind.
  repeat match goal with
         | |- context [match ?x with _ => _ end] =>
             lazymatch x with
             | context [match _ with _ => _ end] => fail
             | _ => destruct x; try discriminate
             end
         end;
    intros E; injection E as <-; reflexivity.
Qed.

(** When the loop ends without raising, it has added one insight per URL,
    in order. *)
Lemma lookup_loop_urls (api_key : string) (urls : list string) :
  forall insights result,
    lookup_loop libs api_key urls insights = Ok result ->
    map url result = (map url insights ++ urls)%list.
Proof.
  induction urls as [|u urls IH]; intros insights result;
    cbn [lookup_loop].
  - intros E; injection E as <-; now rewrite app_nil_r.
  - assert (Hnext : forall insight,
               url insight = u ->
               lookup_loop libs api_key urls (list_append insights insight)
               = Ok result ->
               map url result = (map url insights ++ u :: urls)%list).
    { intros insight Hu E; apply IH in E; rewrite E; unfold list_append.
      rewrite map_app, <- app_assoc; simpl; now rewrite Hu. }
    destruct (_domain_from_url libs u) as [d|];
      [|now apply Hnext].
    destruct (client_get libs api_key _) as [exc|[payload|e]];
      [now apply Hnext | | discriminate].
    unfold bind at 1.
    destruct (_parse_urlscan_response libs u payload) as [insight|e] eqn:P;
      [|discriminate].
    apply parse_urlscan_response_url in P.
    unfold bind; now apply Hnext.
Qed.

(** Whenever the lookup returns, it returns one insight per URL, in the
    order of the input. *)
Lemma lookup_urls_same_urls (urls : list string) (result : list URLInsight) :
  lookup_urls libs urls = Ok result -> map url result = urls.
Proof.
  unfold lookup_urls. destruct urls as [|u urls].
  - intros E; injection E as <-; reflexivity.
  - assert (U : forall l, map url (map unavailable_insight l) = l)
      by (induction l as [|x l IHl]; simpl; [|rewrite IHl]; reflexivity).
    destruct (getenv_URLSCAN_API_KEY libs) as [k|].
    + destruct (truthy k); cbn [negb].
      * intros E; now apply lookup_loop_urls in E.
      * intros E; injection E as <-; apply (U (u :: urls)).
    + intros E; injection E as <-; apply (U (u :: urls)).
Qed.

(** A request that raises an [httpx.HTTPError] gives an insight of status
    error that carries the text of the exception. *)
Lemma lookup_urls_http_error (u d key exc : string) :
  getenv_URLSCAN_API_KEY libs = Some key -> truthy key = true ->
  _domain_from_url libs u = Some d ->
  client_get libs key ("domain:" ++ d) = HTTPError exc ->
  lookup_urls libs [u]
  = Ok [ {| url := u;
            reputation := None;
            status := Some "error";
            details := Some ("urlscan lookup failed: " ++ exc);
            insight_findings := [] |} ].
Proof.
  intros K T D G; unfold lookup_urls; rewrite K, T; cbn [negb lookup_loop].
  now rewrite D, G.
Qed.

End ReputationLookup.

(** C5: the lookup can raise.  With an API key configured and an endpoint
    that answers with status 200 and a body that is not JSON, the lookup of
    one URL raises, and so does the whole analysis; a JSON answer whose
    first result has a null verdict raises as well. *)
Lemma lookup_urls_raises_on_undecodable_body :
  UrlReputation.lookup_urls Samples.undecodable_body_libs
    ["https://example.com/agenda"] = Raise JSONDecodeError
  /\ Detector.analyze_email Samples.undecodable_body_libs
       Detector.source_order Samples.one_link_request = Raise JSONDecodeError
  /\ UrlReputation.lookup_urls Samples.null_verdicts_libs
       ["https://example.com/agenda"] = Raise AttributeError.
Proof. repeat split; reflexivity. Qed.

(** ** Determinism *)

Lemma source_order_well_formed : Detector.well_formed Detector.source_order.
Proof. repeat split; apply Permutation_refl. Qed.

Lemma reversed_order_well_formed : Detector.well_formed Samples.reversed_order.
Proof. repeat split; apply Permutation_sym, Permutation_rev. Qed.

(** C6: the response depends on the iteration order of the keyword set.
    The same request, analysed with the same libraries under two iteration
    orders of the sets, gets two responses that differ in the order of the
    evidence of the Sensitive Data Request finding. *)
Lemma evidence_order_follows_set_iteration :
  Detector.well_formed Detector.source_order
  /\ Detector.well_formed Samples.reversed_order
  /\ Detector.analyze_email Samples.offline_libs Detector.source_order
       Samples.two_keyword_request
     = Ok (Samples.two_keyword_response
             [Samples.password_snippet; Samples.ssn_snippet])
  /\ Detector.analyze_email Samples.offline_libs Samples.reversed_order
       Samples.two_keyword_request
     = Ok (Samples.two_keyword_response
             [Samples.ssn_snippet; Samples.password_snippet])
  /\ Samples.two_keyword_response
       [Samples.password_snippet; Samples.ssn_snippet]
     <> Samples.two_keyword_response
          [Samples.ssn_snippet; Samples.password_snippet].
Proof.
  split; [apply source_order_well_formed|].
  split; [apply reversed_order_well_formed|].
  split; [reflexivity|]. split; [reflexivity|].
  intros E; discriminate E.
Qed.

(** ** Back-references *)

Section BackReferences.
Import PyStr Detector Spec.

(** A text without a backslash has no match of a pattern that asks for a
    literal backslash after its first character. *)
Lemma prefix_backslash (rest s : string) :
  existsb_str (is_code 92) s = false ->
  prefix (String (ascii_of_N 92) rest) s = false.
Proof.
  destruct s as [|d s']; [reflexivity|].
  cbn [existsb_str prefix]; intros H.
  apply orb_false_iff in H; destruct H as [Hd _].
  destruct (ascii_dec (ascii_of_N 92) d) as [<-|N];
    [discriminate Hd | reflexivity].
Qed.

Lemma search_dot_then_backslash (rest s : string) :
  existsb_str (is_code 92) s = false ->
  Re.search_dot_then (String (ascii_of_N 92) rest) s = false.
Proof.
  induction s as [|c s IH]; [reflexivity|].
  cbn [existsb_str Re.search_dot_then]; intros H.
  apply orb_false_iff in H; destruct H as [_ Hs].
  now rewrite (IH Hs), (prefix_backslash rest s Hs), andb_false_r.
Qed.

(** X1.  On a domain without a backslash the repeated-character pattern
    never matches: only the four listed patterns flag a domain. *)
Lemma typosquatting_without_backslash (domain : string) :
  existsb_str (is_code 92) domain = false ->
  _has_typosquatting_pattern domain
  = existsb (fun pattern => contains pattern domain)
            ["paypal-secure"; "micros0ft"; "app1e"; "verificati0n"].
Proof.
  intros H; unfold _has_typosquatting_pattern.
  destruct (existsb _ _); [reflexivity|].
  apply (search_dot_then_backslash "11").
  induction domain as [|c d IH]; [reflexivity|].
  cbn [existsb_str remove_dots] in *.
  apply orb_false_iff in H; destruct H as [Hc Hd].
  destruct (is_code 46 c); cbn [existsb_str]; [auto | rewrite Hc; auto].
Qed.

(** C8: a domain with three consecutive identical characters is not
    flagged.  The domain gooogle.com holds none of the four patterns and,
    dots removed, a run of three letters o; the check returns false. *)
Lemma typosquatting_repeated_letters_not_flagged :
  has_identical_run 3 (remove_dots "gooogle.com") = true
  /\ _has_typosquatting_pattern "gooogle.com" = false.
Proof. split; reflexivity. Qed.

(** A token without a backslash is never unusual for its repeated
    characters: the test is the one on digits and rare pairs. *)
Lemma looks_unusual_without_backslash (token : string) :
  existsb_str (is_code 92) (lower token) = false ->
  Re.search_dot_bs1_bs1 (lower token) = false.
Proof. apply (search_dot_then_backslash "1\1"). Qed.

Lemma language_anomalies_short_body (payload : EmailAnalysisRequest) :
  List.length (Re.findall_words (body payload)) < 20 ->
  _detect_language_anomalies payload = [].
Proof.
  intros H; unfold _detect_language_anomalies.
  apply Nat.ltb_lt in H; now rewrite H.
Qed.

(** X2.  From twenty words on, the finding is decided by the three
    indicators: none gives no finding, exactly one a finding of severity
    low, two or three a finding of severity medium. *)
Lemma language_anomalies_by_indicators (payload : EmailAnalysisRequest) :
  20 <= List.length (Re.findall_words (body payload)) ->
  let ratio := exceeds_fifth
                 (_estimate_spelling_issues (Re.findall_words (body payload))) in
  let punctuation :=
    negb (Nat.eqb (List.length (Re.findall_punctuation_runs (body payload))) 0) in
  let spacing :=
    negb (Nat.eqb (List.length (Re.findall_space_runs (body payload))) 0) in
  let fired := (Nat.b2n ratio + Nat.b2n punctuation + Nat.b2n spacing)%nat in
  (fired = 0 -> _detect_language_anomalies payload = [])
  /\ (0 < fired ->
      exists f, _detect_language_anomalies payload = [f]
                /\ List.length (evidence f) = fired
                /\ severity f = (if Nat.eqb fired 1 then low else medium)).
Proof.
  intros H; cbv zeta; unfold _detect_language_anomalies.
  apply Nat.ltb_ge in H; rewrite H.
  destruct (exceeds_fifth _), (negb (Nat.eqb (List.length (Re.findall_punctuation_runs _)) 0)),
    (negb (Nat.eqb (List.length (Re.findall_space_runs _)) 0)); cbn;
    (split; [intros E; try discriminate E; reflexivity |
             intros E; try (exfalso; lia); eexists; repeat split]).
Qed.

(** C9: a token with a run of three identical characters is not counted as
    unusual.  The token thereee is unusual by the wording of the design
    document and not by the code (its two rare pairs are fewer than the
    three asked of a token of length 7); a body of twenty words, five of
    them that token, has an unusual-token ratio of 0.25 by the design and
    gets no finding from the code. *)
Lemma elongated_token_not_unusual :
  unusual_by_design "thereee" = true
  /\ looks_unusual "thereee" = false
  /\ Re.findall_words (body Samples.elongated_words_request)
     = (repeat "thereee" 5 ++ repeat "the" 15)%list
  /\ exceeds_fifth (5 # 20) = true
  /\ _estimate_spelling_issues
       (Re.findall_words (body Samples.elongated_words_request)) = (0 # 20)%Q
  /\ _detect_language_anomalies Samples.elongated_words_request = [].
Proof. repeat split; reflexivity. Qed.

End BackReferences.

(** ** What the iteration order of the sets can change *)

Section StringOrder.

Lemma ascii_compare_refl (a : ascii) : Ascii.compare a a = Eq.
Proof. apply N.compare_refl. Qed.

Lemma ascii_compare_lt_trans (a b c : ascii) :
  Ascii.compare a b = Lt -> Ascii.compare b c = Lt -> Ascii.compare a c = Lt.
Proof.
  unfold Ascii.compare; rewrite !N.compare_lt_iff; apply N.lt_trans.
Qed.

Lemma string_compare_lt_trans (s1 : string) :
  forall s2 s3,
    String.compare s1 s2 = Lt -> String.compare s2 s3 = Lt ->
    String.compare s1 s3 = Lt.
Proof.
  induction s1 as [|a s1 IH]; intros [|b s2] [|c s3]; simpl;
    try discriminate; try reflexivity.
  destruct (Ascii.compare a b) eqn:Eab; try discriminate;
    destruct (Ascii.compare b c) eqn:Ebc; try discriminate; intros H12 H23.
  - apply Ascii.compare_eq_iff in Eab, Ebc; subst.
    rewrite ascii_compare_refl; now apply IH with (s2 := s2).
  - apply Ascii.compare_eq_iff in Eab; subst; now rewrite Ebc.
  - apply Ascii.compare_eq_iff in Ebc; subst; now rewrite Eab.
  - now rewrite (ascii_compare_lt_trans a b c Eab Ebc).
Qed.

Lemma string_leb_cases (s1 s2 : string) :
  String.leb s1 s2 = true <-> String.compare s1 s2 = Lt \/ s1 = s2.
Proof.
  unfold String.leb; split.
  - destruct (String.compare s1 s2) eqn:E; try discriminate; intros _;
      [right; now apply String.compare_eq_iff | now left].
  - intros [->| ->]; [reflexivity|].
    assert (E : String.compare s2 s2 = Eq).
    { induction s2 as [|a s IHs]; simpl;
        [reflexivity | now rewrite ascii_compare_refl]. }
    now rewrite E.
Qed.

Lemma string_leb_trans (s1 s2 s3 : string) :
  String.leb s1 s2 = true -> String.leb s2 s3 = true ->
  String.leb s1 s3 = true.
Proof.
  rewrite !string_leb_cases; intros [H12| ->] [H23| ->]; auto.
  left; now apply string_compare_lt_trans with (s2 := s2).
Qed.

End StringOrder.

Section Sorting.
Import PyStr Spec.

Lemma insert_sorted_permutation (x : string) (l : list string) :
  Permutation (insert_sorted x l) (x :: l).
Proof.
  induction l as [|y l IH]; simpl; [apply Permutation_refl|].
  destruct (String.leb x y); [apply Permutation_refl|].
  apply perm_trans with (y :: x :: l); [now apply perm_skip | apply perm_swap].
Qed.

Lemma sorted_permutation (l : list string) : Permutation (sorted l) l.
Proof.
  induction l as [|x l IH]; simpl; [constructor|].
  apply perm_trans with (x :: sorted l);
    [apply insert_sorted_permutation | now apply perm_skip].
Qed.

Lemma insert_sorted_ordered (x : string) (l : list string) :
  ordered l -> ordered (insert_sorted x l).
Proof.
  induction 1 as [|y l Hy Hl IH]; simpl.
  - constructor; [intros z [] | constructor].
  - destruct (String.leb x y) eqn:E.
    + constructor; [|now constructor].
      intros z [<-|Hz]; [exact E|].
      apply string_leb_trans with (s2 := y); [exact E | now apply Hy].
    + constructor; [|exact IH].
      intros z Hz.
      apply (Permutation_in _ (insert_sorted_permutation x l)) in Hz.
      destruct Hz as [<-|Hz]; [|now apply Hy].
      destruct (String.leb_total x y) as [H|H]; [congruence | exact H].
Qed.

Lemma sorted_ordered (l : list string) : ordered (sorted l).
Proof.
  induction l as [|x l IH]; simpl;
    [constructor | now apply insert_sorted_ordered].
Qed.

Lemma ordered_unique (l1 : list string) :
  forall l2, ordered l1 -> ordered l2 -> Permutation l1 l2 -> l1 = l2.
Proof.
  induction l1 as [|a l1 IH]; intros l2 H1 H2 P.
  - now apply Permutation_nil in P.
  - destruct l2 as [|b l2];
      [apply Permutation_sym, Permutation_nil in P; discriminate|].
    inversion H1 as [|? ? Ha Hl1]; inversion H2 as [|? ? Hb Hl2]; subst.
    assert (E : a = b).
    { assert (Ia : In a (b :: l2))
        by (apply (Permutation_in _ P); now left).
      assert (Ib : In b (a :: l1))
        by (apply (Permutation_in _ (Permutation_sym P)); now left).
      destruct Ia as [->|Ia]; [reflexivity|].
      destruct Ib as [->|Ib]; [reflexivity|].
      apply String.leb_antisym; [now apply Ha | now apply Hb]. }
    subst b; f_equal.
    apply IH; [assumption | assumption | now apply Permutation_cons_inv in P].
Qed.

(** [sorted] does not depend on the order of its argument. *)
Lemma sorted_of_permutation (l1 l2 : list string) :
  Permutation l1 l2 -> sorted l1 = sorted l2.
Proof.
  intros P; apply ordered_unique; try apply sorted_ordered.
  apply perm_trans with l1; [apply sorted_permutation|].
  apply perm_trans with l2; [exact P | apply Permutation_sym, sorted_permutation].
Qed.

End Sorting.

Section SetIteration.
Import PyStr Detector Spec.
Variable libs : Libs.
Variables o1 o2 : SetOrder.
Hypothesis o1_well_formed : well_formed o1.
Hypothesis o2_well_formed : well_formed o2.

Lemma permutation_filter {A : Type} (p : A -> bool) (l1 l2 : list A) :
  Permutation l1 l2 -> Permutation (filter p l1) (filter p l2).
Proof.
  induction 1 as [|x l1 l2 P IH|x y l|l1 l2 l3 P12 IH12 P23 IH23]; simpl.
  - constructor.
  - destruct (p x); [now apply perm_skip | exact IH].
  - destruct (p x), (p y); try apply Permutation_refl; apply perm_swap.
  - now apply perm_trans with (filter p l2).
Qed.

Lemma permutation_existsb {A : Type} (p : A -> bool) (l1 l2 : list A) :
  Permutation l1 l2 -> existsb p l1 = existsb p l2.
Proof.
  intros P. destruct (existsb p l1) eqn:E1; symmetry.
  - apply existsb_exists in E1; destruct E1 as (x & Hx & Px).
    apply existsb_exists; exists x; split; [|exact Px].
    now apply (Permutation_in _ P).
  - destruct (existsb p l2) eqn:E2; [|reflexivity].
    apply existsb_exists in E2; destruct E2 as (x & Hx & Px).
    rewrite <- E1; symmetry; apply existsb_exists; exists x; split; [|exact Px].
    now apply (Permutation_in _ (Permutation_sym P)).
Qed.

Lemma permutation_nonempty {A : Type} (l1 l2 : list A) :
  Permutation l1 l2 -> nonempty l1 = nonempty l2.
Proof.
  intros P; apply Permutation_length in P.
  destruct l1, l2; simpl in *; congruence.
Qed.

Lemma orders_agree :
  Permutation (URGENT_PHRASES_iter o1) (URGENT_PHRASES_iter o2)
  /\ Permutation (SENSITIVE_KEYWORDS_iter o1) (SENSITIVE_KEYWORDS_iter o2)
  /\ Permutation (SUSPICIOUS_ATTACHMENT_EXTENSIONS_iter o1)
       (SUSPICIOUS_ATTACHMENT_EXTENSIONS_iter o2).
Proof.
  destruct o1_well_formed as (U1 & S1 & A1), o2_well_formed as (U2 & S2 & A2).
  repeat split; eapply perm_trans; eauto using Permutation_sym.
Qed.

(** The urgency detector sorts the phrases it matched: its finding does not
    depend on the iteration order. *)
Lemma detect_urgency_order_independent (payload : EmailAnalysisRequest) :
  _detect_urgency o1 payload = _detect_urgency o2 payload.
Proof.
  destruct orders_agree as (U & _ & _).
  unfold _detect_urgency.
  set (text := lower (subject payload ++ nl ++ body payload)).
  set (keep := fun phrase =>
                 contains phrase text && Nat.ltb 3 (String.length phrase)).
  pose proof (permutation_filter keep _ _ U) as P.
  now rewrite (permutation_nonempty _ _ P), (sorted_of_permutation _ _ P).
Qed.

(** The attachment detector only asks whether some extension matches. *)
Lemma detect_attachment_risk_order_independent
  (payload : EmailAnalysisRequest) :
  _detect_attachment_risk o1 payload = _detect_attachment_risk o2 payload.
Proof.
  destruct orders_agree as (_ & _ & A).
  unfold _detect_attachment_risk.
  replace (filter _ (attachments payload))
    with (filter
            (fun name =>
               existsb (fun ext => endswith (lower name) ext)
                       (SUSPICIOUS_ATTACHMENT_EXTENSIONS_iter o2))
            (attachments payload)); [reflexivity|].
  apply filter_ext; intros name; symmetry; now apply permutation_existsb.
Qed.

(** The sensitive-data detector passes the keywords on in iteration order:
    its findings agree up to the order of the evidence. *)
Lemma detect_sensitive_requests_up_to_order (payload : EmailAnalysisRequest) :
  Forall2 same_up_to_evidence_order
    (_detect_sensitive_requests o1 payload)
    (_detect_sensitive_requests o2 payload).
Proof.
  destruct orders_agree as (_ & K & _).
  unfold _detect_sensitive_requests.
  set (text := lower (body payload)).
  pose proof (permutation_filter (fun kw => contains kw text) _ _ K) as P.
  set (hits1 := filter _ (SENSITIVE_KEYWORDS_iter o1)) in *.
  set (hits2 := filter _ (SENSITIVE_KEYWORDS_iter o2)) in *.
  rewrite (permutation_nonempty _ _ P).
  destruct (nonempty hits2) eqn:N; simpl; constructor; [|constructor].
  assert (H1 : forall k, In k hits1 -> contains k text = true)
    by (intros k Hk; now apply filter_In in Hk).
  assert (H2 : forall k, In k hits2 -> contains k text = true)
    by (intros k Hk; now apply filter_In in Hk).
  rewrite !extract_context_hits by assumption.
  repeat split; simpl.
  assert (M : Permutation (map (context_snippet (body payload)) hits1)
                          (map (context_snippet (body payload)) hits2))
    by now apply Permutation_map.
  rewrite (permutation_nonempty _ _ M).
  destruct (nonempty (map (context_snippet (body payload)) hits2));
    assumption.
Qed.

Lemma weighted_sum_up_to_order (fs gs : list Finding) :
  Forall2 same_up_to_evidence_order fs gs ->
  weighted_sum fs = weighted_sum gs.
Proof.
  induction 1 as [|f g fs gs (_ & _ & S & _) _ IH];
    [reflexivity | now rewrite !weighted_sum_cons, S, IH].
Qed.

Lemma score_findings_up_to_order (fs gs : list Finding) :
  Forall2 same_up_to_evidence_order fs gs ->
  _score_findings fs = _score_findings gs.
Proof.
  intros H; unfold _score_findings.
  now rewrite !fold_weights, (weighted_sum_up_to_order _ _ H).
Qed.

Lemma has_category_up_to_order (c : string) (fs gs : list Finding) :
  Forall2 same_up_to_evidence_order fs gs ->
  existsb (fun f => String.eqb (category f) c) fs
  = existsb (fun f => String.eqb (category f) c) gs.
Proof.
  induction 1 as [|f g fs gs (C & _) _ IH]; simpl;
    [reflexivity | now rewrite C, IH].
Qed.

Lemma build_recommendations_up_to_order
  (risk : RiskLevel) (fs gs : list Finding) (has_urls : bool) :
  Forall2 same_up_to_evidence_order fs gs ->
  _build_recommendations risk fs has_urls
  = _build_recommendations risk gs has_urls.
Proof.
  intros H; unfold _build_recommendations.
  now rewrite !(has_category_up_to_order _ _ _ H).
Qed.

Lemma same_up_to_evidence_order_refl (fs : list Finding) :
  Forall2 same_up_to_evidence_order fs fs.
Proof.
  induction fs as [|f fs IH]; constructor; [|exact IH].
  repeat split; apply Permutation_refl.
Qed.

(** X3.  Two analyses of one request with the same libraries, under two
    iteration orders of the sets, agree on everything but the order of the
    evidence of the Sensitive Data Request finding. *)
Lemma analyze_email_up_to_evidence_order (payload : EmailAnalysisRequest) :
  same_up_to_evidence_order_response
    (analyze_email libs o1 payload) (analyze_email libs o2 payload).
Proof.
  unfold analyze_email.
  rewrite (detect_urgency_order_independent payload),
          (detect_attachment_risk_order_independent payload).
  set (urls := _collect_urls payload).
  match goal with
  | |- context [_score_findings ?fs] =>
      match goal with
      | |- same_up_to_evidence_order_response _
             (let (_, _) := _score_findings ?gs in _) =>
          assert (F : Forall2 same_up_to_evidence_order fs gs)
      end
  end.
  { cbn [List.app].
    repeat apply Forall2_app;
      try apply same_up_to_evidence_order_refl.
    apply detect_sensitive_requests_up_to_order. }
  rewrite (score_findings_up_to_order _ _ F).
  destruct (_score_findings _) as [score risk].
  rewrite (build_recommendations_up_to_order risk _ _ (nonempty urls) F).
  destruct (if nonempty urls then UrlReputation.lookup_urls libs urls
            else Ok []) as [insights|e]; simpl; [|reflexivity].
  repeat split; assumption.
Qed.

End SetIteration.

(* ================================================================= *)
(** * Further properties of the reputation adapter *)

Section ReputationAdapter.
Import PyStr UrlReputation Spec.
Variable libs : Libs.

(** X4.  Without a usable API key (the variable is unset or empty) the
    lookup never raises and never calls the client: it returns one
    unavailable insight per URL, in input order. *)
Theorem lookup_urls_unconfigured (urls : list string) :
  Detector.truthy_opt (getenv_URLSCAN_API_KEY libs) = false ->
  lookup_urls libs urls = Ok (map unavailable_insight urls)
  /\ List.length (map unavailable_insight urls) = List.length urls
  /\ Forall (fun i => status i = Some "unavailable")
            (map unavailable_insight urls).
Proof.
  intros H; split; [|split].
  - unfold lookup_urls; destruct urls as [|u urls]; [reflexivity|].
    destruct (getenv_URLSCAN_API_KEY libs) as [k|]; [|reflexivity].
    simpl in H; now rewrite H.
  - apply length_map.
  - induction urls as [|u urls IH]; simpl; constructor; [reflexivity | exact IH].
Qed.

Lemma lookup_loop_http_errors (key : string) (urls : list string) :
  (forall q, exists exc, client_get libs key q = HTTPError exc) ->
  forall insights,
    exists failed,
      lookup_loop libs key urls insights = Ok (List.app insights failed)
      /\ Forall2 (Spec.failed_lookup libs key) urls failed.
Proof.
  intros Hfail; induction urls as [|u urls IH]; intros insights;
    cbn [lookup_loop].
  - exists []; split; [now rewrite app_nil_r | constructor].
  - destruct (_domain_from_url libs u) as [d|] eqn:D.
    + destruct (Hfail ("domain:" ++ d)) as [exc E]; rewrite E.
      match goal with
      | |- context [list_append insights ?i] =>
          destruct (IH (list_append insights i)) as (failed & L & F);
          exists (i :: failed)
      end.
      split; [rewrite L; unfold list_append; now rewrite <- app_assoc|].
      constructor; [|exact F].
      unfold Spec.failed_lookup; rewrite D; cbn.
      repeat split; exists exc; now split.
    + match goal with
      | |- context [list_append insights ?i] =>
          destruct (IH (list_append insights i)) as (failed & L & F);
          exists (i :: failed)
      end.
      split; [rewrite L; unfold list_append; now rewrite <- app_assoc|].
      constructor; [|exact F].
      unfold Spec.failed_lookup; rewrite D; cbn.
      repeat split.
Qed.

(** X5.  With an API key configured, when every request to urlscan fails
    with an [httpx.HTTPError], the lookup still returns, with one insight
    per URL, in input order.  The insight of a URL without a domain has
    status unknown; the insight of every other URL has status error and
    quotes the error of the request for its domain.  Neither has a
    reputation or findings. *)
Theorem lookup_urls_survives_http_errors (key : string) (urls : list string) :
  getenv_URLSCAN_API_KEY libs = Some key -> truthy key = true ->
  (forall q, exists exc, client_get libs key q = HTTPError exc) ->
  exists insights,
    lookup_urls libs urls = Ok insights
    /\ map url insights = urls
    /\ Forall2 (Spec.failed_lookup libs key) urls insights.
Proof.
  intros K T Hfail.
  destruct urls as [|u urls].
  - exists []; repeat split; constructor.
  - destruct (lookup_loop_http_errors key (u :: urls) Hfail [])
      as (failed & E & F).
    exists failed; split; [|split; [|exact F]].
    + unfold lookup_urls; now rewrite K, T.
    + now apply lookup_loop_urls in E.
Qed.

(** X6.  An answer that is a JSON object whose total is absent or equal to
    zero gives the clean, no-data insight for the URL, whatever else the
    object holds; the parser does not raise on it. *)
Theorem parse_urlscan_response_no_scans
  (u : string) (items : list (string * JSON)) :
  match assoc "total" items with
  | Some total => json_eq_zero total = true
  | None => True
  end ->
  _parse_urlscan_response libs u (JDict items) = Ok (clean_insight u).
Proof.
  unfold _parse_urlscan_response, dict_get, bind.
  destruct (assoc "total" items) as [total|]; [intros -> | intros _];
    reflexivity.
Qed.

(** X7.  Whenever the parser returns, the insight is for the URL it was
    given, carries one of three pairs of status and reputation
    (clean/no-data, malicious/block, review/suspicious), always has details,
    and has at most two findings. *)
Theorem parse_urlscan_response_shape
  (u : string) (payload : JSON) (insight : URLInsight) :
  _parse_urlscan_response libs u payload = Ok insight ->
  url insight = u
  /\ In (status insight, reputation insight) verdict_pairs
  /\ details insight <> None
  /\ List.length (insight_findings insight) <= 2.
Proof.
  unfold _parse_urlscan_response, bind, verdict_pairs.
  repeat match goal with
         | |- context [match ?x with _ => _ end] =>
             lazymatch x with
             | context [match _ with _ => _ end] => fail
             | _ => destruct x; try discriminate
             end
         end;
    intros E; injection E as <-; cbn;
    (split; [reflexivity |
     split; [tauto | split; [discriminate | lia]]]).
Qed.

(** X8.  The parser reads its argument with [get]: an answer that is not a
    JSON object (a list, a string, a number, null) makes it raise
    AttributeError. *)
Theorem parse_urlscan_response_needs_object (u : string) (payload : JSON) :
  match payload with
  | JDict _ => True
  | _ => _parse_urlscan_response libs u payload = Raise AttributeError
  end.
Proof. destruct payload; cbn; auto. Qed.

End ReputationAdapter.

(** The parsed insight of a malicious verdict, at one URL. *)
Lemma parse_urlscan_response_shape_witness :
  exists insight,
    UrlReputation.lookup_urls Samples.malicious_api_libs
      ["https://example.com/agenda"] = Ok [insight]
    /\ In (status insight, reputation insight) Spec.verdict_pairs.
Proof.
  eexists; split; [vm_compute; reflexivity|].
  match goal with
  | |- In (status ?i, _) _ =>
      destruct (parse_urlscan_response_shape Samples.malicious_api_libs
                  "https://example.com/agenda"
                  (JDict
                     [("total", JInt 3);
                      ("results",
                       JList
                         [JDict
                            [("verdicts",
                              JDict
                                [("overall",
                                  JDict [("malicious", JBool true);
                                         ("score", JInt 100);
                                         ("categories",
                                          JList [JStr "phishing"])])])]])])
                  i eq_refl) as (_ & H & _)
  end.
  exact H.
Defined.

Lemma lookup_urls_unconfigured_witness :
  UrlReputation.lookup_urls Samples.offline_libs Samples.two_links
  = Ok (map UrlReputation.unavailable_insight Samples.two_links).
Proof.
  apply (lookup_urls_unconfigured Samples.offline_libs Samples.two_links).
  reflexivity.
Defined.

Lemma lookup_urls_survives_http_errors_witness :
  exists insights,
    UrlReputation.lookup_urls Samples.unreachable_api_libs
      Samples.link_and_local_file
    = Ok insights
    /\ map status insights = [Some "error"; Some "unknown"]
    /\ map details insights
       = [ Some "urlscan lookup failed: connection refused";
           Some "Unable to extract domain for reputation check." ].
Proof.
  destruct (lookup_urls_survives_http_errors Samples.unreachable_api_libs
              "0123-4567" Samples.link_and_local_file eq_refl eq_refl)
    as (insights & E & _ & F);
    [intros q; now exists "connection refused"|].
  exists insights; split; [exact E|].
  inversion F as [|u1 i1 us1 is1 F1 F' E1 E2]; subst.
  inversion F' as [|u2 i2 us2 is2 F2 F'' E3 E4]; subst.
  inversion F''; subst.
  destruct F1 as (_ & _ & _ & F1), F2 as (_ & _ & _ & F2).
  assert (H1 : UrlReputation._domain_from_url Samples.unreachable_api_libs
                 "https://example.com/login" = Some "example.com")
    by reflexivity.
  assert (H2 : UrlReputation._domain_from_url Samples.unreachable_api_libs
                 "file:///tmp/invoice.html" = None)
    by reflexivity.
  rewrite H1 in F1; rewrite H2 in F2.
  destruct F1 as (S1 & exc & X & D1), F2 as (S2 & D2).
  cbn [client_get Samples.unreachable_api_libs] in X; injection X as <-.
  cbn [map]; rewrite S1, S2, D1, D2; split; reflexivity.
Defined.

Lemma parse_urlscan_response_no_scans_witness :
  UrlReputation._parse_urlscan_response Samples.offline_libs
    "https://example.com/" (JDict [("results", JNull)])
  = Ok (Spec.clean_insight "https://example.com/").
Proof.
  apply (parse_urlscan_response_no_scans Samples.offline_libs
           "https://example.com/" [("results", JNull)]).
  exact I.
Defined.

(* ================================================================= *)
(** * Further properties of the analysis as a whole *)

Section WholeAnalysis.
Import PyStr Detector Spec.
Variable libs : Libs.
Variable order : SetOrder.

Lemma detect_urgency_category (payload : EmailAnalysisRequest) :
  map category (_detect_urgency order payload) = []
  \/ map category (_detect_urgency order payload) = ["Urgency Tactics"].
Proof.
  unfold _detect_urgency.
  destruct (negb (nonempty _)); [now left | now right].
Qed.

Lemma detect_sensitive_category (payload : EmailAnalysisRequest) :
  map category (_detect_sensitive_requests order payload) = []
  \/ map category (_detect_sensitive_requests order payload)
     = ["Sensitive Data Request"].
Proof.
  unfold _detect_sensitive_requests.
  destruct (negb (nonempty _)); [now left | now right].
Qed.

Lemma detect_sender_category
  (payload : EmailAnalysisRequest) (urls : list string) :
  map category (_detect_sender_anomalies libs payload urls) = []
  \/ map category (_detect_sender_anomalies libs payload urls)
     = ["Sender Domain Mismatch"].
Proof.
  unfold _detect_sender_anomalies.
  match goal with
  | |- context [if nonempty ?e then _ else _] => destruct (nonempty e)
  end; [now right | now left].
Qed.

Lemma detect_links_category
  (payload : EmailAnalysisRequest) (urls : list string) :
  map category (_detect_suspicious_links libs payload urls) = []
  \/ map category (_detect_suspicious_links libs payload urls)
     = ["Suspicious Links"].
Proof.
  unfold _detect_suspicious_links.
  destruct (negb (nonempty urls)); [now left|].
  destruct (fold_left (link_step libs) urls (medium, [])) as [sev ev].
  destruct (negb (nonempty _)); [now left | now right].
Qed.

Lemma detect_attachment_category (payload : EmailAnalysisRequest) :
  map category (_detect_attachment_risk order payload) = []
  \/ map category (_detect_attachment_risk order payload)
     = ["Suspicious Attachments"].
Proof.
  unfold _detect_attachment_risk.
  destruct (negb (nonempty (attachments payload))); [now left|].
  destruct (negb (nonempty _)); [now left | now right].
Qed.

Lemma detect_language_category (payload : EmailAnalysisRequest) :
  map category (_detect_language_anomalies payload) = []
  \/ map category (_detect_language_anomalies payload) = ["Grammar & Style"].
Proof.
  unfold _detect_language_anomalies.
  destruct (Nat.ltb _ 20); [now left|].
  destruct (negb (nonempty _)); [now left | now right].
Qed.

Lemma hover_recommended
  (risk : RiskLevel) (fs : list Finding) (has_urls : bool) :
  In rec_hover (_build_recommendations risk fs has_urls) <-> has_urls = true.
Proof.
  unfold _build_recommendations, rec_hover.
  destruct (is_high risk);
    destruct (existsb (fun f => String.eqb (category f) "Sensitive Data Request") fs);
    destruct has_urls;
    destruct (existsb (fun f => String.eqb (category f) "Sender Domain Mismatch") fs);
    cbn; intuition discriminate.
Qed.

(** The findings that [analyze_email] gathers, in detector order. *)
Lemma analyze_email_findings
  (payload : EmailAnalysisRequest) (r : EmailAnalysisResponse) :
  analyze_email libs order payload = Ok r ->
  findings r
  = List.app (_detect_urgency order payload)
      (List.app (_detect_sensitive_requests order payload)
         (List.app
            (_detect_sender_anomalies libs payload (_collect_urls payload))
            (List.app
               (_detect_suspicious_links libs payload (_collect_urls payload))
               (List.app (_detect_attachment_risk order payload)
                  (_detect_language_anomalies payload)))))
  /\ (score r, overall_risk r) = _score_findings (findings r)
  /\ UrlReputation.lookup_urls libs (_collect_urls payload)
     = Ok (url_insights r)
  /\ recommendations r
     = _build_recommendations (overall_risk r) (findings r)
         (nonempty (_collect_urls payload)).
Proof.
  unfold analyze_email; cbn [List.app].
  rewrite <- !app_assoc.
  destruct (_score_findings _) as [sc risk] eqn:S.
  destruct (nonempty (_collect_urls payload)) eqn:N.
  - destruct (UrlReputation.lookup_urls libs (_collect_urls payload))
      as [insights|e]; cbn; [|discriminate].
    intros E; injection E as <-; cbn.
    rewrite S; repeat split; reflexivity.
  - cbn; intros E; injection E as <-; cbn.
    rewrite S; repeat split; try reflexivity.
    destruct (_collect_urls payload); [reflexivity | discriminate].
Qed.

(** X9.  Every response of the analysis keeps the bounds of the response
    model: the score lies between 0 and 100 and the risk level is the
    threshold function of the score; there are at most six findings, one per
    detector at most, in detector order; there is one URL insight per
    extracted URL, in order; and the hover recommendation is given exactly
    when a URL was extracted. *)
Theorem analyze_email_response_invariants
  (payload : EmailAnalysisRequest) (r : EmailAnalysisResponse) :
  analyze_email libs order payload = Ok r ->
  (0 <= score r <= 100)%Z
  /\ overall_risk r = risk_of_score (score r)
  /\ subsequence (map category (findings r)) detector_categories = true
  /\ List.length (findings r) <= 6
  /\ map url (url_insights r) = _collect_urls payload
  /\ recommendations r <> []
  /\ (In rec_hover (recommendations r) <-> _collect_urls payload <> []).
Proof.
  intros H; destruct (analyze_email_findings payload r H) as (F & S & L & R).
  assert (C : subsequence (map category (findings r)) detector_categories = true
              /\ List.length (map category (findings r)) <= 6).
  { rewrite F, !map_app.
    destruct (detect_urgency_category payload) as [-> | ->];
      destruct (detect_sensitive_category payload) as [-> | ->];
      destruct (detect_sender_category payload (_collect_urls payload))
        as [-> | ->];
      destruct (detect_links_category payload (_collect_urls payload))
        as [-> | ->];
      destruct (detect_attachment_category payload) as [-> | ->];
      destruct (detect_language_category payload) as [-> | ->];
      split; try reflexivity; simpl; lia. }
  destruct C as [C1 C2]; rewrite length_map in C2.
  unfold _score_findings in S; rewrite fold_weights in S.
  injection S as S1 S2.
  pose proof (weighted_sum_nonneg (findings r)) as W.
  split; [rewrite S1; lia|].
  split; [rewrite S2, S1; reflexivity|].
  split; [exact C1|]. split; [exact C2|].
  split; [now apply (lookup_urls_same_urls libs)|].
  split.
  - rewrite R; unfold _build_recommendations.
    destruct (is_high _), (existsb _ _), (nonempty _), (existsb _ _);
      discriminate.
  - rewrite R, hover_recommended.
    destruct (_collect_urls payload); simpl; split; congruence.
Qed.


End WholeAnalysis.

Lemma analyze_email_response_invariants_witness :
  exists r,
    Detector.analyze_email Samples.malicious_api_libs Samples.reversed_order
      Samples.busy_request = Ok r
    /\ map category (findings r)
       = [ "Urgency Tactics"; "Sensitive Data Request"; "Suspicious Links";
           "Suspicious Attachments" ]
    /\ score r = 100%Z
    /\ overall_risk r = Spec.risk_of_score (score r)
    /\ Spec.subsequence (map category (findings r)) Spec.detector_categories
       = true
    /\ map url (url_insights r)
       = ["http://192.168.0.1/login"; "https://example.com/help"]
    /\ In Spec.rec_hover (recommendations r).
Proof.
  destruct (Detector.analyze_email Samples.malicious_api_libs
              Samples.reversed_order Samples.busy_request) as [r|e] eqn:A;
    [|vm_compute in A; discriminate A].
  exists r; split; [reflexivity|].
  destruct (analyze_email_response_invariants Samples.malicious_api_libs
              Samples.reversed_order Samples.busy_request r A)
    as (_ & Hr & Hc & _ & Hu & _ & Hh).
  assert (U : Detector._collect_urls Samples.busy_request
              = ["http://192.168.0.1/login"; "https://example.com/help"])
    by reflexivity.
  rewrite U in Hu, Hh.
  split; [vm_compute in A; injection A as <-; reflexivity|].
  split; [vm_compute in A; injection A as <-; reflexivity|].
  split; [exact Hr|]. split; [exact Hc|]. split; [exact Hu|].
  apply Hh; discriminate.
Defined.


(* ================================================================= *)
(** * Further properties of the detectors *)

Section DetectorShapes.
Import PyStr Detector Spec.
Variable libs : Libs.

(** X12.  The urgency finding does not depend on the order in which the
    interpreter iterates over the phrase set: the matched phrases are sorted
    before they are joined. *)
Theorem urgency_finding_ignores_iteration_order
  (order : SetOrder) (payload : EmailAnalysisRequest) :
  well_formed order ->
  _detect_urgency order payload = _detect_urgency source_order payload.
Proof.
  intros W.
  apply detect_urgency_order_independent;
    [exact W | apply source_order_well_formed].
Qed.

(** X13.  Whatever the iteration order of the extension set, the attachment
    detector flags exactly the attachments whose name ends, in any letter
    case, with one of the eleven extensions; it reports them in one finding
    of severity high, in the order of the request, and reports nothing when
    none is flagged. *)
Theorem attachment_risk_flags
  (order : SetOrder) (payload : EmailAnalysisRequest) :
  well_formed order ->
  _detect_attachment_risk order payload
  = match filter flagged_attachment (attachments payload) with
    | [] => []
    | flagged =>
        [ {| category := "Suspicious Attachments";
             description :=
               "Attachments carry extensions commonly used in malware.";
             severity := high;
             evidence := flagged |} ]
    end.
Proof.
  intros (_ & _ & A); unfold _detect_attachment_risk.
  replace (filter _ (attachments payload))
    with (filter flagged_attachment (attachments payload)).
  - destruct (attachments payload) as [|a l]; [reflexivity|].
    cbn [nonempty negb].
    now destruct (filter flagged_attachment (a :: l)).
  - apply filter_ext; intros name; unfold flagged_attachment.
    symmetry; now apply permutation_existsb.
Qed.

(** X14.  The sender detector compares domains only when the sender
    normalizes to an address: with an absent, empty or unparsable sender it
    returns no finding, whatever the reply-to address and the URLs.  When it
    returns a finding, that finding has one or two evidence strings and is
    of severity high exactly when it has two. *)
Theorem sender_anomalies_shape
  (payload : EmailAnalysisRequest) (urls : list string) :
  (_normalize_email libs (sender payload) = None ->
   _detect_sender_anomalies libs payload urls = [])
  /\ (_detect_sender_anomalies libs payload urls = []
      \/ exists ev,
           _detect_sender_anomalies libs payload urls
           = [ {| category := "Sender Domain Mismatch";
                  description :=
                    "Sender information conflicts with link or reply-to domains.";
                  severity :=
                    if Nat.eqb (List.length ev) 2 then high else medium;
                  evidence := ev |} ]
           /\ 1 <= List.length ev /\ List.length ev <= 2).
Proof.
  unfold _detect_sender_anomalies; split.
  - intros ->; reflexivity.
  - set (sd := if truthy_opt (_normalize_email libs (sender payload))
               then _ else None).
    set (rd := if truthy_opt (_normalize_email libs (reply_to payload))
               then _ else None).
    destruct sd as [s|]; [|now left].
    destruct rd as [r|];
      repeat match goal with
             | |- context [if ?c then list_append _ _ else _] =>
                 lazymatch c with
                 | nonempty _ => fail
                 | _ => destruct c
                 end
             end;
      cbn [nonempty list_append List.app]; try (now left);
      right;
      match goal with
      | |- exists ev, [?f] = _ /\ _ => exists (evidence f)
      end;
      (split; [reflexivity | cbn; lia]).
Qed.

Lemma link_step_evidence (sev : RiskLevel) (ev : list string) (url : string) :
  snd (link_step libs (sev, ev) url) = List.app ev (url_evidence libs url).
Proof.
  unfold link_step, url_evidence, escalation_evidence.
  destruct (_domain_from_url libs (Some url)) as [d|]; cbn;
    [|now rewrite app_nil_r].
  destruct (truthy d); cbn; [|now rewrite app_nil_r].
  destruct (_looks_like_ip d); [|destruct (_has_typosquatting_pattern d)];
    destruct (startswith (lower url) "http://"); cbn;
    unfold list_append; rewrite <- ?app_assoc, ?app_nil_r; reflexivity.
Qed.

Lemma fold_link_step_evidence (urls : list string) :
  forall sev ev,
    snd (fold_left (link_step libs) urls (sev, ev))
    = List.app ev (flat_map (url_evidence libs) urls).
Proof.
  induction urls as [|u urls IH]; intros sev ev; cbn [fold_left flat_map].
  - now rewrite app_nil_r.
  - pose proof (link_step_evidence sev ev u) as E.
    destruct (link_step libs (sev, ev) u) as [sev1 ev1]; cbn in E.
    now rewrite IH, E, <- app_assoc.
Qed.

(** X15.  The Suspicious Links finding lists, URL by URL in the order of
    the URLs, the IP-literal or typosquat evidence of the URL and then its
    not-HTTPS evidence, and last the link-count evidence; a URL without a
    resolvable domain adds nothing.  There is no finding when that list is
    empty. *)
Theorem suspicious_links_evidence
  (payload : EmailAnalysisRequest) (urls : list string) :
  _detect_suspicious_links libs payload urls
  = match List.app (flat_map (url_evidence libs) urls)
                   (link_count_evidence (List.length urls)) with
    | [] => []
    | ev =>
        [ {| category := "Suspicious Links";
             description :=
               "Potentially malicious URLs detected in message body.";
             severity :=
               if existsb (escalates libs) urls then high else medium;
             evidence := ev |} ]
    end.
Proof.
  unfold _detect_suspicious_links, link_count_evidence.
  destruct urls as [|u urls]; [reflexivity|].
  cbn [nonempty negb].
  destruct (fold_link_step libs (u :: urls) medium []) as (Hs & _).
  pose proof (fold_link_step_evidence (u :: urls) medium []) as He.
  destruct (fold_left (link_step libs) (u :: urls) (medium, [])) as [sev ev].
  cbn [fst snd] in Hs, He; cbn [List.app] in He; subst sev ev.
  destruct (Nat.ltb 5 (List.length (u :: urls))); unfold list_append;
    rewrite ?app_nil_r;
    match goal with
    | |- context [nonempty ?l] => destruct l; reflexivity
    end.
Qed.

(** X16.  More than five URLs always give a Suspicious Links finding, even
    when no URL is suspicious by itself; its last evidence string states
    the number of links. *)
Theorem more_than_five_links_flagged
  (payload : EmailAnalysisRequest) (urls : list string) :
  5 < List.length urls ->
  exists f,
    _detect_suspicious_links libs payload urls = [f]
    /\ category f = "Suspicious Links"
    /\ last (evidence f) EmptyString
       = "Email contains a high number of links ("
         ++ str_of_nat (List.length urls) ++ ").".
Proof.
  intros H; unfold _detect_suspicious_links.
  destruct urls as [|u urls]; [inversion H|].
  cbn [nonempty negb].
  destruct (fold_left (link_step libs) (u :: urls) (medium, [])) as [sev ev].
  apply Nat.ltb_lt in H; rewrite H.
  unfold list_append.
  destruct (List.app ev _) as [|e l] eqn:E;
    [apply app_eq_nil in E; destruct E; discriminate|].
  cbn [nonempty negb]; eexists; split; [reflexivity|].
  split; [reflexivity|].
  cbn [evidence]; rewrite <- E; apply last_last.
Qed.

End DetectorShapes.

Lemma urgency_finding_ignores_iteration_order_witness :
  Detector._detect_urgency Samples.reversed_order Samples.two_keyword_request
  = Detector._detect_urgency Detector.source_order Samples.two_keyword_request.
Proof.
  apply (urgency_finding_ignores_iteration_order Samples.reversed_order
           Samples.two_keyword_request).
  apply reversed_order_well_formed.
Defined.

Lemma attachment_risk_flags_witness :
  Detector._detect_attachment_risk Samples.reversed_order
    (Samples.request "Invoice" "See attached." None []
       ["notes.pdf"; "Invoice.EXE"; "run.Ps1"])
  = [ {| category := "Suspicious Attachments";
         description :=
           "Attachments carry extensions commonly used in malware.";
         severity := high;
         evidence := ["Invoice.EXE"; "run.Ps1"] |} ].
Proof.
  apply (attachment_risk_flags Samples.reversed_order
           (Samples.request "Invoice" "See attached." None []
              ["notes.pdf"; "Invoice.EXE"; "run.Ps1"])).
  apply reversed_order_well_formed.
Defined.

Lemma sender_anomalies_shape_witness :
  Detector._detect_sender_anomalies Samples.offline_libs
    Samples.one_link_request Samples.mixed_links = [].
Proof.
  apply (sender_anomalies_shape Samples.offline_libs Samples.one_link_request
           Samples.mixed_links).
  reflexivity.
Defined.

Lemma more_than_five_links_flagged_witness :
  exists f,
    Detector._detect_suspicious_links Samples.offline_libs
      Samples.one_link_request Samples.six_plain_links = [f]
    /\ category f = "Suspicious Links"
    /\ last (evidence f) EmptyString
       = "Email contains a high number of links (6).".
Proof.
  apply (more_than_five_links_flagged Samples.offline_libs
           Samples.one_link_request Samples.six_plain_links).
  apply Nat.ltb_lt; reflexivity.
Defined.

(* ================================================================= *)
(** * Further properties of scoring, extraction and the helpers *)

Section ScoreOrder.
Import Detector Spec.
Open Scope Z_scope.

Lemma weighted_sum_app (fs gs : list Finding) :
  weighted_sum (fs ++ gs)%list = weighted_sum fs + weighted_sum gs.
Proof.
  induction fs as [|f fs IH]; cbn [List.app].
  - rewrite weighted_sum_nil; lia.
  - rewrite !weighted_sum_cons, IH; lia.
Qed.

Lemma score_findings_value (fs : list Finding) :
  _score_findings fs
  = (Z.min 100 (weighted_sum fs), risk_of_score (Z.min 100 (weighted_sum fs))).
Proof. unfold _score_findings; now rewrite fold_weights. Qed.

Lemma risk_of_score_monotone (a b : Z) :
  a <= b -> (risk_rank (risk_of_score a) <= risk_rank (risk_of_score b))%nat.
Proof.
  intros H; unfold risk_of_score.
  destruct (Z.leb_spec 60 a), (Z.leb_spec 30 a), (Z.leb_spec 60 b),
    (Z.leb_spec 30 b); simpl; lia.
Qed.

(** X17.  More findings never lower the verdict: the score and the risk
    level of a list of findings are at most those of any extension of it.
    One finding alone never gives high risk, and two findings of severity
    high always do. *)
Theorem score_findings_monotone (fs gs : list Finding) :
  fst (_score_findings fs) <= fst (_score_findings (fs ++ gs)%list)
  /\ (risk_rank (snd (_score_findings fs))
      <= risk_rank (snd (_score_findings (fs ++ gs)%list)))%nat
  /\ ((List.length fs <= 1)%nat -> is_high (snd (_score_findings fs)) = false)
  /\ (2 <= count_severity high fs -> snd (_score_findings fs) = high).
Proof.
  rewrite !score_findings_value, weighted_sum_app; cbn [fst snd].
  pose proof (weighted_sum_nonneg fs) as Hf.
  pose proof (weighted_sum_nonneg gs) as Hg.
  split; [lia|]. split; [apply risk_of_score_monotone; lia|]. split.
  - intros L.
    assert (B : weighted_sum fs <= 35).
    { destruct fs as [|f [|g fs]]; [rewrite weighted_sum_nil; lia | |simpl in L; lia].
      rewrite weighted_sum_cons, weighted_sum_nil.
      destruct (severity f); simpl; lia. }
    unfold risk_of_score.
    destruct (Z.leb_spec 60 (Z.min 100 (weighted_sum fs))); [lia|].
    now destruct (30 <=? Z.min 100 (weighted_sum fs)).
  - intros C.
    assert (B : 70 <= weighted_sum fs)
      by (unfold weighted_sum in *; unfold count_severity in *; lia).
    unfold risk_of_score.
    destruct (Z.leb_spec 60 (Z.min 100 (weighted_sum fs))); [reflexivity | lia].
Qed.

End ScoreOrder.

Lemma score_findings_monotone_witness :
  Detector.is_high
    (snd (Detector._score_findings
            [ {| category := "Suspicious Attachments";
                 description :=
                   "Attachments carry extensions commonly used in malware.";
                 severity := high;
                 evidence := ["invoice.exe"] |} ])) = false.
Proof.
  apply (score_findings_monotone
           [ {| category := "Suspicious Attachments";
                description :=
                  "Attachments carry extensions commonly used in malware.";
                severity := high;
                evidence := ["invoice.exe"] |} ] []).
  simpl; lia.
Defined.

Section UrlMerge.
Import PyStr Detector Spec.

Lemma fold_add_new_extends (l : list string) :
  forall acc,
    exists extra,
      fold_left add_new l acc = List.app acc extra
      /\ forall u, In u extra -> In u l /\ ~ In u acc.
Proof.
  induction l as [|x l IH]; intros acc; cbn [fold_left].
  - exists []; split; [now rewrite app_nil_r | intros u []].
  - unfold add_new at 2. destruct (mem x acc) eqn:M.
    + destruct (IH acc) as (extra & E & H).
      exists extra; split; [exact E|].
      intros u Hu; destruct (H u Hu); split; [now right | assumption].
    + apply mem_false in M.
      destruct (IH (list_append acc x)) as (extra & E & H).
      exists (x :: extra); split.
      * rewrite E; unfold list_append; now rewrite <- app_assoc.
      * intros u [<-|Hu]; [split; [now left | exact M]|].
        destruct (H u Hu) as [Hl Hn]; split; [now right|].
        intros Ha; apply Hn; unfold list_append; apply in_or_app; now left.
Qed.

Lemma fold_add_new_absorbed (l : list string) :
  forall acc, (forall x, In x l -> In x acc) -> fold_left add_new l acc = acc.
Proof.
  induction l as [|x l IH]; intros acc H; cbn [fold_left]; [reflexivity|].
  unfold add_new at 2.
  rewrite (proj2 (mem_In x acc)) by (apply H; now left).
  apply IH; intros y Hy; apply H; now right.
Qed.

Lemma canonical_not_www (m : string) :
  startswith (lower (canonical m)) "www." = false.
Proof.
  unfold canonical.
  destruct (startswith (lower m) "www.") eqn:W; [reflexivity | exact W].
Qed.

(** X18.  The explicit URLs come first: the result starts with the [urls]
    field, duplicates removed, and the entries after it are canonical body
    matches that are not among the explicit URLs; none of these begins with
    www. in any letter case. *)
Theorem collect_urls_explicit_first (payload : EmailAnalysisRequest) :
  exists extra,
    _collect_urls payload = List.app (dict_fromkeys (urls payload)) extra
    /\ forall u, In u extra ->
         In u (map canonical (Re.URL_REGEX_findall (body payload)))
         /\ ~ In u (urls payload)
         /\ startswith (lower u) "www." = false.
Proof.
  unfold _collect_urls; rewrite fold_canonical.
  destruct (fold_add_new_extends
              (map canonical (Re.URL_REGEX_findall (body payload)))
              (dict_fromkeys (urls payload))) as (extra & E & H).
  exists extra; split; [exact E|].
  intros u Hu; destruct (H u Hu) as [Hm Hn].
  split; [exact Hm|]. split.
  - intros Hin; apply Hn; rewrite dict_fromkeys_dedup.
    now apply dedup_first_In.
  - apply in_map_iff in Hm; destruct Hm as (m & <- & _).
    apply canonical_not_www.
Qed.

(** X19.  Extraction is idempotent: giving the extracted URLs back as the
    [urls] field of the same request extracts the same list. *)
Theorem collect_urls_idempotent (payload : EmailAnalysisRequest) :
  _collect_urls (with_urls payload (_collect_urls payload))
  = _collect_urls payload.
Proof.
  set (r := _collect_urls payload).
  unfold _collect_urls at 1; cbn [with_urls urls body].
  rewrite fold_canonical, dict_fromkeys_dedup.
  assert (N : NoDup r) by (unfold r; rewrite collect_urls_merge;
                           apply dedup_first_NoDup).
  rewrite (dedup_first_id r N).
  apply fold_add_new_absorbed.
  intros x Hx; unfold r; rewrite collect_urls_merge.
  apply dedup_first_In, in_or_app; now right.
Qed.

End UrlMerge.

Section StringFacts.
Import PyStr Spec.

Lemma rev_str_length (s : string) :
  forall acc,
    String.length (rev_str acc s) = String.length acc + String.length s.
Proof.
  induction s as [|c s IH]; intros acc; cbn [rev_str String.length];
    [lia | rewrite IH; cbn [String.length]; lia].
Qed.

Lemma reverse_length (s : string) :
  String.length (reverse s) = String.length s.
Proof. unfold reverse; now rewrite rev_str_length. Qed.

Lemma lstrip_length (s : string) :
  String.length (lstrip s) <= String.length s.
Proof.
  induction s as [|c s IH]; cbn [lstrip String.length]; [lia|].
  destruct (isspace c); cbn [String.length]; lia.
Qed.

Lemma strip_length (s : string) :
  String.length (strip s) <= String.length s.
Proof.
  unfold strip; rewrite reverse_length.
  pose proof (lstrip_length (reverse (lstrip s))) as H.
  rewrite reverse_length in H.
  pose proof (lstrip_length s); lia.
Qed.

Lemma substring_length (s : string) :
  forall a n, String.length (substring a n s) <= n.
Proof.
  induction s as [|c s IH]; intros [|a] [|n]; cbn [substring String.length];
    try lia.
  - specialize (IH 0 n); lia.
  - apply IH.
  - apply IH.
Qed.

Lemma all_chars_rev_str (p : ascii -> bool) (s : string) :
  forall acc,
    all_chars p (rev_str acc s) = all_chars p acc && all_chars p s.
Proof.
  induction s as [|c s IH]; intros acc; cbn [rev_str all_chars].
  - now rewrite andb_true_r.
  - rewrite IH; cbn [all_chars].
    destruct (p c), (all_chars p acc), (all_chars p s); reflexivity.
Qed.

Lemma all_chars_reverse (p : ascii -> bool) (s : string) :
  all_chars p (reverse s) = all_chars p s.
Proof. unfold reverse; now rewrite all_chars_rev_str. Qed.

Lemma all_chars_lstrip (p : ascii -> bool) (s : string) :
  all_chars p s = true -> all_chars p (lstrip s) = true.
Proof.
  induction s as [|c s IH]; cbn [lstrip all_chars]; [reflexivity|].
  intros H; apply andb_true_iff in H; destruct H as [Hc Hs].
  destruct (isspace c); [now apply IH|].
  cbn [all_chars]; now rewrite Hc, Hs.
Qed.

Lemma all_chars_strip (p : ascii -> bool) (s : string) :
  all_chars p s = true -> all_chars p (strip s) = true.
Proof.
  intros H; unfold strip.
  rewrite all_chars_reverse; apply all_chars_lstrip.
  rewrite all_chars_reverse; now apply all_chars_lstrip.
Qed.

Lemma all_chars_weaken (p q : ascii -> bool) (s : string) :
  (forall c, p c = true -> q c = true) ->
  all_chars p s = true -> all_chars q s = true.
Proof.
  intros W; induction s as [|c s IH]; cbn [all_chars]; [reflexivity|].
  intros H; apply andb_true_iff in H; destruct H as [Hc Hs].
  now rewrite (W c Hc), IH.
Qed.

Lemma all_chars_not_exists (p : ascii -> bool) (s : string) :
  all_chars (fun c => negb (p c)) s = negb (existsb_str p s).
Proof.
  induction s as [|c s IH]; cbn [all_chars existsb_str]; [reflexivity|].
  rewrite IH; now destruct (p c).
Qed.

(** The runs of [p] are made of characters of [p]. *)
Lemma runs_from_all_chars (p : ascii -> bool) (s : string) :
  forall cur,
    all_chars p cur = true ->
    Forall (fun r => all_chars p r = true) (runs_from p cur s).
Proof.
  induction s as [|c s IH]; intros cur Hcur; cbn [runs_from].
  - destruct cur; constructor; [|constructor].
    now rewrite all_chars_reverse.
  - destruct (p c) eqn:Pc.
    + apply IH; cbn [all_chars]; now rewrite Pc.
    + destruct cur; [now apply IH|].
      constructor; [now rewrite all_chars_reverse | now apply IH].
Qed.

Lemma findall_class_all_chars (p : ascii -> bool) (n : nat) (s r : string) :
  In r (Re.findall_class p n s) -> all_chars p r = true.
Proof.
  unfold Re.findall_class, runs; intros H.
  apply filter_In in H; destruct H as [H _].
  pose proof (runs_from_all_chars p s EmptyString eq_refl) as F.
  rewrite Forall_forall in F; now apply F.
Qed.

Lemma lower_char_fixed (c : ascii) : lower_char (lower_char c) = lower_char c.
Proof. destruct c as [[] [] [] [] [] [] [] []]; reflexivity. Qed.

Lemma all_chars_lower (s : string) :
  all_chars (fun c => Ascii.eqb (lower_char c) c) (lower s) = true.
Proof.
  induction s as [|c s IH]; cbn [lower all_chars]; [reflexivity|].
  now rewrite lower_char_fixed, Ascii.eqb_refl, IH.
Qed.

Lemma lower_fixed (s : string) :
  all_chars (fun c => Ascii.eqb (lower_char c) c) s = true -> lower s = s.
Proof.
  induction s as [|c s IH]; cbn [lower all_chars]; [reflexivity|].
  intros H; apply andb_true_iff in H; destruct H as [Hc Hs].
  apply Ascii.eqb_eq in Hc; now rewrite Hc, IH.
Qed.

Lemma all_chars_lower_map (p : ascii -> bool) (s : string) :
  all_chars p (lower s) = all_chars (fun c => p (lower_char c)) s.
Proof.
  induction s as [|c s IH]; cbn [lower all_chars]; [reflexivity|].
  now rewrite IH.
Qed.

End StringFacts.

Section ContextSnippets.
Import PyStr Detector Spec.

Lemma length_list_append {A : Type} (l : list A) (x : A) :
  List.length (list_append l x) = S (List.length l).
Proof. unfold list_append; rewrite length_app; simpl; lia. Qed.

Lemma extract_context_window_fold
  (body : string) (window : nat) (keywords : list string) :
  forall acc,
    let result :=
      fold_left
        (fun snippets keyword =>
           match find (lower body) keyword with
           | None => snippets
           | Some start =>
               list_append snippets
                 (strip (slice body (start - window)
                               (start + String.length keyword + window)))
           end)
        keywords acc in
    List.length result <= List.length acc + List.length keywords
    /\ (forall snippet, In snippet result ->
          In snippet acc
          \/ exists keyword,
               In keyword keywords
               /\ String.length snippet
                  <= String.length keyword + 2 * window).
Proof.
  induction keywords as [|k keywords IH]; intros acc; cbn zeta;
    cbn [fold_left List.length].
  - split; [lia | now left].
  - destruct (find (lower body) k) as [start|].
    + destruct (IH (list_append acc
                      (strip (slice body (start - window)
                                    (start + String.length k + window)))))
        as [L H]; cbn zeta in L, H.
      rewrite length_list_append in L.
      split; [lia|].
      intros snippet Hs; destruct (H snippet Hs) as [Ha|(k' & Hk & Hl)].
      * apply in_list_append in Ha; destruct Ha as [Ha| ->]; [now left|].
        right; exists k; split; [now left|].
        pose proof (strip_length
                      (slice body (start - window)
                             (start + String.length k + window))) as S1.
        pose proof (substring_length body (start - window)
                      (start + String.length k + window - (start - window)))
          as S2.
        unfold slice in *; lia.
      * right; exists k'; split; [now right | exact Hl].
    + destruct (IH acc) as [L H]; cbn zeta in L, H.
      split; [lia|].
      intros snippet Hs; destruct (H snippet Hs) as [Ha|(k' & Hk & Hl)];
        [now left | right; exists k'; split; [now right | exact Hl]].
Qed.

(** X20.  The context extraction returns at most one snippet per keyword,
    and a snippet is never longer than its keyword plus the window of 40
    characters on either side: the evidence never quotes more than that of
    the body. *)
Theorem extract_context_bounded (body : string) (keywords : list string) :
  List.length (_extract_context body keywords) <= List.length keywords
  /\ Forall
       (fun snippet =>
          exists keyword,
            In keyword keywords
            /\ String.length snippet <= String.length keyword + 80)
       (_extract_context body keywords).
Proof.
  unfold _extract_context, _extract_context_window.
  destruct (extract_context_window_fold body 40 keywords []) as [L H];
    cbn zeta in L, H.
  split; [exact L|].
  apply Forall_forall; intros snippet Hs.
  destruct (H snippet Hs) as [[]|(k & Hk & Hl)].
  exists k; split; [exact Hk | exact Hl].
Qed.

End ContextSnippets.

Section SpellingEstimate.
Import PyStr Detector Spec.

Lemma word_char_lowered (c : ascii) :
  (is_ascii_letter c || is_code 39 c) = true ->
  negb (is_ascii_digit (lower_char c)) && negb (is_code 92 (lower_char c))
  = true.
Proof.
  destruct c as [[] [] [] [] [] [] [] []]; intros H;
    try discriminate H; reflexivity.
Qed.

Lemma word_token_lowered (token : string) :
  all_chars (fun c => is_ascii_letter c || is_code 39 c) token = true ->
  existsb_str is_ascii_digit (lower token) = false
  /\ existsb_str (is_code 92) (lower token) = false.
Proof.
  intros H.
  assert (A : all_chars
                (fun c => negb (is_ascii_digit (lower_char c))
                          && negb (is_code 92 (lower_char c))) token = true)
    by (revert H; apply all_chars_weaken; exact word_char_lowered).
  split.
  - apply negb_true_iff; rewrite <- all_chars_not_exists, all_chars_lower_map.
    revert A; apply all_chars_weaken; intros c Hc.
    now apply andb_true_iff in Hc.
  - apply negb_true_iff; rewrite <- all_chars_not_exists, all_chars_lower_map.
    revert A; apply all_chars_weaken; intros c Hc.
    now apply andb_true_iff in Hc.
Qed.

(** X21.  On the tokens that the language detector reads, runs of letters
    and apostrophes, the unusual-token test is the rare-pair test alone:
    neither its digit test nor its repeated-character test can fire. *)
Theorem looks_unusual_on_word_tokens (text token : string) :
  In token (Re.findall_words text) ->
  looks_unusual token = rare_pair_test token.
Proof.
  intros H; apply findall_class_all_chars in H.
  destruct (word_token_lowered token H) as [D B].
  unfold looks_unusual, rare_pair_test, Re.search_digit.
  rewrite D, (looks_unusual_without_backslash token B).
  replace (Nat.ltb 3 (String.length (lower token)))
    with (negb (Nat.leb (String.length (lower token)) 3))
    by (destruct (Nat.leb_spec (String.length (lower token)) 3),
          (Nat.ltb_spec 3 (String.length (lower token))); simpl; lia).
  destruct (Nat.leb (String.length (lower token)) 3); [reflexivity|].
  now destruct (mem (lower token) COMMON_ENGLISH_WORDS).
Qed.

(** X22.  The spelling estimate is a proportion: it lies between 0 and 1,
    it is 0 for an empty word list (no division by zero), and it exceeds
    one fifth exactly when more than a fifth of the words look unusual. *)
Theorem estimate_spelling_issues_proportion (words : list string) :
  (0 <= _estimate_spelling_issues words)%Q
  /\ (_estimate_spelling_issues words <= 1)%Q
  /\ _estimate_spelling_issues [] = 0%Q
  /\ exceeds_fifth (_estimate_spelling_issues words)
     = Nat.ltb (List.length words)
               (5 * List.length (filter looks_unusual words)).
Proof.
  unfold _estimate_spelling_issues, exceeds_fifth.
  destruct words as [|w words].
  - repeat split; try reflexivity; unfold Qle; simpl; lia.
  - set (l := w :: words).
    pose proof (filter_length_le looks_unusual l) as F.
    assert (P : Z.pos (Pos.of_nat (List.length l)) = Z.of_nat (List.length l)).
    { unfold l; cbn [List.length].
      rewrite <- Pos.of_nat_succ, Zpos_P_of_succ_nat; lia. }
    split; [unfold Qle; cbn [Qnum Qden]; lia|].
    split; [unfold Qle; cbn [Qnum Qden]; rewrite P; lia|].
    split; [reflexivity|].
    destruct (Nat.ltb_spec (List.length l)
                (5 * List.length (filter looks_unusual l))) as [H|H].
    + apply negb_true_iff.
      destruct (Qle_bool _ _) eqn:E; [|reflexivity].
      apply Qle_bool_iff in E; unfold Qle in E; cbn [Qnum Qden] in E.
      rewrite P in E; lia.
    + apply negb_false_iff, Qle_bool_iff.
      unfold Qle; cbn [Qnum Qden]; rewrite P; lia.
Qed.

End SpellingEstimate.

Lemma looks_unusual_on_word_tokens_witness :
  Detector.looks_unusual "thereee" = Spec.rare_pair_test "thereee".
Proof.
  apply (looks_unusual_on_word_tokens
           (body Samples.elongated_words_request) "thereee").
  vm_compute; auto.
Defined.

Section AddressDomain.
Import PyStr Detector Spec.

Lemma contains_char (c : ascii) (s : string) :
  contains (String c EmptyString) s = existsb_str (Ascii.eqb c) s.
Proof.
  unfold contains, find.
  induction s as [|b s IH]; [reflexivity|].
  cbn [index prefix existsb_str].
  destruct (ascii_dec c b) as [->|N].
  - rewrite Ascii.eqb_refl; now destruct s.
  - rewrite (proj2 (Ascii.eqb_neq c b) N); cbn [orb].
    rewrite <- IH; now destruct (index 0 (String c EmptyString) s).
Qed.

Lemma after_last_no_separator (c : ascii) (s : string) :
  existsb_str (Ascii.eqb c) (after_last c s) = false.
Proof.
  induction s as [|d s IH]; [reflexivity|].
  cbn [after_last].
  destruct (existsb_str (Ascii.eqb c) s) eqn:E; [exact IH|].
  destruct (Ascii.eqb c d) eqn:D; [exact E|].
  cbn [existsb_str]; now rewrite D, E.
Qed.

Lemma lower_char_at_sign (c : ascii) :
  negb (Ascii.eqb "@" c) = true -> negb (Ascii.eqb "@" (lower_char c)) = true.
Proof.
  destruct c as [[] [] [] [] [] [] [] []]; intros H;
    try discriminate H; reflexivity.
Qed.

(** X23.  The domain of an address is what follows its last at-sign, in
    lower case: an address without an at-sign (or an absent or empty one)
    has no domain, and a domain that is returned holds no at-sign and is
    its own lower-case form. *)
Theorem domain_from_email_normal_form (e : string) :
  _domain_from_email None = None
  /\ (contains "@" e = false -> _domain_from_email (Some e) = None)
  /\ (forall d, _domain_from_email (Some e) = Some d ->
        d = strip (lower (after_last "@" e))
        /\ contains "@" d = false
        /\ lower d = d).
Proof.
  split; [reflexivity|]. split.
  - intros H; unfold _domain_from_email; rewrite H.
    now rewrite orb_true_r.
  - intros d; unfold _domain_from_email.
    destruct (negb (truthy e) || negb (contains "@" e)); [discriminate|].
    intros E; injection E as <-.
    split; [reflexivity|]. split.
    + rewrite contains_char.
      apply negb_true_iff; rewrite <- all_chars_not_exists.
      apply all_chars_strip; rewrite all_chars_lower_map.
      apply all_chars_weaken
        with (p := fun c => negb (Ascii.eqb "@" c));
        [exact lower_char_at_sign|].
      rewrite all_chars_not_exists.
      apply negb_true_iff, after_last_no_separator.
    + apply lower_fixed, all_chars_strip, all_chars_lower.
Qed.

End AddressDomain.

Lemma domain_from_email_normal_form_witness :
  Detector._domain_from_email (Some "Billing@Mail.Example.COM ")
  = Some "mail.example.com"
  /\ PyStr.lower "mail.example.com" = "mail.example.com".
Proof.
  destruct (domain_from_email_normal_form "Billing@Mail.Example.COM ")
    as (_ & _ & H).
  destruct (H "mail.example.com" eq_refl) as (_ & _ & L).
  split; [reflexivity | exact L].
Defined.

Section IpLiteral.
Import PyStr Detector Spec.

Lemma append_nil_r (s : string) : s ++ EmptyString = s.
Proof. induction s as [|c s IH]; cbn [append]; [|rewrite IH]; reflexivity. Qed.

Lemma is_code_eq (n : N) (c : ascii) :
  is_code n c = true -> c = ascii_of_N n.
Proof.
  unfold is_code, code; intros H; apply N.eqb_eq in H.
  now rewrite <- H, ascii_N_embedding.
Qed.

Lemma span_spec (p : ascii -> bool) (s : string) :
  forall run rest,
    span p s = (run, rest) ->
    s = run ++ rest
    /\ all_chars p run = true
    /\ match rest with
       | EmptyString => True
       | String c _ => p c = false
       end.
Proof.
  induction s as [|c s IH]; intros run rest; cbn [span].
  - intros E; injection E as <- <-; repeat split.
  - destruct (p c) eqn:Pc.
    + destruct (span p s) as [run' rest'] eqn:S.
      intros E; injection E as <- <-.
      destruct (IH run' rest' eq_refl) as (E1 & A & R).
      cbn [append all_chars]; rewrite Pc, A, <- E1; repeat split; exact R.
    + intros E; injection E as <- <-; repeat split; exact Pc.
Qed.

Lemma span_app (p : ascii -> bool) (run rest : string) :
  all_chars p run = true ->
  match rest with
  | EmptyString => True
  | String c _ => p c = false
  end ->
  span p (run ++ rest) = (run, rest).
Proof.
  intros A R; induction run as [|c run IH]; cbn [append].
  - destruct rest as [|c r]; cbn [span]; [reflexivity | now rewrite R].
  - cbn [all_chars] in A; apply andb_true_iff in A; destruct A as [Pc A].
    cbn [span]; now rewrite Pc, (IH A).
Qed.

Lemma digits_1_3_group (s rest : string) :
  Re.digits_1_3 s = Some rest
  <-> exists g,
        digit_group g /\ s = g ++ rest
        /\ match rest with
           | EmptyString => True
           | String c _ => is_ascii_digit c = false
           end.
Proof.
  unfold Re.digits_1_3, digit_group; split.
  - destruct (span is_ascii_digit s) as [d r] eqn:S.
    destruct (span_spec _ _ _ _ S) as (E & A & R).
    destruct (Nat.leb_spec 1 (String.length d)) as [L1|]; [|discriminate].
    destruct (Nat.leb_spec (String.length d) 3) as [L3|]; [|discriminate].
    intros H; injection H as <-.
    exists d; repeat split; assumption.
  - intros (g & (A & L1 & L3) & -> & R).
    rewrite (span_app _ _ _ A R).
    apply Nat.leb_le in L1, L3; now rewrite L1, L3.
Qed.

Lemma digits_1_3_dot_group (s rest : string) :
  Re.digits_1_3_dot s = Some rest
  <-> exists g, digit_group g /\ s = g ++ "." ++ rest.
Proof.
  unfold Re.digits_1_3_dot; split.
  - destruct (Re.digits_1_3 s) as [[|c r]|] eqn:D; try discriminate.
    destruct (is_code 46 c) eqn:C; [|discriminate].
    intros H; injection H as <-.
    apply is_code_eq in C; subst c.
    apply digits_1_3_group in D; destruct D as (g & G & E & _).
    now exists g.
  - intros (g & G & ->).
    assert (D : Re.digits_1_3 (g ++ "." ++ rest) = Some ("." ++ rest))
      by (apply digits_1_3_group; exists g;
          split; [exact G | split; reflexivity]).
    now rewrite D.
Qed.

(** X24.  A domain looks like an IP address exactly when it is four
    groups of one to three decimal digits separated by dots, and nothing
    else; the value of a group is not looked at, so 999.999.999.999 passes
    as well. *)
Theorem looks_like_ip_four_groups (s : string) :
  _looks_like_ip s = true
  <-> exists a b c d,
        digit_group a /\ digit_group b /\ digit_group c /\ digit_group d
        /\ s = a ++ "." ++ b ++ "." ++ c ++ "." ++ d.
Proof.
  unfold _looks_like_ip, Re.fullmatch_ipv4; split.
  - destruct (Re.digits_1_3_dot s) as [r1|] eqn:D1; [|discriminate].
    destruct (Re.digits_1_3_dot r1) as [r2|] eqn:D2; [|discriminate].
    destruct (Re.digits_1_3_dot r2) as [r3|] eqn:D3; [|discriminate].
    destruct (Re.digits_1_3 r3) as [[|x r4]|] eqn:D4; try discriminate.
    intros _.
    apply digits_1_3_dot_group in D1, D2, D3.
    apply digits_1_3_group in D4.
    destruct D1 as (a & Ga & ->), D2 as (b & Gb & ->), D3 as (c & Gc & ->),
      D4 as (d & Gd & -> & _).
    exists a, b, c, d.
    split; [exact Ga|]. split; [exact Gb|]. split; [exact Gc|].
    split; [exact Gd|]. now rewrite (append_nil_r d).
  - intros (a & b & c & d & Ga & Gb & Gc & Gd & ->).
    rewrite (proj2 (digits_1_3_dot_group _ (b ++ "." ++ c ++ "." ++ d)))
      by (now exists a).
    rewrite (proj2 (digits_1_3_dot_group _ (c ++ "." ++ d)))
      by (now exists b).
    rewrite (proj2 (digits_1_3_dot_group _ d)) by (now exists c).
    rewrite (proj2 (digits_1_3_group d EmptyString));
      [reflexivity|].
    exists d; split; [exact Gd | split; [|exact I]].
    now rewrite (append_nil_r d).
Qed.

End IpLiteral.

(* ================================================================= *)
(** * Further properties of the standalone engine *)

Section StandaloneScore.
Import PyStr PhishingDetector Spec.
Open Scope Z_scope.

Lemma points_range (hi mid lo : Z) (severity : string) :
  lo <= mid -> mid <= hi ->
  lo <= points hi mid lo severity <= hi.
Proof.
  intros; unfold points.
  destruct (String.eqb severity "high"), (String.eqb severity "medium"); lia.
Qed.

(** X25.  The score of the standalone engine lies between 0 and 100.  One
    category alone never gives more than Low, and High needs at least three
    categories that report a detection; with none the score is 0. *)
Theorem calculate_risk_score_bounds
  (results : Results) (score : Z) (level : string) :
  _calculate_risk_score results = Ok (score, level) ->
  0 <= score <= 100
  /\ (detected_count results = 0%nat -> score = 0)
  /\ ((detected_count results <= 1)%nat -> level = "Low")
  /\ ((detected_count results <= 2)%nat -> String.eqb level "High" = false).
Proof.
  unfold _calculate_risk_score, detected_count, bind.
  pose proof (points_range 20 12 5
                (urgency_severity (urgency_tactics results))) as P1.
  pose proof (points_range 25 15 8
                (sensitive_severity (sensitive_info_requests results))) as P3.
  pose proof (points_range 20 12 6
                (link_severity (link_analysis results))) as P4.
  pose proof (points_range 10 6 3
                (grammar_severity (grammar_issues results))) as P5.
  destruct (urgency_detected (urgency_tactics results));
    destruct (detected (sender_analysis results));
    try (destruct (sender_severity (sender_analysis results)) as [sv|];
         [pose proof (points_range 25 15 8 sv) as P2 | discriminate]);
    destruct (sensitive_detected (sensitive_info_requests results));
    destruct (link_detected (link_analysis results));
    destruct (grammar_detected (grammar_issues results));
    intros E; injection E as <- <-; cbn [Nat.b2n];
    repeat match goal with
           | |- context [?a <=? ?b] => destruct (Z.leb_spec a b)
           end;
    (split; [lia |
     split; [intros; try reflexivity; lia |
     split; [intros; try reflexivity; lia |
             intros; try reflexivity; lia]]]).
Qed.

(** X26.  The scoring reads the severity of the sender analysis only when
    that analysis reports a detection, and every analysis that
    [_analyze_sender] returns, like the empty one stored when no sender is
    given, has a severity whenever it reports one: on such results the
    scoring never raises. *)
Theorem calculate_risk_score_total
  (libs : Libs) (address : string) (results : Results) :
  sender_analysis results = _analyze_sender libs address
  \/ sender_analysis results = no_sender_analysis ->
  exists score level, _calculate_risk_score results = Ok (score, level).
Proof.
  intros H; unfold _calculate_risk_score, bind.
  assert (S : detected (sender_analysis results) = false
              \/ exists sv, sender_severity (sender_analysis results) = Some sv).
  { destruct H as [-> | ->]; [|now left].
    unfold _analyze_sender.
    destruct (negb (truthy address)); [now left|].
    destruct (negb (contains "@" address)); right; eexists; reflexivity. }
  destruct S as [-> | (sv & ->)].
  - eexists; eexists; reflexivity.
  - destruct (detected (sender_analysis results));
      eexists; eexists; reflexivity.
Qed.

End StandaloneScore.

Lemma calculate_risk_score_bounds_witness :
  PhishingDetector._calculate_risk_score Samples.two_category_results
  = Ok (50%Z, "Medium")
  /\ String.eqb "Medium" "High" = false.
Proof.
  split; [reflexivity|].
  destruct (calculate_risk_score_bounds Samples.two_category_results 50
              "Medium" eq_refl) as (_ & _ & _ & H).
  apply H; vm_compute; apply le_n.
Defined.

Lemma calculate_risk_score_total_witness :
  exists score level,
    PhishingDetector._calculate_risk_score Samples.two_category_results
    = Ok (score, level).
Proof.
  apply (calculate_risk_score_total Samples.offline_libs
           Samples.spoofed_sender Samples.two_category_results).
  left; reflexivity.
Defined.

(* ================================================================= *)
(** * Keyword and pattern searches of the standalone engine *)

Section Substrings.
Import PyStr.

Lemma contains_nil (sub : string) :
  contains sub EmptyString = prefix sub EmptyString.
Proof. now destruct sub. Qed.

Lemma contains_cons (sub : string) (c : ascii) (s : string) :
  contains sub (String c s) = prefix sub (String c s) || contains sub s.
Proof.
  unfold contains, find; cbn [index].
  destruct (prefix sub (String c s)); [reflexivity|].
  now destruct (index 0 sub s).
Qed.

Lemma prefix_app (p s : string) :
  prefix p s = true <-> exists rest, s = p ++ rest.
Proof.
  revert s; induction p as [|a p IH]; intros s.
  - split; [intros _; now exists s | now destruct s].
  - destruct s as [|b s]; cbn [prefix append].
    + split; [discriminate | intros [rest E]; discriminate E].
    + destruct (ascii_dec a b) as [<-|N].
      * rewrite IH; split; intros [rest E]; exists rest;
          [now rewrite E | now injection E].
      * split; [discriminate|].
        intros [rest E]; injection E as E1 _; now destruct N.
Qed.

Lemma prefix_contains (sub s : string) :
  prefix sub s = true -> contains sub s = true.
Proof.
  destruct s as [|c s]; intros H;
    [now rewrite contains_nil | now rewrite contains_cons, H].
Qed.

Lemma contains_tail (sub : string) (c : ascii) (s : string) :
  contains sub s = true -> contains sub (String c s) = true.
Proof. intros H; rewrite contains_cons, H; apply orb_true_r. Qed.

Lemma contains_after (sub pre s : string) :
  contains sub s = true -> contains sub (pre ++ s) = true.
Proof.
  intros H; induction pre as [|c pre IH]; cbn [append];
    [exact H | now apply contains_tail].
Qed.

Lemma append_assoc (a b c : string) : (a ++ b) ++ c = a ++ b ++ c.
Proof. induction a as [|x a IH]; cbn [append]; [|rewrite IH]; reflexivity. Qed.

(** [sub in s] holds exactly when [s] is [sub] between two texts. *)
Lemma contains_occurs (sub s : string) :
  contains sub s = true <-> exists pre post, s = pre ++ sub ++ post.
Proof.
  split.
  - induction s as [|c s IH].
    + rewrite contains_nil; intros H; apply prefix_app in H.
      destruct H as [rest E]; now exists EmptyString, rest.
    + rewrite contains_cons; intros H; apply orb_true_iff in H.
      destruct H as [H|H].
      * apply prefix_app in H; destruct H as [rest E].
        now exists EmptyString, rest.
      * destruct (IH H) as (pre & post & ->).
        now exists (String c pre), post.
  - intros (pre & post & ->).
    apply contains_after, prefix_contains, prefix_app; now exists post.
Qed.

(** A text that holds [b] holds every text that [b] holds. *)
Lemma contains_trans (a b s : string) :
  contains a b = true -> contains b s = true -> contains a s = true.
Proof.
  intros H1 H2.
  apply contains_occurs in H1, H2.
  destruct H1 as (p1 & q1 & ->), H2 as (p2 & q2 & ->).
  apply contains_occurs; exists (p2 ++ p1), (q1 ++ q2).
  now rewrite !append_assoc.
Qed.

Lemma lower_lower (s : string) : lower (lower s) = lower s.
Proof.
  induction s as [|c s IH]; cbn [lower];
    [|rewrite lower_char_fixed, IH]; reflexivity.
Qed.


Lemma filter_none {A : Type} (p : A -> bool) (l : list A) (x : A) :
  filter p l = [] -> In x l -> p x = false.
Proof.
  intros E H; destruct (p x) eqn:P; [|reflexivity].
  assert (I : In x (filter p l)) by (apply filter_In; now split).
  rewrite E in I; destruct I.
Qed.

Lemma filter_two {A : Type} (p : A -> bool) (l : list A) (x y : A) :
  x <> y -> In x (filter p l) -> In y (filter p l) ->
  2 <= List.length (filter p l).
Proof.
  intros N Hx Hy.
  destruct (filter p l) as [|a [|b m]]; cbn [List.length]; try lia.
  - destruct Hx.
  - destruct Hx as [<-|[]], Hy as [<-|[]]; now destruct N.
Qed.

Lemma filter_subsequence (p : string -> bool) (l : list string) :
  Spec.subsequence (filter p l) l = true.
Proof.
  induction l as [|x l IH]; [reflexivity|].
  cbn [filter]; destruct (p x) eqn:P; cbn [Spec.subsequence].
  - now rewrite String.eqb_refl.
  - destruct (filter p l) as [|y m] eqn:F; [reflexivity|].
    destruct (String.eqb y x) eqn:E; [|exact IH].
    apply String.eqb_eq in E; subst y.
    assert (I : In x (filter p l)) by (rewrite F; now left).
    apply filter_In in I; destruct I as [_ Px]; congruence.
Qed.

Lemma severity_by_count_low (hi mid n : nat) :
  1 <= mid -> mid <= hi ->
  PhishingDetector.severity_by_count hi mid n = "low" <-> n < mid.
Proof.
  intros M H; unfold PhishingDetector.severity_by_count.
  destruct (Nat.leb_spec hi n), (Nat.leb_spec mid n);
    split; intros E; try discriminate E; try lia; reflexivity.
Qed.

Lemma severity_by_count_high (hi mid n : nat) :
  PhishingDetector.severity_by_count hi mid n = "high" <-> hi <= n.
Proof.
  unfold PhishingDetector.severity_by_count.
  destruct (Nat.leb_spec hi n), (Nat.leb_spec mid n);
    split; intros E; try discriminate E; try lia; reflexivity.
Qed.

End Substrings.

Section StandaloneKeywords.
Import PyStr PhishingDetector Spec.





Lemma gap_then_target_contains (gap : nat) :
  forall s,
    gap_then_target gap s = true ->
    exists target, In target form_targets /\ contains target s = true.
Proof.
  assert (T : forall s,
             existsb (fun target => prefix target s) form_targets = true ->
             exists target, In target form_targets /\ contains target s = true).
  { intros s H; apply existsb_exists in H; destruct H as (t & I & P).
    exists t; split; [exact I | now apply prefix_contains]. }
  induction gap as [|g IH]; intros s H.
  - destruct s as [|c s]; cbn [gap_then_target] in H;
      rewrite orb_false_r in H; exact (T _ H).
  - destruct s as [|c s]; cbn [gap_then_target] in H;
      [rewrite orb_false_r in H; exact (T _ H)|].
    apply orb_true_iff in H; destruct H as [H|H]; [exact (T _ H)|].
    apply andb_true_iff in H; destruct H as [_ H].
    destruct (IH s H) as (t & I & C).
    exists t; split; [exact I | now apply contains_tail].
Qed.

Lemma drop_prefix_app (p rest : string) : drop_prefix p (p ++ rest) = rest.
Proof.
  unfold drop_prefix.
  induction p as [|c p IH]; cbn [append String.length].
  - rewrite Nat.sub_0_r.
    induction rest as [|d rest IHr]; cbn [substring String.length];
      [reflexivity | now rewrite IHr].
  - cbn [substring Nat.sub]; exact IH.
Qed.

Lemma search_form_fields_contains (s : string) :
  search_form_fields s = true ->
  (exists verb, In verb form_verbs /\ contains verb s = true)
  /\ (exists target, In target form_targets /\ contains target s = true).
Proof.
  induction s as [|c s IH]; cbn [search_form_fields]; [discriminate|].
  intros H; apply orb_true_iff in H; destruct H as [H|H].
  - apply existsb_exists in H; destruct H as (verb & I & H).
    apply andb_true_iff in H; destruct H as [P G].
    pose proof P as P'; apply prefix_app in P'; destruct P' as [rest E].
    rewrite E, drop_prefix_app in G.
    destruct (gap_then_target_contains _ _ G) as (t & It & C).
    split.
    + exists verb; split; [exact I | now apply prefix_contains].
    + exists t; split; [exact It|].
      rewrite E; now apply contains_after.
  - destruct (IH H) as ((verb & I & C) & (t & It & Ct)).
    split; [exists verb | exists t]; (split; [assumption|]);
      now apply contains_tail.
Qed.

(** X28.  The sensitive keywords are looked for as substrings of the
    lower-cased content, so the case of the content does not matter, and
    the phrase confirm your password, which holds the keyword password,
    always reports both and with them the severity high.  A detection of
    severity low is one with no keyword at all: it comes from the form
    pattern, whose only target outside the keyword list is card, after one
    of its five verbs. *)
Theorem check_sensitive_info_requests (content : string) :
  let r := _check_sensitive_info content in
  _check_sensitive_info (lower content) = r
  /\ subsequence (requested_info r) SENSITIVE_INFO_KEYWORDS = true
  /\ (In "confirm your password" (requested_info r)
      -> In "password" (requested_info r) /\ sensitive_severity r = "high")
  /\ (sensitive_detected r = true -> sensitive_severity r = "low"
      -> requested_info r = []
         /\ has_form_fields r = true
         /\ contains "card" (lower content) = true
         /\ exists verb,
              In verb form_verbs /\ contains verb (lower content) = true).
Proof.
  cbv zeta.
  split; [unfold _check_sensitive_info; now rewrite lower_lower|].
  split; [apply filter_subsequence|].
  split.
  { cbn [_check_sensitive_info requested_info sensitive_severity].
    intros H.
    assert (P : In "password"
                  (filter (fun keyword => contains keyword (lower content))
                          SENSITIVE_INFO_KEYWORDS)).
    { apply filter_In in H; destruct H as [_ H].
      apply filter_In; split; [apply mem_In; reflexivity|].
      exact (contains_trans "password" "confirm your password" _ eq_refl H). }
    split; [exact P|].
    apply severity_by_count_high.
    apply (filter_two _ _ "confirm your password" "password");
      [discriminate | exact H | exact P]. }
  cbn [_check_sensitive_info requested_info sensitive_severity
       sensitive_detected has_form_fields].
  intros D L.
  apply severity_by_count_low in L; [|lia|lia].
  destruct (filter _ SENSITIVE_INFO_KEYWORDS) as [|k ks] eqn:F;
    [|cbn [List.length] in L; lia].
  cbn [List.length Nat.ltb Nat.leb orb] in D.
  split; [reflexivity|]. split; [exact D|].
  destruct (search_form_fields_contains _ D) as (V & (t & It & C)).
  split; [|exact V].
  assert (N : forall k, In k SENSITIVE_INFO_KEYWORDS ->
                        contains k (lower content) = false)
    by (intros k0 I0; exact (filter_none _ _ k0 F I0)).
  destruct It as [<-|[<-|[<-|[<-|[]]]]]; [|exact C| |];
    rewrite N in C by (apply mem_In; reflexivity); discriminate C.
Qed.

End StandaloneKeywords.

Section StandaloneUrls.
Import PyStr PhishingDetector Spec.
Variable libs : Libs.
Variable urlparse_netloc : string -> option string.

Lemma match_ipv4_prefix_groups (s : string) :
  match_ipv4_prefix s = true
  <-> exists a b c d rest,
        digit_group a /\ digit_group b /\ digit_group c
        /\ is_ascii_digit d = true
        /\ s = a ++ "." ++ b ++ "." ++ c ++ "." ++ String d rest.
Proof.
  unfold match_ipv4_prefix; split.
  - destruct (Re.digits_1_3_dot s) as [r1|] eqn:D1; [|discriminate].
    destruct (Re.digits_1_3_dot r1) as [r2|] eqn:D2; [|discriminate].
    destruct (Re.digits_1_3_dot r2) as [[|d rest]|] eqn:D3; try discriminate.
    intros D.
    apply digits_1_3_dot_group in D1, D2, D3.
    destruct D1 as (a & Ga & ->), D2 as (b & Gb & ->), D3 as (c & Gc & ->).
    exists a, b, c, d, rest; repeat (split; [assumption|]); reflexivity.
  - intros (a & b & c & d & rest & Ga & Gb & Gc & D & ->).
    rewrite (proj2 (digits_1_3_dot_group _
                      (b ++ "." ++ c ++ "." ++ String d rest)))
      by (now exists a).
    rewrite (proj2 (digits_1_3_dot_group _ (c ++ "." ++ String d rest)))
      by (now exists b).
    rewrite (proj2 (digits_1_3_dot_group _ (String d rest)))
      by (now exists c).
    exact D.
Qed.

Lemma shortener_occurs (domain : string) :
  existsb (fun shortener => contains shortener domain) shorteners = true
  <-> exists shortener pre post,
        In shortener shorteners /\ domain = pre ++ shortener ++ post.
Proof.
  rewrite existsb_exists; split.
  - intros (sh & I & C); apply contains_occurs in C.
    destruct C as (pre & post & E); now exists sh, pre, post.
  - intros (sh & pre & post & I & E); exists sh; split; [exact I|].
    apply contains_occurs; now exists pre, post.
Qed.

(** X29.  A URL that [urlparse] rejects gets the single issue Malformed
    URL.  A URL that parses never gets that issue: its issues are at most
    six, drawn from a fixed vocabulary in the order of the checks, each at
    most once. *)
Theorem check_url_suspicious_issues (url : string) :
  let issues := _check_url_suspicious libs urlparse_netloc url in
  match urlparse_netloc url with
  | None => issues = ["Malformed URL"]
  | Some domain =>
      subsequence issues url_issue_vocabulary = true
      /\ List.length issues <= 6
      /\ mem "Malformed URL" issues = false
  end.
Proof.
  cbv zeta; unfold _check_url_suspicious.
  destruct (urlparse_netloc url) as [domain|]; [|reflexivity].
  set (tld := if truthy (suffix (tldextract_extract libs domain))
              then "." ++ suffix (tldextract_extract libs domain)
              else EmptyString).
  destruct (mem tld SUSPICIOUS_TLDS) eqn:Tld.
  - apply mem_In in Tld.
    assert (C : In tld SUSPICIOUS_TLDS) by exact Tld.
    clearbody tld; clear Tld.
    destruct (match_ipv4_prefix domain);
      destruct (contains "@" url);
      destruct (Nat.ltb 200 (String.length url));
      destruct (existsb _ shorteners);
      destruct (Nat.ltb 3 (count_char "." domain));
      (repeat (destruct C as [<-|C]); [..|destruct C]);
      (split; [reflexivity | split; [cbn; lia | reflexivity]]).
  - clearbody tld; clear Tld.
    destruct (match_ipv4_prefix domain);
      destruct (contains "@" url);
      destruct (Nat.ltb 200 (String.length url));
      destruct (existsb _ shorteners);
      destruct (Nat.ltb 3 (count_char "." domain));
      (split; [reflexivity | split; [cbn; lia | reflexivity]]).
Qed.

Ltac settle_membership :=
  unfold list_append; cbn [List.app In append];
  split; intros H;
  try reflexivity; try discriminate H;
  try (repeat (destruct H as [H|H]; try discriminate H); now destruct H);
  tauto.

(** X30.  Three of the checks are plain text tests.  The IP-address issue
    is reported exactly when the network location begins with three groups
    of one to three digits, each followed by a dot, and one more digit:
    what follows is not looked at, so a host name that merely starts like
    an address is reported.  The shortener issue is reported exactly when
    one of the six shortener names occurs anywhere in the network location,
    and the at-sign issue exactly when the URL holds an at-sign. *)
Theorem check_url_suspicious_text_tests (url domain : string) :
  urlparse_netloc url = Some domain ->
  let issues := _check_url_suspicious libs urlparse_netloc url in
  (In "Uses IP address instead of domain name" issues
   <-> exists a b c d rest,
         digit_group a /\ digit_group b /\ digit_group c
         /\ is_ascii_digit d = true
         /\ domain = a ++ "." ++ b ++ "." ++ c ++ "." ++ String d rest)
  /\ (In "Uses URL shortener (hides destination)" issues
      <-> exists shortener pre post,
            In shortener shorteners /\ domain = pre ++ shortener ++ post)
  /\ (In "Contains @ symbol (possible redirect trick)" issues
      <-> exists pre post, url = pre ++ "@" ++ post).
Proof.
  intros N; cbv zeta.
  rewrite <- match_ipv4_prefix_groups, <- shortener_occurs,
    <- (contains_occurs "@" url).
  unfold _check_url_suspicious; rewrite N.
  set (tld := if truthy (suffix (tldextract_extract libs domain))
              then "." ++ suffix (tldextract_extract libs domain)
              else EmptyString).
  clearbody tld.
  destruct (match_ipv4_prefix domain);
    destruct (mem tld SUSPICIOUS_TLDS);
    destruct (contains "@" url);
    destruct (Nat.ltb 200 (String.length url));
    destruct (existsb _ shorteners);
    destruct (Nat.ltb 3 (count_char "." domain));
    (split; [settle_membership | split; settle_membership]).
Qed.

End StandaloneUrls.

Lemma check_url_suspicious_text_tests_witness :
  In "Uses IP address instead of domain name"
     (PhishingDetector._check_url_suspicious Samples.offline_libs
        Samples.simple_netloc "http://192.168.0.1.example.com/login")
  /\ In "Uses URL shortener (hides destination)"
        (PhishingDetector._check_url_suspicious Samples.offline_libs
           Samples.simple_netloc "https://microsoft.com/login").
Proof.
  split.
  - destruct (check_url_suspicious_text_tests Samples.offline_libs
                Samples.simple_netloc "http://192.168.0.1.example.com/login"
                "192.168.0.1.example.com" eq_refl) as (H & _ & _).
    apply H.
    exists "192", "168", "0", "1"%char, ".example.com".
    unfold Spec.digit_group; cbn.
    repeat split; repeat constructor.
  - destruct (check_url_suspicious_text_tests Samples.offline_libs
                Samples.simple_netloc "https://microsoft.com/login"
                "microsoft.com" eq_refl) as (_ & H & _).
    apply H.
    exists "t.co", "microsof", "m".
    split; [cbn; tauto | reflexivity].
Defined.

Lemma typosquatting_without_backslash_witness :
  Detector._has_typosquatting_pattern "baaad-mail.com" = false.
Proof.
  rewrite (typosquatting_without_backslash "baaad-mail.com" eq_refl).
  reflexivity.
Defined.

Lemma language_anomalies_by_indicators_witness :
  exists f,
    Detector._detect_language_anomalies Samples.ellipsis_request = [f]
    /\ List.length (evidence f) = 1
    /\ severity f = low.
Proof.
  destruct (language_anomalies_by_indicators Samples.ellipsis_request)
    as [_ H]; [vm_compute; repeat constructor|].
  apply H; vm_compute; repeat constructor.
Defined.

Lemma analyze_email_up_to_evidence_order_witness :
  Spec.same_up_to_evidence_order_response
    (Detector.analyze_email Samples.offline_libs Detector.source_order
       Samples.two_keyword_request)
    (Detector.analyze_email Samples.offline_libs Samples.reversed_order
       Samples.two_keyword_request).
Proof.
  apply (analyze_email_up_to_evidence_order Samples.offline_libs
           Detector.source_order Samples.reversed_order
           source_order_well_formed reversed_order_well_formed
           Samples.two_keyword_request).
Defined.


Lemma check_sensitive_info_requests_witness :
  PhishingDetector.sensitive_detected
    (PhishingDetector._check_sensitive_info "Please ENTER your Card number.")
  = true
  /\ PhishingDetector.sensitive_severity
       (PhishingDetector._check_sensitive_info
          "Please ENTER your Card number.")
     = "low"
  /\ PhishingDetector.requested_info
       (PhishingDetector._check_sensitive_info
          "Please ENTER your Card number.")
     = []
  /\ PyStr.contains "card" (PyStr.lower "Please ENTER your Card number.")
     = true.
Proof.
  destruct (check_sensitive_info_requests "Please ENTER your Card number.")
    as (_ & _ & _ & H).
  destruct (H eq_refl eq_refl) as (R & _ & C & _).
  split; [reflexivity|]. split; [reflexivity|]. split; [exact R | exact C].
Defined.

Lemma sensitive_snippets_quote_keywords_witness :
  exists snippets,
    Wide._detect_sensitive_requests Samples.reversed_order
      Samples.capitals_body
    = [ {| Wide.category := "Sensitive Data Request";
           Wide.description :=
             "Email references requests for sensitive or credential information.";
           Wide.severity := high;
           Wide.evidence := snippets |} ]
    /\ Forall2
         (fun kw snippet =>
            exists start,
              Spec.first_reading Samples.capitals_body kw start
              /\ snippet = Spec.window_around Samples.capitals_body kw start
              /\ Spec.holds_keyword snippet kw = true)
         [Wide.of_string "pin"; Wide.of_string "password"] snippets.
Proof.
  exact (sensitive_snippets_quote_keywords Samples.reversed_order
           Samples.capitals_body reversed_order_well_formed eq_refl).
Defined.
